(** * q2-fmt: Proportional Engraftment of Donor Strains (PEDS)

    A shallow embedding of [q2_fmt/_peds.py] and the properties of its
    specification.

    Conventions of the embedding.
    - A pandas [DataFrame] of metadata is a list of rows, each an index
      label with one cell per column; a [Series] is a list of labelled
      cells.  Row order is the order of the frame.
    - Numeric cells hold integers: the code only tests them for
      missingness and equality, and sorts them in [groupby].
    - The feature table holds integer abundances; the code only tests
      them against zero.
    - A float produced by numpy's true division is kept exact
      ([FVal q]), with the two special results of a division by zero
      ([FNaN], [FInf]); rounding to binary64 is not modelled.
    - The table and the metadata the caller passes, and the result
      frame [peds_df], are objects in a heap: [peds_df.loc[n] = row]
      updates the object in place, every other operation of the code
      builds a new value.
    - The presentation attributes ([attrs] titles and descriptions) of
      the result columns are not modelled. *)

From Stdlib Require Import List String ZArith QArith Bool Arith Lia.
Import ListNotations.

Local Open Scope string_scope.
Local Open Scope list_scope.
Local Open Scope nat_scope.

(** ** Values *)

(** A metadata cell: pandas holds a float, a string, or NaN for a
    missing value. *)
Inductive cell : Type :=
| Num (z : Z)
| Str (s : string)
| NA.

(** The declared type of a [qiime2] metadata column. *)
Inductive ctype : Type :=
| Numeric
| Categorical.

(** The result of numpy's true division of two integers. *)
Inductive float : Type :=
| FNaN
| FInf (negative : bool)
| FVal (q : Q).

(** A cell of the result frame. *)
Inductive value : Type :=
| VStr (s : string)
| VFloat (f : float)
| VInt (z : Z)
| VCell (c : cell).

Definition ctype_eqb (a b : ctype) : bool :=
  match a, b with
  | Numeric, Numeric | Categorical, Categorical => true
  | _, _ => false
  end.

(** Structural equality of cells: NaN equals NaN.  This is the equality
    of [unique], [is_unique] and [value_counts]. *)
Definition cell_eqb (a b : cell) : bool :=
  match a, b with
  | Num x, Num y => Z.eqb x y
  | Str x, Str y => String.eqb x y
  | NA, NA => true
  | _, _ => false
  end.

(** Elementwise [==] of pandas: NaN is equal to nothing. *)
Definition cell_pd_eq (a b : cell) : bool :=
  match a, b with
  | Num x, Num y => Z.eqb x y
  | Str x, Str y => String.eqb x y
  | _, _ => false
  end.

Definition isna (c : cell) : bool :=
  match c with NA => true | _ => false end.

Definition notna (c : cell) : bool := negb (isna c).

Definition mem_str (x : string) (l : list string) : bool :=
  existsb (String.eqb x) l.

Definition mem_cell (x : cell) (l : list cell) : bool :=
  existsb (cell_eqb x) l.

(** [isin] against a list of index labels: only a string can match. *)
Definition cell_in_labels (c : cell) (labels : list string) : bool :=
  match c with
  | Str s => mem_str s labels
  | _ => false
  end.

(** ** Errors *)

Inductive error : Type :=
(* qiime2.Metadata.filter_ids *)
| ValueError_ids_to_keep_empty
| ValueError_ids_to_keep_duplicated
| ValueError_ids_not_in_metadata (ids : list string)
(* _check_for_time_column, _check_reference_column, _check_subject_column *)
| KeyError_column_is_index (parameter column : string)
| KeyError_column_not_found (parameter column : string)
(* _check_column_type *)
| AssertionError_column_type (column_type : ctype)
                             (parameter column : string)
(* _filter_associated_reference *)
| KeyError_missing_references (ids : list string)
(* _check_duplicate_subject_timepoint *)
| ValueError_duplicate_timepoint (subject : cell) (timepoints : list cell)
(* _check_subjects_in_all_timepoints *)
| ValueError_incomplete_subjects (subjects : list cell)
(* _compute_peds *)
| AssertionError_reference_ids (missing_ref : list cell)
| KeyError_peds_type
(* raised by pandas or by the interpreter itself *)
| KeyError (label : string)
| KeyError_cell (label : cell)
| ValueError_mismatched_columns
| TypeError
| NameError (name : string)
| AttributeError (attribute : string).

Inductive result (A : Type) : Type :=
| Ok (a : A)
| Err (e : error).

Arguments Ok {A} a.
Arguments Err {A} e.

Definition rbind {A B} (r : result A) (k : A -> result B) : result B :=
  match r with
  | Ok a => k a
  | Err e => Err e
  end.

Declare Scope result_scope.
Delimit Scope result_scope with result.
Notation "x <- r ;; k" := (rbind r (fun x => k))
  (at level 61, r at next level, right associativity) : result_scope.
Notation "r ;;; k" := (rbind r (fun _ => k))
  (at level 61, right associativity) : result_scope.

(** ** Frames *)

Definition Series : Type := list (string * cell).

Record DataFrame : Type := mkDataFrame {
  df_index_name : string;
  df_columns : list string;
  df_rows : list (string * list cell)
}.

(** [qiime2.Metadata]: the frame with the declared type of each column. *)
Record Metadata : Type := mkMetadata {
  md_index_name : string;
  md_columns : list (string * ctype);
  md_rows : list (string * list cell)
}.

(** The feature table: samples by features. *)
Record Table : Type := mkTable {
  t_columns : list string;
  t_rows : list (string * list Z)
}.

(** The table after [table > 0]. *)
Record BoolTable : Type := mkBoolTable {
  bt_columns : list string;
  bt_rows : list (string * list bool)
}.

(** The result frame.  Rows carry their index label: [peds_df.loc[n]]
    addresses a row by label. *)
Record PedsFrame : Type := mkPedsFrame {
  p_columns : list string;
  p_rows : list (nat * list value)
}.

Definition t_index (t : Table) : list string := map fst (t_rows t).
Definition bt_index (t : BoolTable) : list string := map fst (bt_rows t).
Definition df_index (d : DataFrame) : list string := map fst (df_rows d).
Definition s_index (s : Series) : list string := map fst s.
Definition s_values (s : Series) : list cell := map snd s.

(** ** pandas primitives *)

Fixpoint index_of (x : string) (l : list string) : option nat :=
  match l with
  | [] => None
  | y :: l' =>
      if String.eqb x y then Some 0
      else match index_of x l' with
           | Some n => Some (S n)
           | None => None
           end
  end.

(** [df[column]]: [None] stands for the KeyError. *)
Definition get_column (d : DataFrame) (column : string) : option Series :=
  match index_of column (df_columns d) with
  | Some j => Some (map (fun r => (fst r, nth j (snd r) NA)) (df_rows d))
  | None => None
  end.

Fixpoint lookup {A} (label : string) (l : list (string * A)) : option A :=
  match l with
  | [] => None
  | (k, v) :: l' => if String.eqb label k then Some v else lookup label l'
  end.

(** [df.loc[label, column]] on a frame with a unique index. *)
Definition loc_cell (d : DataFrame) (label column : string) : result cell :=
  match lookup label (df_rows d) with
  | None => Err (KeyError label)
  | Some cells =>
      match index_of column (df_columns d) with
      | None => Err (KeyError column)
      | Some j => Ok (nth j cells NA)
      end
  end.

(** [unique()]: the distinct values, in order of first appearance. *)
Fixpoint unique (l : list cell) : list cell :=
  match l with
  | [] => []
  | x :: l' => x :: filter (fun y => negb (cell_eqb x y)) (unique l')
  end.

(** [is_unique]: NaN counts as a value. *)
Fixpoint is_unique (l : list cell) : bool :=
  match l with
  | [] => true
  | x :: l' => negb (mem_cell x l') && is_unique l'
  end.

Definition s_dropna (s : Series) : Series :=
  filter (fun r => notna (snd r)) s.

Definition count_cell (x : cell) (l : list cell) : nat :=
  List.length (filter (cell_eqb x) l).

(** Insertion into a list of counts sorted by decreasing count, before
    the entries with the same count: [sort_counts] inserts the values
    from the last to the first, so that values with equal counts stay in
    their order of first appearance. *)
Fixpoint insert_count (x : cell * nat) (l : list (cell * nat))
  : list (cell * nat) :=
  match l with
  | [] => [x]
  | y :: l' =>
      if snd y <=? snd x then x :: y :: l'
      else y :: insert_count x l'
  end.

Definition sort_counts (l : list (cell * nat)) : list (cell * nat) :=
  fold_right insert_count [] l.

(** [value_counts()]: the occurrences of each non-missing value, by
    decreasing count. *)
Definition value_counts (s : Series) : list (cell * nat) :=
  let vs := s_values (s_dropna s) in
  sort_counts (map (fun v => (v, count_cell v vs)) (unique vs)).

(** ** qiime2.Metadata *)

Fixpoint has_dup (l : list string) : bool :=
  match l with
  | [] => false
  | x :: l' => mem_str x l' || has_dup l'
  end.

(** [sorted] on strings: increasing order of their characters' codes. *)
Fixpoint insert_string (x : string) (l : list string) : list string :=
  match l with
  | [] => [x]
  | y :: l' =>
      if String.ltb y x then y :: insert_string x l' else x :: y :: l'
  end.

Definition sorted (l : list string) : list string :=
  fold_right insert_string [] l.

(** [Metadata.filter_ids(ids_to_keep)]: the metadata restricted to the
    given identifiers, in the order of the metadata.  It refuses an
    empty or duplicated list of identifiers and identifiers the
    metadata does not have, which its error lists in sorted order. *)
Definition filter_ids (m : Metadata) (ids_to_keep : list string)
  : result Metadata :=
  match ids_to_keep with
  | [] => Err ValueError_ids_to_keep_empty
  | _ =>
      if has_dup ids_to_keep then Err ValueError_ids_to_keep_duplicated
      else
        let ids := map fst (md_rows m) in
        match filter (fun i => negb (mem_str i ids)) ids_to_keep with
        | [] =>
            Ok (mkMetadata (md_index_name m) (md_columns m)
                  (filter (fun r => mem_str (fst r) ids_to_keep) (md_rows m)))
        | missing_ids =>
            Err (ValueError_ids_not_in_metadata (sorted missing_ids))
        end
  end.

Definition to_dataframe (m : Metadata) : DataFrame :=
  mkDataFrame (md_index_name m) (map fst (md_columns m)) (md_rows m).

(** ** Filtering methods *)

Definition _check_for_time_column (metadata : DataFrame)
  (time_column : string) : result nat :=
  match get_column metadata time_column with
  | Some s => Ok (List.length (unique (s_values (s_dropna s))))
  | None =>
      if String.eqb time_column (df_index_name metadata)
      then Err (KeyError_column_is_index "time" time_column)
      else Err (KeyError_column_not_found "time" time_column)
  end.

Definition _check_reference_column (metadata : DataFrame)
  (reference_column : string) : result Series :=
  match get_column metadata reference_column with
  | Some s => Ok s
  | None =>
      if String.eqb reference_column (df_index_name metadata)
      then Err (KeyError_column_is_index "reference" reference_column)
      else Err (KeyError_column_not_found "reference" reference_column)
  end.

Definition _check_subject_column (metadata : DataFrame)
  (subject_column : string) : result Series :=
  match get_column metadata subject_column with
  | Some s => Ok s
  | None =>
      if String.eqb subject_column (df_index_name metadata)
      then Err (KeyError_column_is_index "subject" subject_column)
      else Err (KeyError_column_not_found "subject" subject_column)
  end.

Definition _check_column_type (column_properties : list (string * ctype))
  (parameter_type column : string) (column_type : ctype) : result unit :=
  match lookup column column_properties with
  | None => Err (KeyError column)
  | Some ty =>
      if ctype_eqb ty column_type then Ok tt
      else Err (AssertionError_column_type column_type parameter_type column)
  end.

Local Open Scope result_scope.

Definition cell_at (j : nat) (r : string * list cell) : cell :=
  nth j (snd r) NA.

(** [reference_series[~metadata[time_column].isna()]]: both series are
    columns of the same frame, so the boolean mask applies row by row. *)
Definition mask_notna (s mask : Series) : Series :=
  map fst (filter (fun p => notna (snd (snd p))) (combine s mask)).

Definition _filter_associated_reference (reference_series : Series)
  (metadata : DataFrame) (time_column : string)
  (filter_missing_references : bool) (reference_column : string)
  : result (DataFrame * Series) :=
  match get_column metadata time_column with
  | None => Err (KeyError time_column)
  | Some times =>
      let used_references := mask_notna reference_series times in
      if existsb (fun r => isna (snd r)) used_references then
        if filter_missing_references then
          match index_of reference_column (df_columns metadata) with
          | None => Err (KeyError reference_column)
          | Some j =>
              Ok (mkDataFrame (df_index_name metadata) (df_columns metadata)
                    (filter (fun r => notna (cell_at j r)) (df_rows metadata)),
                  s_dropna used_references)
          end
        else
          let nan_references :=
            s_index (filter (fun r => isna (snd r)) used_references) in
          Err (KeyError_missing_references nan_references)
      else Ok (metadata, used_references)
  end.

(** The body of the loop of [_check_duplicate_subject_timepoint]. *)
Definition check_subject_timepoints (metadata : DataFrame)
  (subject_column time_column : string) (subject : cell) : result unit :=
  match index_of subject_column (df_columns metadata) with
  | None => Err (KeyError subject_column)
  | Some js =>
      let subject_df :=
        filter (fun r => cell_pd_eq (cell_at js r) subject)
               (df_rows metadata) in
      match index_of time_column (df_columns metadata) with
      | None => Err (KeyError time_column)
      | Some jt =>
          let timepoint_list := map (cell_at jt) subject_df in
          if is_unique timepoint_list then Ok tt
          else Err (ValueError_duplicate_timepoint subject timepoint_list)
      end
  end.

Fixpoint for_each {A} (body : A -> result unit) (l : list A) : result unit :=
  match l with
  | [] => Ok tt
  | x :: l' => body x ;;; for_each body l'
  end.

Definition _check_duplicate_subject_timepoint (subject_series : Series)
  (metadata : DataFrame) (subject_column time_column : string)
  : result unit :=
  for_each (check_subject_timepoints metadata subject_column time_column)
           (s_values subject_series).

(** [series.filter(axis=0, items=items)]: the labels of [items] that the
    series has, in the order of [items]. *)
Definition s_filter_items (s : Series) (items : list string) : Series :=
  flat_map (fun i => match lookup i s with
                     | Some v => [(i, v)]
                     | None => []
                     end) items.

Definition _check_subjects_in_all_timepoints (subject_series : Series)
  (num_timepoints : nat) (drop_incomplete_subjects : bool)
  (metadata : DataFrame) (subject_column : string)
  (used_references : Series) : result (DataFrame * Series) :=
  let subject_occurrence_series := value_counts subject_series in
  if existsb (fun p => snd p <? num_timepoints) subject_occurrence_series
  then
    if drop_incomplete_subjects then
      let subject_to_keep :=
        map fst (filter (fun p => snd p =? num_timepoints)
                        subject_occurrence_series) in
      match index_of subject_column (df_columns metadata) with
      | None => Err (KeyError subject_column)
      | Some j =>
          let metadata' :=
            mkDataFrame (df_index_name metadata) (df_columns metadata)
              (filter (fun r => mem_cell (cell_at j r) subject_to_keep)
                      (df_rows metadata)) in
          Ok (metadata', s_filter_items used_references (df_index metadata'))
      end
    else
      let incomplete_subjects :=
        map fst (filter (fun p => negb (snd p =? num_timepoints))
                        subject_occurrence_series) in
      Err (ValueError_incomplete_subjects incomplete_subjects)
  else Ok (metadata, used_references).

(** ** PEDS calculation methods *)

(** [table > 0] *)
Definition binarize (t : Table) : BoolTable :=
  mkBoolTable (t_columns t)
    (map (fun r => (fst r, map (fun v => (0 <? v)%Z) (snd r))) (t_rows t)).

Definition _create_recipient_table (reference_series : Series)
  (time_metadata : DataFrame) (table_df : BoolTable) : BoolTable :=
  let subset_reference_series :=
    filter (fun r => mem_str (fst r) (df_index time_metadata))
           reference_series in
  mkBoolTable (bt_columns table_df)
    (filter (fun r => mem_str (fst r) (s_index subset_reference_series))
            (bt_rows table_df)).

(** [index.get_loc(label)] on a unique index: the position of the label. *)
Definition get_loc (index : list string) (label : cell) : result nat :=
  match label with
  | Str s =>
      match index_of s index with
      | Some n => Ok n
      | None => Err (KeyError s)
      end
  | _ => Err (KeyError_cell label)
  end.

Fixpoint donor_positions (time_metadata : DataFrame) (donor_df : BoolTable)
  (reference_column : string) (samples : list string) : result (list nat) :=
  match samples with
  | [] => Ok []
  | sample :: rest =>
      donor <- loc_cell time_metadata sample reference_column ;;
      n <- get_loc (bt_index donor_df) donor ;;
      donor_index_masking <-
        donor_positions time_metadata donor_df reference_column rest ;;
      Ok (n :: donor_index_masking)
  end.

(** The donor mask: for each recipient row, the presence row of its
    donor. *)
Definition _create_masking (time_metadata : DataFrame)
  (donor_df recip_df : BoolTable) (reference_column : string)
  : result (list (list bool)) :=
  donor_index_masking <-
    donor_positions time_metadata donor_df reference_column
                    (bt_index recip_df) ;;
  Ok (map (fun n => nth n (map snd (bt_rows donor_df)) [])
          donor_index_masking).

Definition and_rows (a b : list bool) : list bool :=
  map (fun p => andb (fst p) (snd p)) (combine a b).

(** [donormask & recip_df] *)
Definition _mask_recipient (donor_mask : list (list bool))
  (recip_df : BoolTable) : list (list bool) :=
  map (fun p => and_rows (fst p) (snd p))
      (combine donor_mask (map snd (bt_rows recip_df))).

Definition sum_bools (l : list bool) : Z :=
  fold_right (fun b acc => (Z.b2z b + acc)%Z) 0%Z l.

(** [np.sum(m, axis=1)] *)
Definition sum_axis1 (m : list (list bool)) : list Z := map sum_bools m.

(** [np.sum(m, axis=0)] of a matrix with [ncols] columns. *)
Definition sum_axis0 (ncols : nat) (m : list (list bool)) : list Z :=
  map (fun j => sum_bools (map (fun row => nth j row false) m))
      (seq 0 ncols).

(** numpy's [/] on two integers, with its warnings ignored. *)
Definition true_divide (a b : Z) : float :=
  if (b =? 0)%Z then
    if (a =? 0)%Z then FNaN else FInf (a <? 0)%Z
  else FVal (inject_Z a / inject_Z b)%Q.

Definition is_nan_value (v : value) : bool :=
  match v with
  | VFloat FNaN => true
  | VCell NA => true
  | _ => false
  end.

(** [peds_df.dropna()]: the rows without a missing value, with their
    labels. *)
Definition p_dropna (f : PedsFrame) : PedsFrame :=
  mkPedsFrame (p_columns f)
    (filter (fun r => negb (existsb is_nan_value (snd r))) (p_rows f)).

Fixpoint replace_row (label : nat) (row : list value)
  (rows : list (nat * list value)) : list (nat * list value) :=
  match rows with
  | [] => []
  | r :: rows' =>
      if fst r =? label then (label, row) :: replace_row label row rows'
      else r :: replace_row label row rows'
  end.

(** [peds_df.loc[label] = row]: the row with that label is overwritten,
    a new label is appended. *)
Definition p_set_loc (f : PedsFrame) (label : nat) (row : list value)
  : result PedsFrame :=
  if negb (List.length row =? List.length (p_columns f))
  then Err ValueError_mismatched_columns
  else if existsb (fun r => fst r =? label) (p_rows f)
  then Ok (mkPedsFrame (p_columns f) (replace_row label row (p_rows f)))
  else Ok (mkPedsFrame (p_columns f) (p_rows f ++ [(label, row)])).

(** [sample_row[column]] for [sample_row = metadata.loc[sample]]. *)
Definition row_field (columns : list string) (cells : list cell)
  (column : string) : result cell :=
  match index_of column columns with
  | Some j => Ok (nth j cells NA)
  | None => Err (KeyError column)
  end.

(** The row that one iteration of the Sample loop writes. *)
Definition sample_row_values (metadata : DataFrame)
  (num_sum donor_sum : list Z)
  (time_column subject_column reference_column : string)
  (count : nat) (sample : string) : result (list value) :=
  match lookup sample (df_rows metadata) with
  | None => Err (KeyError sample)
  | Some sample_row =>
      let peds := true_divide (nth count num_sum 0%Z)
                              (nth count donor_sum 0%Z) in
      donor <- row_field (df_columns metadata) sample_row reference_column ;;
      subject <- row_field (df_columns metadata) sample_row subject_column ;;
      time <- row_field (df_columns metadata) sample_row time_column ;;
      Ok [VStr sample; VFloat peds; VInt (nth count num_sum 0%Z);
          VInt (nth count donor_sum 0%Z); VCell donor; VCell subject;
          VCell time]
  end.

(** The row that one iteration of the Feature loop writes. *)
Definition feature_row_values (num_sum donor_sum : list Z)
  (peds_time : cell) (count : nat) (feature : string) : list value :=
  let peds := true_divide (nth count num_sum 0%Z)
                          (nth count donor_sum 0%Z) in
  [VStr feature; VFloat peds; VInt (nth count num_sum 0%Z);
   VInt (nth count donor_sum 0%Z); VCell peds_time; VStr feature].

(** [enumerate] *)
Definition enumerate {A} (l : list A) : list (nat * A) :=
  combine (seq 0 (List.length l)) l.

(** ** The heap of Python objects *)

Inductive obj : Type :=
| OTable (t : Table)
| OMetadata (m : Metadata)
| OFrame (f : PedsFrame).

Definition loc : Type := nat.
Definition heap : Type := list obj.

(** A computation reads and updates the heap and returns a value or
    raises; what it wrote before raising stays written. *)
Definition M (A : Type) : Type := heap -> result A * heap.

Definition ret {A} (a : A) : M A := fun h => (Ok a, h).

Definition bind {A B} (m : M A) (k : A -> M B) : M B :=
  fun h =>
    match m h with
    | (Ok a, h') => k a h'
    | (Err e, h') => (Err e, h')
    end.

Definition lift {A} (r : result A) : M A := fun h => (r, h).

Declare Scope heap_scope.
Delimit Scope heap_scope with heap.
Notation "x <- m ;; k" := (bind m (fun x => k))
  (at level 61, m at next level, right associativity) : heap_scope.
Notation "' pat <- m ;; k" :=
  (bind m (fun x => match x with pat => k end))
  (at level 61, pat pattern, m at next level, right associativity)
  : heap_scope.
Notation "m ;;; k" := (bind m (fun _ => k))
  (at level 61, right associativity) : heap_scope.

Fixpoint update (l : loc) (o : obj) (h : heap) : heap :=
  match h, l with
  | [], _ => []
  | _ :: h', 0 => o :: h'
  | x :: h', S l' => x :: update l' o h'
  end.

Definition alloc (o : obj) : M loc :=
  fun h => (Ok (List.length h), h ++ [o]).

Definition load_table (l : loc) : M Table :=
  fun h =>
    match nth_error h l with
    | Some (OTable t) => (Ok t, h)
    | _ => (Err TypeError, h)
    end.

Definition load_metadata (l : loc) : M Metadata :=
  fun h =>
    match nth_error h l with
    | Some (OMetadata m) => (Ok m, h)
    | _ => (Err TypeError, h)
    end.

Definition load_frame (l : loc) : M PedsFrame :=
  fun h =>
    match nth_error h l with
    | Some (OFrame f) => (Ok f, h)
    | _ => (Err TypeError, h)
    end.

Definition store_frame (l : loc) (f : PedsFrame) : M unit :=
  fun h =>
    match nth_error h l with
    | Some (OFrame _) => (Ok tt, update l (OFrame f) h)
    | _ => (Err TypeError, h)
    end.

Local Open Scope heap_scope.

(** [peds_df.loc[len(peds_df)] = row] on the object at [peds_df]. *)
Definition append_row (peds_df : loc) (row : list value) : M unit :=
  f <- load_frame peds_df ;;
  f' <- lift (p_set_loc f (List.length (p_rows f)) row) ;;
  store_frame peds_df f'.

Fixpoint sample_loop (peds_df : loc) (metadata : DataFrame)
  (num_sum donor_sum : list Z)
  (time_column subject_column reference_column : string)
  (samples : list (nat * string)) : M unit :=
  match samples with
  | [] => ret tt
  | (count, sample) :: rest =>
      row <- lift (sample_row_values metadata num_sum donor_sum time_column
                     subject_column reference_column count sample) ;;
      append_row peds_df row ;;;
      sample_loop peds_df metadata num_sum donor_sum time_column
                  subject_column reference_column rest
  end.

(** In the Feature loop [peds_df = peds_df.dropna()] rebinds the name to
    a new frame at every iteration. *)
Fixpoint feature_loop (peds_df : loc) (num_sum donor_sum : list Z)
  (peds_time : cell) (features : list (nat * string)) : M loc :=
  match features with
  | [] => ret peds_df
  | (count, feature) :: rest =>
      append_row peds_df
        (feature_row_values num_sum donor_sum peds_time count feature) ;;;
      f <- load_frame peds_df ;;
      peds_df' <- alloc (OFrame (p_dropna f)) ;;
      feature_loop peds_df' num_sum donor_sum peds_time rest
  end.

Definition _compute_peds (peds_df : loc) (peds_type : string)
  (peds_time : cell) (reference_series : Series) (table : loc)
  (metadata : DataFrame)
  (time_column subject_column reference_column : string) : M loc :=
  t <- load_table table ;;
  let table := binarize t in
  let missing :=
    filter (fun r => negb (cell_in_labels (snd r) (bt_index table)))
           reference_series in
  match missing with
  | _ :: _ =>
      let missing_ref := unique (s_values missing) in
      lift (Err (AssertionError_reference_ids missing_ref))
  | [] =>
      let donor_df :=
        mkBoolTable (bt_columns table)
          (filter (fun r => mem_cell (Str (fst r))
                                     (s_values reference_series))
                  (bt_rows table)) in
      let recip_df := _create_recipient_table reference_series metadata
                                              table in
      donormask <- lift (_create_masking metadata donor_df recip_df
                                         reference_column) ;;
      let maskedrecip := _mask_recipient donormask recip_df in
      if String.eqb peds_type "Sample" then
        let num_sum := sum_axis1 maskedrecip in
        let donor_sum := sum_axis1 donormask in
        sample_loop peds_df metadata num_sum donor_sum time_column
                    subject_column reference_column
                    (enumerate (bt_index recip_df)) ;;;
        ret peds_df
      else if String.eqb peds_type "Feature" then
        let ncols := List.length (bt_columns recip_df) in
        let num_sum := sum_axis0 ncols maskedrecip in
        let donor_sum := sum_axis0 ncols donormask in
        feature_loop peds_df num_sum donor_sum peds_time
                     (enumerate (bt_columns recip_df))
      else lift (Err KeyError_peds_type)
  end.

(** ** Entry points *)

Definition sample_columns : list string :=
  ["id"; "measure"; "transfered_donor_features"; "total_donor_features";
   "donor"; "subject"; "group"].

Definition feature_columns : list string :=
  ["id"; "measure"; "recipients with feature";
   "all possible recipients with feature"; "group"; "subject"].

Definition sample_peds (table metadata : loc)
  (time_column reference_column subject_column : string)
  (filter_missing_references drop_incomplete_subjects : bool) : M loc :=
  t <- load_table table ;;
  let ids_with_data := t_index t in
  md <- load_metadata metadata ;;
  md <- lift (filter_ids md ids_with_data) ;;
  let column_properties := md_columns md in
  let metadata := to_dataframe md in
  num_timepoints <- lift (_check_for_time_column metadata time_column) ;;
  lift (_check_column_type column_properties "time" time_column Numeric) ;;;
  reference_series <-
    lift (_check_reference_column metadata reference_column) ;;
  lift (_check_column_type column_properties "reference" reference_column
                           Categorical) ;;;
  ' (metadata, used_references) <-
    lift (_filter_associated_reference reference_series metadata
            time_column filter_missing_references reference_column) ;;
  subject_series <- lift (_check_subject_column metadata subject_column) ;;
  lift (_check_column_type column_properties "subject" subject_column
                           Categorical) ;;;
  lift (_check_duplicate_subject_timepoint subject_series metadata
          subject_column time_column) ;;;
  ' (metadata, used_references) <-
    lift (_check_subjects_in_all_timepoints subject_series num_timepoints
            drop_incomplete_subjects metadata subject_column
            used_references) ;;
  peds_df <- alloc (OFrame (mkPedsFrame sample_columns [])) ;;
  _compute_peds peds_df "Sample" NA used_references table metadata
                time_column subject_column reference_column.

(** The order of [groupby] keys. *)
Definition cell_ltb (a b : cell) : bool :=
  match a, b with
  | Num x, Num y => (x <? y)%Z
  | Num _, Str _ => true
  | Str x, Str y => String.ltb x y
  | _, _ => false
  end.

Fixpoint insert_key (x : cell) (l : list cell) : list cell :=
  match l with
  | [] => [x]
  | y :: l' => if cell_ltb x y then x :: y :: l' else y :: insert_key x l'
  end.

(** [metadata.groupby(column)]: one frame per distinct non-missing value
    of the column, by increasing value; rows keep their order. *)
Definition groupby (metadata : DataFrame) (column : string)
  : result (list (cell * DataFrame)) :=
  match index_of column (df_columns metadata) with
  | None => Err (KeyError column)
  | Some j =>
      let keys :=
        fold_right insert_key []
          (unique (filter notna (map (cell_at j) (df_rows metadata)))) in
      Ok (map (fun k =>
                 (k, mkDataFrame (df_index_name metadata)
                       (df_columns metadata)
                       (filter (fun r => cell_eqb (cell_at j r) k)
                               (df_rows metadata))))
              keys)
  end.

Fixpoint feature_groups_loop (peds_df : loc) (used_references : Series)
  (table : loc) (time_column subject_column reference_column : string)
  (groups : list (cell * DataFrame)) : M loc :=
  match groups with
  | [] => ret peds_df
  | (time, time_metadata) :: rest =>
      peds_df' <- _compute_peds peds_df "Feature" time used_references
                    table time_metadata time_column subject_column
                    reference_column ;;
      feature_groups_loop peds_df' used_references table time_column
                          subject_column reference_column rest
  end.

Definition feature_peds (table metadata : loc)
  (time_column reference_column subject_column : string)
  (filter_missing_references : bool) : M loc :=
  t <- load_table table ;;
  let ids_with_data := t_index t in
  md <- load_metadata metadata ;;
  md <- lift (filter_ids md ids_with_data) ;;
  let column_properties := md_columns md in
  let metadata := to_dataframe md in
  lift (_check_for_time_column metadata time_column) ;;;
  lift (_check_column_type column_properties "time" time_column Numeric) ;;;
  reference_series <-
    lift (_check_reference_column metadata reference_column) ;;
  lift (_check_column_type column_properties "reference" reference_column
                           Categorical) ;;;
  ' (metadata, used_references) <-
    lift (_filter_associated_reference reference_series metadata
            time_column filter_missing_references reference_column) ;;
  lift (_check_subject_column metadata subject_column) ;;;
  lift (_check_column_type column_properties "subject" subject_column
                           Categorical) ;;;
  peds_df <- alloc (OFrame (mkPedsFrame feature_columns [])) ;;
  groups <- lift (groupby metadata time_column) ;;
  feature_groups_loop peds_df used_references table time_column
                      subject_column reference_column groups.

(** * Properties *)

(** ** Lists, cells and labels *)

Lemma cell_eqb_eq (a b : cell) : cell_eqb a b = true <-> a = b.
Proof.
  destruct a, b; simpl; split; intros H; try discriminate; try reflexivity.
  - apply Z.eqb_eq in H. now subst.
  - inversion H. apply Z.eqb_refl.
  - apply String.eqb_eq in H. now subst.
  - inversion H. apply String.eqb_refl.
Qed.

Lemma cell_eqb_refl (a : cell) : cell_eqb a a = true.
Proof. now apply cell_eqb_eq. Qed.

Lemma cell_eqb_neq (a b : cell) : cell_eqb a b = false <-> a <> b.
Proof.
  split.
  - intros H E. apply cell_eqb_eq in E. congruence.
  - intros H. destruct (cell_eqb a b) eqn:E; [|reflexivity].
    apply cell_eqb_eq in E. contradiction.
Qed.

Lemma cell_pd_eq_spec (a b : cell) :
  cell_pd_eq a b = true <-> a = b /\ a <> NA.
Proof.
  split.
  - destruct a, b; simpl; intros H; try discriminate.
    + apply Z.eqb_eq in H. subst. split; [reflexivity | discriminate].
    + apply String.eqb_eq in H. subst. split; [reflexivity | discriminate].
  - intros [E N]. subst b. destruct a; simpl.
    + apply Z.eqb_refl.
    + apply String.eqb_refl.
    + contradiction.
Qed.

Lemma mem_str_In (x : string) (l : list string) :
  mem_str x l = true <-> In x l.
Proof.
  unfold mem_str. rewrite existsb_exists. split.
  - intros [y [Hy E]]. apply String.eqb_eq in E. now subst.
  - intros H. exists x. split; [assumption | apply String.eqb_refl].
Qed.

Lemma mem_cell_In (x : cell) (l : list cell) :
  mem_cell x l = true <-> In x l.
Proof.
  unfold mem_cell. rewrite existsb_exists. split.
  - intros [y [Hy E]]. apply cell_eqb_eq in E. now subst.
  - intros H. exists x. split; [assumption | apply cell_eqb_refl].
Qed.

Lemma combine_map_same {A B C} (f : A -> B) (g : A -> C) (l : list A) :
  combine (map f l) (map g l) = map (fun x => (f x, g x)) l.
Proof. induction l; simpl; [reflexivity | now rewrite IHl]. Qed.

Lemma filter_map_comm {A B} (f : A -> B) (p : B -> bool) (l : list A) :
  filter p (map f l) = map f (filter (fun x => p (f x)) l).
Proof.
  induction l; simpl; [reflexivity|].
  destruct (p (f a)); simpl; now rewrite IHl.
Qed.

Lemma filter_filter {A} (p q : A -> bool) (l : list A) :
  filter p (filter q l) = filter (fun x => q x && p x) l.
Proof.
  induction l; simpl; [reflexivity|].
  destruct (q a); simpl; [destruct (p a)|]; now rewrite IHl.
Qed.

Lemma get_column_index (d : DataFrame) (column : string) (j : nat) :
  index_of column (df_columns d) = Some j ->
  get_column d column = Some (map (fun r => (fst r, cell_at j r)) (df_rows d)).
Proof. unfold get_column. intros ->. reflexivity. Qed.

(** The reference series of the timestamped rows, read off the frame. *)
Lemma mask_notna_columns (d : DataFrame) (jt jr : nat) :
  mask_notna (map (fun r => (fst r, cell_at jr r)) (df_rows d))
             (map (fun r => (fst r, cell_at jt r)) (df_rows d))
  = map (fun r => (fst r, cell_at jr r))
        (filter (fun r => notna (cell_at jt r)) (df_rows d)).
Proof.
  unfold mask_notna. rewrite combine_map_same, filter_map_comm, map_map.
  reflexivity.
Qed.

(** ** Missing references *)

(** A sample with a time value and no reference. *)
Definition timestamped_without_reference (jt jr : nat)
  (r : string * list cell) : bool :=
  notna (cell_at jt r) && isna (cell_at jr r).

Lemma existsb_filter_nonempty {A} (p : A -> bool) (l : list A) :
  existsb p l = true <-> filter p l <> [].
Proof.
  induction l; simpl.
  - split; [discriminate | congruence].
  - destruct (p a); simpl; [split; [discriminate | reflexivity] | exact IHl].
Qed.

Lemma used_references_missing (d : DataFrame) (jt jr : nat) :
  existsb (fun r : string * cell => isna (snd r))
    (map (fun r => (fst r, cell_at jr r))
         (filter (fun r => notna (cell_at jt r)) (df_rows d)))
  = existsb (timestamped_without_reference jt jr) (df_rows d).
Proof.
  unfold timestamped_without_reference.
  induction (df_rows d) as [|r rows IH]; simpl; [reflexivity|].
  destruct (notna (cell_at jt r)); simpl; now rewrite IH.
Qed.

(** A column of a frame as a series. *)
Definition frame_column (j : nat) (d : DataFrame) : Series :=
  map (fun r => (fst r, cell_at j r)) (df_rows d).

Lemma check_reference_column_index (d : DataFrame) (column : string)
  (j : nat) :
  index_of column (df_columns d) = Some j ->
  _check_reference_column d column = Ok (frame_column j d).
Proof.
  intros H. unfold _check_reference_column.
  now rewrite (get_column_index _ _ _ H).
Qed.

Lemma check_subject_column_index (d : DataFrame) (column : string)
  (j : nat) :
  index_of column (df_columns d) = Some j ->
  _check_subject_column d column = Ok (frame_column j d).
Proof.
  intros H. unfold _check_subject_column.
  now rewrite (get_column_index _ _ _ H).
Qed.

(** What [_filter_associated_reference] computes on the reference column
    of its own frame. *)
Lemma filter_associated_reference_eq (d : DataFrame) (tc rc : string)
  (jt jr : nat) (fm : bool) :
  index_of tc (df_columns d) = Some jt ->
  index_of rc (df_columns d) = Some jr ->
  _filter_associated_reference (frame_column jr d) d tc fm rc =
    if existsb (timestamped_without_reference jt jr) (df_rows d) then
      if fm then
        Ok (mkDataFrame (df_index_name d) (df_columns d)
              (filter (fun r => notna (cell_at jr r)) (df_rows d)),
            map (fun r => (fst r, cell_at jr r))
                (filter (fun r => notna (cell_at jt r)
                                  && negb (timestamped_without_reference
                                             jt jr r))
                        (df_rows d)))
      else
        Err (KeyError_missing_references
               (map fst (filter (timestamped_without_reference jt jr)
                                (df_rows d))))
    else
      Ok (d, map (fun r => (fst r, cell_at jr r))
                 (filter (fun r => notna (cell_at jt r)) (df_rows d))).
Proof.
  intros Ht Hr. unfold _filter_associated_reference, frame_column.
  rewrite (get_column_index _ _ _ Ht).
  change (map (fun r : string * list cell => (fst r, nth jt (snd r) NA)))
    with (map (fun r : string * list cell => (fst r, cell_at jt r))).
  rewrite mask_notna_columns, used_references_missing.
  destruct (existsb _ (df_rows d)); [|reflexivity].
  destruct fm.
  - rewrite Hr. do 2 f_equal. unfold s_dropna.
    rewrite filter_map_comm, filter_filter. f_equal.
    apply filter_ext. intros r. unfold timestamped_without_reference, notna.
    simpl. destruct (isna (cell_at jt r)), (isna (cell_at jr r)); reflexivity.
  - do 2 f_equal. unfold s_index.
    rewrite filter_map_comm, filter_filter, map_map. simpl.
    reflexivity.
Qed.

Definition c4_metadata : DataFrame :=
  mkDataFrame "id" ["time"; "donor"; "subject"]
    [("D", [NA; NA; NA]);
     ("A", [Num 1; NA; Str "S1"]);
     ("B", [Num 1; Str "D"; Str "S2"])].

(** C4, as amended.  When some sample with a time value has no
    reference: with [filter_missing_references] off the call raises the
    missing-association error naming exactly those samples; with it on,
    the metadata loses every row without a reference, with or without a
    time value, the reference series loses exactly the rows of those
    samples, and the call returns. *)
Theorem filter_missing_references_behaviour :
  forall (metadata : DataFrame) (time_column reference_column : string)
         (jt jr : nat) (reference_series : Series),
    index_of time_column (df_columns metadata) = Some jt ->
    index_of reference_column (df_columns metadata) = Some jr ->
    _check_reference_column metadata reference_column = Ok reference_series ->
    existsb (timestamped_without_reference jt jr) (df_rows metadata) = true ->
    _filter_associated_reference reference_series metadata time_column
        false reference_column
    = Err (KeyError_missing_references
             (map fst (filter (timestamped_without_reference jt jr)
                              (df_rows metadata))))
    /\
    exists metadata' used_references,
      _filter_associated_reference reference_series metadata time_column
          true reference_column
      = Ok (metadata', used_references)
      /\ df_rows metadata'
         = filter (fun r => notna (cell_at jr r)) (df_rows metadata)
      /\ used_references
         = map (fun r => (fst r, cell_at jr r))
             (filter (fun r => notna (cell_at jt r)
                               && negb (timestamped_without_reference
                                          jt jr r))
                     (df_rows metadata)).
Proof.
  intros metadata tc rc jt jr rs Ht Hr Hrs Hex.
  rewrite (check_reference_column_index _ _ _ Hr) in Hrs.
  inversion Hrs; subst rs; clear Hrs.
  rewrite !(filter_associated_reference_eq _ _ _ _ _ _ Ht Hr), Hex.
  split; [reflexivity|].
  eexists; eexists. split; [reflexivity|].
  split; reflexivity.
Qed.

Lemma filter_missing_references_behaviour_witness :
  existsb (timestamped_without_reference 0 1) (df_rows c4_metadata) = true
  /\ _filter_associated_reference (frame_column 1 c4_metadata) c4_metadata
       "time" false "donor"
     = Err (KeyError_missing_references ["A"]).
Proof.
  split; [reflexivity|].
  exact (proj1 (filter_missing_references_behaviour c4_metadata
                  "time" "donor" 0 1 (frame_column 1 c4_metadata)
                  eq_refl eq_refl eq_refl eq_refl)).
Defined.

(** C4 as stated fails: with [filter_missing_references] on, the row of
    sample D, which has no time value, is dropped from the metadata
    although it is not one of the timestamped samples without a
    reference. *)
Lemma filter_missing_references_drops_untimestamped :
  timestamped_without_reference 0 1 ("D", [NA; NA; NA]) = false
  /\ In ("D", [NA; NA; NA]) (df_rows c4_metadata)
  /\ exists metadata' used_references,
       _filter_associated_reference (frame_column 1 c4_metadata) c4_metadata
         "time" true "donor" = Ok (metadata', used_references)
       /\ ~ In "D" (df_index metadata')
       /\ df_rows metadata'
          <> filter (fun r => negb (timestamped_without_reference 0 1 r))
                    (df_rows c4_metadata).
Proof.
  split; [reflexivity|]. split; [simpl; auto|].
  eexists; eexists. split; [reflexivity|]. split.
  - simpl. intros [H|[]]. discriminate.
  - simpl. discriminate.
Qed.

(** ** Occurrences of subjects *)

Lemma In_unique (x : cell) (l : list cell) : In x (unique l) <-> In x l.
Proof.
  induction l as [|y l IH]; simpl; [tauto|].
  rewrite filter_In, IH. split.
  - intros [H|[H _]]; auto.
  - intros [H|H]; [auto|].
    destruct (cell_eqb y x) eqn:E.
    + apply cell_eqb_eq in E. auto.
    + right. split; [assumption | reflexivity].
Qed.

Lemma In_insert_count (x y : cell * nat) (l : list (cell * nat)) :
  In y (insert_count x l) <-> y = x \/ In y l.
Proof.
  induction l as [|z l IH]; simpl.
  - split; intros [H|H]; auto.
  - destruct (snd z <=? snd x); simpl; [split; intros [H|H]; auto|].
    rewrite IH. tauto.
Qed.

Lemma In_sort_counts (y : cell * nat) (l : list (cell * nat)) :
  In y (sort_counts l) <-> In y l.
Proof.
  unfold sort_counts. induction l as [|x l IH]; simpl; [tauto|].
  rewrite In_insert_count, IH. split; intros [H|H]; auto.
Qed.

Lemma count_cell_notna (x : cell) (l : list cell) :
  x <> NA -> count_cell x (filter notna l) = count_cell x l.
Proof.
  intros Hx. unfold count_cell. rewrite filter_filter. f_equal.
  apply filter_ext. intros y.
  destruct (cell_eqb x y) eqn:E.
  - apply cell_eqb_eq in E. subst y. destruct x; try reflexivity.
    contradiction.
  - now rewrite andb_false_r.
Qed.

Lemma s_values_dropna (s : Series) :
  s_values (s_dropna s) = filter notna (s_values s).
Proof.
  unfold s_values, s_dropna. now rewrite filter_map_comm.
Qed.

(** The entries of [value_counts]: each non-missing value with the
    number of its occurrences. *)
Lemma value_counts_In (s : Series) (x : cell) (n : nat) :
  In (x, n) (value_counts s)
  <-> x <> NA /\ In x (s_values s) /\ n = count_cell x (s_values s).
Proof.
  unfold value_counts. rewrite In_sort_counts, in_map_iff, s_values_dropna.
  split.
  - intros [v [E Hv]]. inversion E; subst; clear E.
    apply In_unique, filter_In in Hv. destruct Hv as [Hv Hn].
    assert (x <> NA) by (intros ->; discriminate).
    repeat split; auto. now apply count_cell_notna.
  - intros [Hx [Hin ->]]. exists x. split.
    + now rewrite count_cell_notna.
    + apply In_unique, filter_In. split; [assumption|].
      destruct x; try reflexivity. contradiction.
Qed.

Lemma count_cell_pos (x : cell) (l : list cell) :
  In x l -> 0 < count_cell x l.
Proof.
  unfold count_cell. induction l as [|y l IH]; simpl; [tauto|].
  intros [->|H].
  - rewrite cell_eqb_refl. simpl. lia.
  - destruct (cell_eqb x y); simpl; auto with arith.
Qed.

(** The subjects of a column that occur a number of times satisfying
    [p]. *)
Definition subject_rows (js : nat) (p : nat -> bool) (d : DataFrame)
  : list (string * list cell) :=
  filter (fun r => notna (cell_at js r)
                   && p (count_cell (cell_at js r)
                                    (s_values (frame_column js d))))
         (df_rows d).

Lemma existsb_value_counts (s : Series) (p : nat -> bool) :
  existsb (fun e => p (snd e)) (value_counts s) = true
  <-> exists x, x <> NA /\ In x (s_values s)
                /\ p (count_cell x (s_values s)) = true.
Proof.
  rewrite existsb_exists. split.
  - intros [[x n] [Hin Hp]]. apply value_counts_In in Hin.
    destruct Hin as [Hx [Hin ->]]. exists x. auto.
  - intros [x [Hx [Hin Hp]]]. exists (x, count_cell x (s_values s)).
    split; [|assumption]. apply value_counts_In. auto.
Qed.

Lemma In_filtered_counts (s : Series) (p : nat -> bool) (x : cell) :
  In x (map fst (filter (fun e => p (snd e)) (value_counts s)))
  <-> x <> NA /\ In x (s_values s)
      /\ p (count_cell x (s_values s)) = true.
Proof.
  rewrite in_map_iff. split.
  - intros [[y n] [E H]]. simpl in E. subst y.
    apply filter_In in H. destruct H as [H Hp].
    apply value_counts_In in H. destruct H as [Hx [Hin ->]]. auto.
  - intros [Hx [Hin Hp]]. exists (x, count_cell x (s_values s)).
    split; [reflexivity|]. apply filter_In. split; [|assumption].
    apply value_counts_In. auto.
Qed.

Lemma notna_true (c : cell) : notna c = true <-> c <> NA.
Proof.
  destruct c; simpl; split; intros H; try reflexivity; try discriminate.
  contradiction.
Qed.

(** What [_check_subjects_in_all_timepoints] computes on the subject
    column of its own frame. *)
Lemma check_subjects_eq (d : DataFrame) (sc : string) (js N : nat)
  (drop : bool) (used : Series) :
  index_of sc (df_columns d) = Some js ->
  _check_subjects_in_all_timepoints (frame_column js d) N drop d sc used =
    if existsb (fun e => snd e <? N) (value_counts (frame_column js d)) then
      if drop then
        Ok (mkDataFrame (df_index_name d) (df_columns d)
              (subject_rows js (fun n => n =? N) d),
            s_filter_items used
              (map fst (subject_rows js (fun n => n =? N) d)))
      else
        Err (ValueError_incomplete_subjects
               (map fst (filter (fun e => negb (snd e =? N))
                                (value_counts (frame_column js d)))))
    else Ok (d, used).
Proof.
  intros Hs. unfold _check_subjects_in_all_timepoints.
  destruct (existsb _ _); [|reflexivity].
  destruct drop; [|reflexivity].
  rewrite Hs. unfold df_index. simpl.
  assert (E : filter
                (fun r => mem_cell (cell_at js r)
                   (map fst (filter (fun e => snd e =? N)
                                    (value_counts (frame_column js d)))))
                (df_rows d)
              = subject_rows js (fun n => n =? N) d).
  { unfold subject_rows. apply filter_ext_in. intros r Hr.
    apply Bool.eq_iff_eq_true.
    rewrite mem_cell_In, (In_filtered_counts _ (fun n => n =? N)).
    rewrite andb_true_iff, notna_true.
    assert (In (cell_at js r) (s_values (frame_column js d))).
    { unfold s_values, frame_column. rewrite map_map. simpl.
      apply in_map_iff. exists r. auto. }
    tauto. }
  now rewrite E.
Qed.

(** C10.  When dropping is enabled and some subject occurs fewer than
    [num_timepoints] times, the rows kept are exactly the rows of the
    subjects that occur [num_timepoints] times: a subject that occurs
    more often is removed too, and with dropping disabled such a subject
    is listed in the error. *)
Theorem drop_incomplete_subjects_keeps_exact_count :
  forall (metadata : DataFrame) (subject_column : string) (js : nat)
         (num_timepoints : nat) (used_references subject_series : Series),
    index_of subject_column (df_columns metadata) = Some js ->
    _check_subject_column metadata subject_column = Ok subject_series ->
    (exists s, s <> NA /\ In s (s_values subject_series)
               /\ count_cell s (s_values subject_series) < num_timepoints) ->
    (exists metadata' used_references',
        _check_subjects_in_all_timepoints subject_series num_timepoints
          true metadata subject_column used_references
        = Ok (metadata', used_references')
        /\ df_rows metadata'
           = subject_rows js (fun n => n =? num_timepoints) metadata
        /\ (forall r, In r (df_rows metadata) ->
              num_timepoints
              < count_cell (cell_at js r) (s_values subject_series) ->
              ~ In r (df_rows metadata')))
    /\
    (exists incomplete_subjects,
        _check_subjects_in_all_timepoints subject_series num_timepoints
          false metadata subject_column used_references
        = Err (ValueError_incomplete_subjects incomplete_subjects)
        /\ (forall s, s <> NA -> In s (s_values subject_series) ->
              num_timepoints < count_cell s (s_values subject_series) ->
              In s incomplete_subjects)).
Proof.
  intros metadata sc js N used ss Hs Hss [s [Hna [Hin Hlt]]].
  rewrite (check_subject_column_index _ _ _ Hs) in Hss.
  inversion Hss; subst ss; clear Hss.
  rewrite !(check_subjects_eq _ _ _ _ _ _ Hs).
  assert (Hex : existsb (fun e : cell * nat => snd e <? N)
                  (value_counts (frame_column js metadata)) = true).
  { apply (existsb_value_counts _ (fun n => n <? N)). exists s.
    repeat split; auto. now apply Nat.ltb_lt. }
  rewrite Hex. split.
  - eexists; eexists. split; [reflexivity|]. split; [reflexivity|].
    simpl. intros r Hr Hgt Hkept. unfold subject_rows in Hkept.
    apply filter_In in Hkept. destruct Hkept as [_ H].
    apply andb_true_iff in H. destruct H as [_ H].
    apply Nat.eqb_eq in H. lia.
  - eexists. split; [reflexivity|]. intros x Hx Hxin Hgt.
    apply (In_filtered_counts _ (fun n => negb (n =? N))).
    repeat split; auto. apply negb_true_iff, Nat.eqb_neq. lia.
Qed.

Definition c10_metadata : DataFrame :=
  mkDataFrame "id" ["time"; "donor"; "subject"]
    [("a1", [Num 1; Str "D"; Str "S1"]);
     ("a2", [Num 2; Str "D"; Str "S1"]);
     ("a3", [NA; Str "D"; Str "S1"]);
     ("b1", [Num 1; Str "D"; Str "S2"]);
     ("b2", [Num 2; Str "D"; Str "S2"]);
     ("c1", [Num 1; Str "D"; Str "S3"])].

Lemma drop_incomplete_subjects_keeps_exact_count_witness :
  exists metadata' used_references',
    _check_subjects_in_all_timepoints (frame_column 2 c10_metadata) 2
      true c10_metadata "subject" (frame_column 1 c10_metadata)
    = Ok (metadata', used_references')
    /\ df_index metadata' = ["b1"; "b2"].
Proof.
  destruct (drop_incomplete_subjects_keeps_exact_count c10_metadata
              "subject" 2 2 (frame_column 1 c10_metadata)
              (frame_column 2 c10_metadata) eq_refl eq_refl)
    as [[md [used [E [Hrows _]]]] _].
  - exists (Str "S3"). split; [discriminate|]. split; [simpl; auto 10|].
    vm_compute. lia.
  - exists md, used. split; [exact E|].
    unfold df_index. rewrite Hrows. reflexivity.
Defined.

(** C5, as amended.  The check counts the rows of each subject, a row
    without a time value included.  When some subject has fewer than
    [num_timepoints] rows: with dropping disabled the call raises the
    incomplete-subject error, which lists the subjects whose number of
    rows differs from [num_timepoints]; with dropping enabled every row
    of a subject with fewer rows is removed, the reference series is
    filtered again to the rows kept, and the call returns. *)
Theorem incomplete_subjects_behaviour :
  forall (metadata : DataFrame) (subject_column : string) (js : nat)
         (num_timepoints : nat) (used_references subject_series : Series),
    index_of subject_column (df_columns metadata) = Some js ->
    _check_subject_column metadata subject_column = Ok subject_series ->
    (exists s, s <> NA /\ In s (s_values subject_series)
               /\ count_cell s (s_values subject_series) < num_timepoints) ->
    (exists incomplete_subjects,
        _check_subjects_in_all_timepoints subject_series num_timepoints
          false metadata subject_column used_references
        = Err (ValueError_incomplete_subjects incomplete_subjects)
        /\ (forall s, In s incomplete_subjects <->
              s <> NA /\ In s (s_values subject_series)
              /\ count_cell s (s_values subject_series) <> num_timepoints))
    /\
    (exists metadata' used_references',
        _check_subjects_in_all_timepoints subject_series num_timepoints
          true metadata subject_column used_references
        = Ok (metadata', used_references')
        /\ (forall r, In r (df_rows metadata') -> In r (df_rows metadata))
        /\ (forall r, In r (df_rows metadata) ->
              count_cell (cell_at js r) (s_values subject_series)
              < num_timepoints ->
              ~ In r (df_rows metadata'))
        /\ used_references'
           = s_filter_items used_references (df_index metadata')).
Proof.
  intros metadata sc js N used ss Hs Hss [s [Hna [Hin Hlt]]].
  rewrite (check_subject_column_index _ _ _ Hs) in Hss.
  inversion Hss; subst ss; clear Hss.
  rewrite !(check_subjects_eq _ _ _ _ _ _ Hs).
  assert (Hex : existsb (fun e : cell * nat => snd e <? N)
                  (value_counts (frame_column js metadata)) = true).
  { apply (existsb_value_counts _ (fun n => n <? N)). exists s.
    repeat split; auto. now apply Nat.ltb_lt. }
  rewrite Hex. split.
  - eexists. split; [reflexivity|]. intros x.
    rewrite (In_filtered_counts _ (fun n => negb (n =? N))).
    rewrite negb_true_iff, Nat.eqb_neq. tauto.
  - eexists; eexists. split; [reflexivity|]. simpl.
    split; [|split; [|reflexivity]].
    + intros r Hr. unfold subject_rows in Hr.
      now apply filter_In in Hr.
    + intros r Hr Hless Hkept. unfold subject_rows in Hkept.
      apply filter_In in Hkept. destruct Hkept as [_ H].
      apply andb_true_iff in H. destruct H as [_ H].
      apply Nat.eqb_eq in H. lia.
Qed.

Lemma incomplete_subjects_behaviour_witness :
  exists incomplete_subjects,
    _check_subjects_in_all_timepoints (frame_column 2 c10_metadata) 2
      false c10_metadata "subject" (frame_column 1 c10_metadata)
    = Err (ValueError_incomplete_subjects incomplete_subjects)
    /\ In (Str "S3") incomplete_subjects.
Proof.
  destruct (incomplete_subjects_behaviour c10_metadata
              "subject" 2 2 (frame_column 1 c10_metadata)
              (frame_column 2 c10_metadata) eq_refl eq_refl)
    as [[incomplete [E H]] _].
  - exists (Str "S3"). split; [discriminate|]. split; [simpl; auto 10|].
    vm_compute. lia.
  - exists incomplete. split; [exact E|]. apply H.
    split; [discriminate|]. split; [simpl; auto 10|].
    vm_compute. lia.
Defined.

(** The timepoints at which a subject appears: the distinct time values
    of its rows. *)
Definition subject_timepoints (d : DataFrame) (js jt : nat) (s : cell)
  : list cell :=
  unique (filter notna
            (map (cell_at jt)
                 (filter (fun r => cell_eqb (cell_at js r) s)
                         (df_rows d)))).

Definition c5_table : Table :=
  mkTable ["f1"; "f2"]
    [("D", [3; 1]%Z); ("a1", [1; 0]%Z); ("a2", [0; 2]%Z);
     ("b1", [1; 1]%Z); ("b2", [0; 0]%Z)].

Definition c5_metadata : Metadata :=
  mkMetadata "id"
    [("time", Numeric); ("donor", Categorical); ("subject", Categorical)]
    [("D", [NA; NA; NA]);
     ("a1", [Num 1; Str "D"; Str "S1"]);
     ("a2", [NA; Str "D"; Str "S1"]);
     ("b1", [Num 1; Str "D"; Str "S2"]);
     ("b2", [Num 2; Str "D"; Str "S2"])].

(** C5 as stated fails: two timepoints are required, subject S1 appears
    at one of them only (its second row has no time value), and with
    dropping disabled [sample_peds] raises nothing. *)
Lemma incomplete_subject_with_untimed_row_not_reported :
  _check_for_time_column (to_dataframe c5_metadata) "time" = Ok 2
  /\ subject_timepoints (to_dataframe c5_metadata) 2 0 (Str "S1") = [Num 1]
  /\ fst (sample_peds 0 1 "time" "donor" "subject" false false
            [OTable c5_table; OMetadata c5_metadata]) = Ok 2.
Proof. repeat split. Qed.

(** ** The heap: what a call may change *)

Lemma length_update (l : loc) (o : obj) (h : heap) :
  List.length (update l o h) = List.length h.
Proof.
  revert l. induction h as [|x h IH]; intros [|l]; simpl; auto.
Qed.

Lemma nth_error_update_ne (l l' : loc) (o : obj) (h : heap) :
  l' <> l -> nth_error (update l o h) l' = nth_error h l'.
Proof.
  revert l l'. induction h as [|x h IH]; intros [|l] [|l'] H; simpl; auto.
  contradiction.
Qed.

Lemma nth_error_update_eq (l : loc) (o : obj) (h : heap) :
  l < List.length h -> nth_error (update l o h) l = Some o.
Proof.
  revert l. induction h as [|x h IH]; intros [|l] H; simpl in *;
    try lia; auto.
  apply IH. lia.
Qed.

(** [preserves n h h']: the heap grew, and the objects at the first [n]
    locations are the same. *)
Definition preserves (n : nat) (h h' : heap) : Prop :=
  List.length h <= List.length h'
  /\ forall l, l < n -> nth_error h' l = nth_error h l.

Lemma preserves_refl (n : nat) (h : heap) : preserves n h h.
Proof. split; auto. Qed.

Lemma preserves_trans (n : nat) (h1 h2 h3 : heap) :
  preserves n h1 h2 -> preserves n h2 h3 -> preserves n h1 h3.
Proof.
  intros [L1 H1] [L2 H2]. split; [lia|].
  intros l Hl. now rewrite H2, H1.
Qed.

(** A computation that, started in a heap of at least [n] objects,
    leaves the first [n] untouched and returns a value satisfying [P]. *)
Definition frame_safe {A} (n : nat) (P : A -> Prop) (m : M A) : Prop :=
  forall h, n <= List.length h ->
    preserves n h (snd (m h)) /\ forall a, fst (m h) = Ok a -> P a.

Lemma frame_ret {A} (n : nat) (P : A -> Prop) (a : A) :
  P a -> frame_safe n P (ret a).
Proof.
  intros Ha h _. simpl. split; [apply preserves_refl|].
  intros a' E. inversion E. subst. assumption.
Qed.

Lemma frame_lift {A} (n : nat) (r : result A) :
  frame_safe n (fun a => r = Ok a) (lift r).
Proof.
  intros h _. simpl. split; [apply preserves_refl | auto].
Qed.

Lemma frame_weaken {A} (n : nat) (P Q : A -> Prop) (m : M A) :
  (forall a, P a -> Q a) -> frame_safe n P m -> frame_safe n Q m.
Proof.
  intros HPQ Hm h Hn. destruct (Hm h Hn) as [Hp Ha]. split; auto.
Qed.

Lemma frame_bind {A B} (n : nat) (P : A -> Prop) (Q : B -> Prop)
  (m : M A) (k : A -> M B) :
  frame_safe n P m ->
  (forall a, P a -> frame_safe n Q (k a)) ->
  frame_safe n Q (bind m k).
Proof.
  intros Hm Hk h Hn. unfold bind.
  destruct (Hm h Hn) as [Hp Ha].
  destruct (m h) as [[a|e] h1] eqn:E; simpl in *.
  - destruct Hp as [Hlen Hsame].
    destruct (Hk a (Ha a eq_refl) h1) as [Hp' Hb]; [lia|].
    split; [|assumption].
    apply preserves_trans with h1; [split|]; assumption.
  - split; [assumption | discriminate].
Qed.

Lemma frame_load_table (n : nat) (l : loc) :
  frame_safe n (fun _ => True) (load_table l).
Proof.
  intros h _. unfold load_table.
  destruct (nth_error h l) as [[| |]|]; simpl;
    (split; [apply preserves_refl | auto]).
Qed.

Lemma frame_load_metadata (n : nat) (l : loc) :
  frame_safe n (fun _ => True) (load_metadata l).
Proof.
  intros h _. unfold load_metadata.
  destruct (nth_error h l) as [[| |]|]; simpl;
    (split; [apply preserves_refl | auto]).
Qed.

Lemma frame_load_frame (n : nat) (l : loc) :
  frame_safe n (fun _ => True) (load_frame l).
Proof.
  intros h _. unfold load_frame.
  destruct (nth_error h l) as [[| |]|]; simpl;
    (split; [apply preserves_refl | auto]).
Qed.

Lemma frame_store_frame (n : nat) (l : loc) (f : PedsFrame) :
  n <= l -> frame_safe n (fun _ => True) (store_frame l f).
Proof.
  intros Hl h _. unfold store_frame.
  destruct (nth_error h l) as [[| |]|]; simpl;
    try (split; [apply preserves_refl | auto]).
  split; [|auto]. split; [now rewrite length_update|].
  intros l' Hl'. apply nth_error_update_ne. lia.
Qed.

Lemma frame_alloc (n : nat) (o : obj) :
  frame_safe n (fun l => n <= l) (alloc o).
Proof.
  intros h Hn. unfold alloc. simpl. split.
  - split; [rewrite length_app; lia|].
    intros l Hl. apply nth_error_app1. lia.
  - intros a E. inversion E. lia.
Qed.

Lemma frame_lift_any {A} (n : nat) (r : result A) :
  frame_safe n (fun _ => True) (lift r).
Proof. apply frame_weaken with (2 := frame_lift n r). auto. Qed.

Lemma frame_raise {A} (n : nat) (P : A -> Prop) (e : error) :
  frame_safe n P (lift (Err e)).
Proof.
  intros h _. simpl. split; [apply preserves_refl | discriminate].
Qed.

(** One step through a sequence of statements. *)
Ltac frame_step :=
  lazymatch goal with
  | |- frame_safe _ _ (bind (lift _) _) =>
      eapply frame_bind; [apply frame_lift_any | intros ? _]
  | |- frame_safe _ _ (bind (load_table _) _) =>
      eapply frame_bind; [apply frame_load_table | intros ? _]
  | |- frame_safe _ _ (bind (load_metadata _) _) =>
      eapply frame_bind; [apply frame_load_metadata | intros ? _]
  | |- frame_safe _ _ (bind (load_frame _) _) =>
      eapply frame_bind; [apply frame_load_frame | intros ? _]
  | |- frame_safe _ _ (bind (alloc _) _) =>
      eapply frame_bind; [apply frame_alloc | intros ? ?]
  | |- frame_safe _ _ (match ?x with (_, _) => _ end) => destruct x
  | |- frame_safe _ _ (lift (Err _)) => apply frame_raise
  end; cbv beta zeta.

Lemma frame_append_row (n : nat) (peds_df : loc) (row : list value) :
  n <= peds_df -> frame_safe n (fun _ => True) (append_row peds_df row).
Proof.
  intros Hl. unfold append_row. do 2 frame_step.
  now apply frame_store_frame.
Qed.

Lemma frame_sample_loop (n : nat) (peds_df : loc) (metadata : DataFrame)
  (num_sum donor_sum : list Z) (tc sc rc : string)
  (samples : list (nat * string)) :
  n <= peds_df ->
  frame_safe n (fun _ => True)
    (sample_loop peds_df metadata num_sum donor_sum tc sc rc samples).
Proof.
  intros Hl. induction samples as [|[count sample] rest IH]; simpl.
  - now apply frame_ret.
  - frame_step. eapply frame_bind; [now apply frame_append_row|].
    intros _ _. exact IH.
Qed.

Lemma frame_feature_loop (n : nat) (num_sum donor_sum : list Z)
  (peds_time : cell) (features : list (nat * string)) :
  forall peds_df, n <= peds_df ->
    frame_safe n (fun l => n <= l)
      (feature_loop peds_df num_sum donor_sum peds_time features).
Proof.
  induction features as [|[count feature] rest IH]; intros peds_df Hl; simpl.
  - now apply frame_ret.
  - eapply frame_bind; [now apply frame_append_row|]. intros _ _.
    do 2 frame_step. now apply IH.
Qed.

Lemma frame_compute_peds (n : nat) (peds_df : loc) (peds_type : string)
  (peds_time : cell) (reference_series : Series) (table : loc)
  (metadata : DataFrame) (tc sc rc : string) :
  n <= peds_df ->
  frame_safe n (fun l => n <= l)
    (_compute_peds peds_df peds_type peds_time reference_series table
                   metadata tc sc rc).
Proof.
  intros Hl. unfold _compute_peds. frame_step.
  destruct (filter _ reference_series); [|apply frame_raise].
  frame_step.
  destruct (String.eqb peds_type "Sample").
  - eapply frame_bind; [now apply frame_sample_loop|]. intros _ _.
    now apply frame_ret.
  - destruct (String.eqb peds_type "Feature").
    + now apply frame_feature_loop.
    + apply frame_raise.
Qed.

Lemma frame_feature_groups_loop (n : nat) (used_references : Series)
  (table : loc) (tc sc rc : string) (groups : list (cell * DataFrame)) :
  forall peds_df, n <= peds_df ->
    frame_safe n (fun l => n <= l)
      (feature_groups_loop peds_df used_references table tc sc rc groups).
Proof.
  induction groups as [|[time time_metadata] rest IH]; intros peds_df Hl;
    simpl.
  - now apply frame_ret.
  - eapply frame_bind; [now apply frame_compute_peds|].
    intros l Hn. now apply IH.
Qed.

Lemma frame_sample_peds (n : nat) (table metadata : loc)
  (tc rc sc : string) (fm di : bool) :
  frame_safe n (fun l => n <= l)
    (sample_peds table metadata tc rc sc fm di).
Proof.
  unfold sample_peds. repeat frame_step.
  now apply frame_compute_peds.
Qed.

Lemma frame_feature_peds (n : nat) (table metadata : loc)
  (tc rc sc : string) (fm : bool) :
  frame_safe n (fun l => n <= l)
    (feature_peds table metadata tc rc sc fm).
Proof.
  unfold feature_peds. repeat frame_step.
  now apply frame_feature_groups_loop.
Qed.

(** C8.  [sample_peds] and [feature_peds] leave every object that was
    in the heap before the call as it was: the caller's feature table
    and metadata are unchanged, whether the call returns or raises. *)
Theorem peds_calls_leave_inputs_unchanged :
  forall (h : heap) (table metadata : loc)
         (time_column reference_column subject_column : string)
         (filter_missing_references drop_incomplete_subjects : bool)
         (l : loc),
    l < List.length h ->
    nth_error (snd (sample_peds table metadata time_column reference_column
                      subject_column filter_missing_references
                      drop_incomplete_subjects h)) l
    = nth_error h l
    /\ nth_error (snd (feature_peds table metadata time_column
                         reference_column subject_column
                         filter_missing_references h)) l
       = nth_error h l.
Proof.
  intros h table metadata tc rc sc fm di l Hl. split.
  - destruct (frame_sample_peds (List.length h) table metadata tc rc sc
                fm di h (le_n _)) as [[_ H] _].
    now apply H.
  - destruct (frame_feature_peds (List.length h) table metadata tc rc sc
                fm h (le_n _)) as [[_ H] _].
    now apply H.
Qed.

Lemma peds_calls_leave_inputs_unchanged_witness :
  nth_error (snd (sample_peds 0 1 "time" "donor" "subject" false false
                    [OTable c5_table; OMetadata c5_metadata])) 1
  = Some (OMetadata c5_metadata).
Proof.
  apply (peds_calls_leave_inputs_unchanged
           [OTable c5_table; OMetadata c5_metadata] 0 1
           "time" "donor" "subject" false false 1).
  simpl. lia.
Defined.

(** ** The frame a call returns, as a value

    The functions below follow [_compute_peds], [sample_peds] and
    [feature_peds] statement by statement on values instead of heap
    locations: they give the frame that the call leaves at the location
    it returns. *)

Notation "' pat <- r ;; k" :=
  (rbind r (fun x => match x with pat => k end))
  (at level 61, pat pattern, r at next level, right associativity)
  : result_scope.

Local Open Scope result_scope.

Fixpoint sample_frames (f : PedsFrame) (metadata : DataFrame)
  (num_sum donor_sum : list Z) (tc sc rc : string)
  (samples : list (nat * string)) : result PedsFrame :=
  match samples with
  | [] => Ok f
  | (count, sample) :: rest =>
      row <- sample_row_values metadata num_sum donor_sum tc sc rc
               count sample ;;
      f' <- p_set_loc f (List.length (p_rows f)) row ;;
      sample_frames f' metadata num_sum donor_sum tc sc rc rest
  end.

Fixpoint feature_frames (f : PedsFrame) (num_sum donor_sum : list Z)
  (peds_time : cell) (features : list (nat * string)) : result PedsFrame :=
  match features with
  | [] => Ok f
  | (count, feature) :: rest =>
      f' <- p_set_loc f (List.length (p_rows f))
              (feature_row_values num_sum donor_sum peds_time count
                                  feature) ;;
      feature_frames (p_dropna f') num_sum donor_sum peds_time rest
  end.

Definition compute_peds_frame (f : PedsFrame) (peds_type : string)
  (peds_time : cell) (reference_series : Series) (t : Table)
  (metadata : DataFrame) (tc sc rc : string) : result PedsFrame :=
  let table := binarize t in
  let missing :=
    filter (fun r => negb (cell_in_labels (snd r) (bt_index table)))
           reference_series in
  match missing with
  | _ :: _ => Err (AssertionError_reference_ids (unique (s_values missing)))
  | [] =>
      let donor_df :=
        mkBoolTable (bt_columns table)
          (filter (fun r => mem_cell (Str (fst r))
                                     (s_values reference_series))
                  (bt_rows table)) in
      let recip_df := _create_recipient_table reference_series metadata
                                              table in
      donormask <- _create_masking metadata donor_df recip_df rc ;;
      let maskedrecip := _mask_recipient donormask recip_df in
      if String.eqb peds_type "Sample" then
        sample_frames f metadata (sum_axis1 maskedrecip)
          (sum_axis1 donormask) tc sc rc (enumerate (bt_index recip_df))
      else if String.eqb peds_type "Feature" then
        let ncols := List.length (bt_columns recip_df) in
        feature_frames f (sum_axis0 ncols maskedrecip)
          (sum_axis0 ncols donormask) peds_time
          (enumerate (bt_columns recip_df))
      else Err KeyError_peds_type
  end.

Fixpoint feature_groups_frames (f : PedsFrame) (used_references : Series)
  (t : Table) (tc sc rc : string) (groups : list (cell * DataFrame))
  : result PedsFrame :=
  match groups with
  | [] => Ok f
  | (time, time_metadata) :: rest =>
      f' <- compute_peds_frame f "Feature" time used_references t
              time_metadata tc sc rc ;;
      feature_groups_frames f' used_references t tc sc rc rest
  end.

(** The validation of [sample_peds], from [filter_ids] to
    [_check_subjects_in_all_timepoints]: the metadata and the reference
    series that reach [_compute_peds]. *)
Definition sample_peds_resolve (t : Table) (md : Metadata)
  (tc rc sc : string) (fm di : bool) : result (DataFrame * Series) :=
  let ids_with_data := t_index t in
  md <- filter_ids md ids_with_data ;;
  let column_properties := md_columns md in
  let metadata := to_dataframe md in
  num_timepoints <- _check_for_time_column metadata tc ;;
  _check_column_type column_properties "time" tc Numeric ;;;
  reference_series <- _check_reference_column metadata rc ;;
  _check_column_type column_properties "reference" rc Categorical ;;;
  ' (metadata, used_references) <-
    _filter_associated_reference reference_series metadata tc fm rc ;;
  subject_series <- _check_subject_column metadata sc ;;
  _check_column_type column_properties "subject" sc Categorical ;;;
  _check_duplicate_subject_timepoint subject_series metadata sc tc ;;;
  _check_subjects_in_all_timepoints subject_series num_timepoints di
    metadata sc used_references.

Definition sample_peds_frame (t : Table) (md : Metadata)
  (tc rc sc : string) (fm di : bool) : result PedsFrame :=
  ' (metadata, used_references) <- sample_peds_resolve t md tc rc sc fm di ;;
  compute_peds_frame (mkPedsFrame sample_columns []) "Sample" NA
    used_references t metadata tc sc rc.

(** The validation of [feature_peds]. *)
Definition feature_peds_resolve (t : Table) (md : Metadata)
  (tc rc sc : string) (fm : bool) : result (DataFrame * Series) :=
  let ids_with_data := t_index t in
  md <- filter_ids md ids_with_data ;;
  let column_properties := md_columns md in
  let metadata := to_dataframe md in
  _check_for_time_column metadata tc ;;;
  _check_column_type column_properties "time" tc Numeric ;;;
  reference_series <- _check_reference_column metadata rc ;;
  _check_column_type column_properties "reference" rc Categorical ;;;
  ' (metadata, used_references) <-
    _filter_associated_reference reference_series metadata tc fm rc ;;
  _check_subject_column metadata sc ;;;
  _check_column_type column_properties "subject" sc Categorical ;;;
  Ok (metadata, used_references).

Definition feature_peds_frame (t : Table) (md : Metadata)
  (tc rc sc : string) (fm : bool) : result PedsFrame :=
  ' (metadata, used_references) <- feature_peds_resolve t md tc rc sc fm ;;
  groups <- groupby metadata tc ;;
  feature_groups_frames (mkPedsFrame feature_columns []) used_references
    t tc sc rc groups.

(** [returns_frame r expected]: the run [r] raised the expected error,
    or returned a location that holds the expected frame. *)
Definition returns_frame (r : result loc * heap)
  (expected : result PedsFrame) : Prop :=
  match expected with
  | Ok f => exists l, fst r = Ok l /\ nth_error (snd r) l = Some (OFrame f)
  | Err e => fst r = Err e
  end.

Lemma nth_error_snoc {A} (l : list A) (x : A) :
  nth_error (l ++ [x]) (List.length l) = Some x.
Proof.
  rewrite nth_error_app2 by lia. now rewrite Nat.sub_diag.
Qed.

Lemma nth_error_lt {A} (l : list A) (n : nat) (x : A) :
  nth_error l n = Some x -> n < List.length l.
Proof. intros H. apply nth_error_Some. congruence. Qed.

Lemma append_row_run (h : heap) (l : loc) (f : PedsFrame)
  (row : list value) :
  nth_error h l = Some (OFrame f) ->
  append_row l row h =
    match p_set_loc f (List.length (p_rows f)) row with
    | Ok f' => (Ok tt, update l (OFrame f') h)
    | Err e => (Err e, h)
    end.
Proof.
  intros H. unfold append_row, bind, load_frame, lift, store_frame.
  rewrite H. destruct (p_set_loc _ _ _); [|reflexivity].
  now rewrite H.
Qed.

Lemma sample_loop_run (l : loc) (metadata : DataFrame)
  (num_sum donor_sum : list Z) (tc sc rc : string)
  (samples : list (nat * string)) :
  forall (h : heap) (f : PedsFrame) (r : result unit) (h' : heap),
    nth_error h l = Some (OFrame f) ->
    sample_loop l metadata num_sum donor_sum tc sc rc samples h = (r, h') ->
    match sample_frames f metadata num_sum donor_sum tc sc rc samples with
    | Ok f' => r = Ok tt /\ nth_error h' l = Some (OFrame f')
    | Err e => r = Err e
    end.
Proof.
  induction samples as [|[count sample] rest IH]; intros h f r h' H E;
    simpl in *.
  - inversion E; subst. auto.
  - unfold bind at 1 in E. unfold lift at 1 in E.
    destruct (sample_row_values _ _ _ _ _ _ _ _) as [row|e]; simpl in *;
      [|now inversion E].
    unfold bind at 1 in E. rewrite (append_row_run _ _ _ _ H) in E.
    destruct (p_set_loc _ _ _) as [f'|e]; simpl in *; [|now inversion E].
    apply (IH _ _ _ _ (nth_error_update_eq _ _ _ (nth_error_lt _ _ _ H)) E).
Qed.

Lemma feature_loop_run (num_sum donor_sum : list Z) (peds_time : cell)
  (features : list (nat * string)) :
  forall (h : heap) (l : loc) (f : PedsFrame),
    nth_error h l = Some (OFrame f) ->
    returns_frame (feature_loop l num_sum donor_sum peds_time features h)
      (feature_frames f num_sum donor_sum peds_time features).
Proof.
  induction features as [|[count feature] rest IH]; intros h l f H;
    cbn [feature_loop feature_frames].
  - exists l. auto.
  - unfold bind at 1. rewrite (append_row_run _ _ _ _ H).
    destruct (p_set_loc _ _ _) as [f'|e]; [|reflexivity].
    cbn [rbind]. unfold bind at 1. unfold load_frame at 1.
    rewrite (nth_error_update_eq _ _ _ (nth_error_lt _ _ _ H)).
    unfold bind at 1. unfold alloc at 1.
    apply IH. apply nth_error_snoc.
Qed.

Lemma compute_peds_run (h : heap) (l table : loc) (t : Table)
  (f : PedsFrame) (peds_type : string) (peds_time : cell)
  (reference_series : Series) (metadata : DataFrame) (tc sc rc : string) :
  nth_error h table = Some (OTable t) ->
  nth_error h l = Some (OFrame f) ->
  returns_frame
    (_compute_peds l peds_type peds_time reference_series table metadata
                   tc sc rc h)
    (compute_peds_frame f peds_type peds_time reference_series t metadata
                        tc sc rc).
Proof.
  intros Ht Hl. unfold _compute_peds, compute_peds_frame.
  unfold bind at 1. unfold load_table at 1. rewrite Ht. cbv zeta.
  destruct (filter _ reference_series); [|reflexivity].
  unfold bind at 1. unfold lift at 1.
  destruct (_create_masking _ _ _ _) as [donormask|e]; [|reflexivity].
  cbn [rbind].
  destruct (String.eqb peds_type "Sample").
  - unfold bind at 1.
    destruct (sample_loop _ _ _ _ _ _ _ _ _) as [r h'] eqn:E.
    pose proof (sample_loop_run _ _ _ _ _ _ _ _ _ _ _ _ Hl E) as R.
    destruct (sample_frames _ _ _ _ _ _ _ _) as [f'|e].
    + destruct R as [-> R]. exists l. auto.
    + subst r. reflexivity.
  - destruct (String.eqb peds_type "Feature"); [|reflexivity].
    now apply feature_loop_run.
Qed.

Lemma feature_groups_loop_run (used_references : Series) (table : loc)
  (t : Table) (tc sc rc : string) (groups : list (cell * DataFrame)) :
  forall (h : heap) (l : loc) (f : PedsFrame),
    nth_error h table = Some (OTable t) ->
    table < l ->
    nth_error h l = Some (OFrame f) ->
    returns_frame
      (feature_groups_loop l used_references table tc sc rc groups h)
      (feature_groups_frames f used_references t tc sc rc groups).
Proof.
  induction groups as [|[time time_metadata] rest IH];
    intros h l f Ht Hlt Hl; cbn [feature_groups_loop feature_groups_frames].
  - exists l. auto.
  - unfold bind at 1.
    pose proof (compute_peds_run h l table t f "Feature" time
                  used_references time_metadata tc sc rc Ht Hl) as R.
    destruct (frame_compute_peds (S table) l "Feature" time used_references
                table time_metadata tc sc rc Hlt h (nth_error_lt _ _ _ Ht))
      as [[_ Hsame] Hret].
    destruct (_compute_peds _ _ _ _ _ _ _ _ _ h) as [r h1].
    simpl in Hsame, Hret.
    destruct (compute_peds_frame _ _ _ _ _ _ _ _ _) as [f1|e];
      cbn [rbind]; simpl in R.
    + destruct R as [l1 [-> R]]. apply IH.
      * rewrite Hsame; [assumption | lia].
      * specialize (Hret l1 eq_refl). lia.
      * assumption.
    + subst r. reflexivity.
Qed.

(** One validation step on both sides. *)
Ltac run_lift :=
  unfold bind at 1; unfold lift at 1; cbv beta iota zeta;
  lazymatch goal with
  | |- returns_frame (match ?R with _ => _ end) _ =>
      destruct R; cbn [rbind]; [|reflexivity]
  end.

Lemma sample_peds_run (h : heap) (table metadata : loc) (t : Table)
  (md : Metadata) (tc rc sc : string) (fm di : bool) :
  nth_error h table = Some (OTable t) ->
  nth_error h metadata = Some (OMetadata md) ->
  returns_frame (sample_peds table metadata tc rc sc fm di h)
                (sample_peds_frame t md tc rc sc fm di).
Proof.
  intros Ht Hm.
  unfold sample_peds, sample_peds_frame, sample_peds_resolve.
  unfold bind at 1. unfold load_table at 1. rewrite Ht.
  unfold bind at 1. unfold load_metadata at 1. rewrite Hm.
  do 6 run_lift.
  match goal with p : (DataFrame * Series)%type |- _ => destruct p end.
  do 4 run_lift.
  match goal with p : (DataFrame * Series)%type |- _ => destruct p end.
  unfold bind at 1. unfold alloc at 1. cbv beta iota zeta.
  apply compute_peds_run.
  - rewrite nth_error_app1; [assumption | eapply nth_error_lt; eauto].
  - apply nth_error_snoc.
Qed.

Lemma feature_peds_run (h : heap) (table metadata : loc) (t : Table)
  (md : Metadata) (tc rc sc : string) (fm : bool) :
  nth_error h table = Some (OTable t) ->
  nth_error h metadata = Some (OMetadata md) ->
  returns_frame (feature_peds table metadata tc rc sc fm h)
                (feature_peds_frame t md tc rc sc fm).
Proof.
  intros Ht Hm.
  unfold feature_peds, feature_peds_frame, feature_peds_resolve.
  unfold bind at 1. unfold load_table at 1. rewrite Ht.
  unfold bind at 1. unfold load_metadata at 1. rewrite Hm.
  do 6 run_lift.
  match goal with p : (DataFrame * Series)%type |- _ => destruct p end.
  do 2 run_lift.
  unfold bind at 1. unfold alloc at 1. cbv beta iota zeta.
  run_lift.
  apply feature_groups_loop_run.
  - rewrite nth_error_app1; [assumption | eapply nth_error_lt; eauto].
  - eapply nth_error_lt; eauto.
  - apply nth_error_snoc.
Qed.

(** ** Metadata rows of samples absent from the table *)

(** The rows of the metadata whose sample is a row of the table. *)
Definition rows_in_table (t : Table) (md : Metadata)
  : list (string * list cell) :=
  filter (fun r => mem_str (fst r) (t_index t)) (md_rows md).

Lemma In_index_restricted {A} (ids : list string) (i : string)
  (rows : list (string * A)) :
  In i ids ->
  (In i (map fst rows)
   <-> In i (map fst (filter (fun r => mem_str (fst r) ids) rows))).
Proof.
  intros Hi. rewrite !in_map_iff. split.
  - intros [r [E Hr]]. exists r. split; [assumption|].
    apply filter_In. split; [assumption|]. rewrite E. now apply mem_str_In.
  - intros [r [E Hr]]. exists r. split; [assumption|].
    now apply filter_In in Hr.
Qed.

Lemma mem_str_ext (i : string) (l1 l2 : list string) :
  (In i l1 <-> In i l2) -> mem_str i l1 = mem_str i l2.
Proof.
  intros H. apply Bool.eq_iff_eq_true. now rewrite !mem_str_In.
Qed.

Lemma filter_ids_rows_in_table (t : Table) (md1 md2 : Metadata) :
  md_index_name md1 = md_index_name md2 ->
  md_columns md1 = md_columns md2 ->
  rows_in_table t md1 = rows_in_table t md2 ->
  filter_ids md1 (t_index t) = filter_ids md2 (t_index t).
Proof.
  unfold rows_in_table, filter_ids. intros Hn Hc Hr.
  set (ids := t_index t) in *.
  assert (E : filter (fun i => negb (mem_str i (map fst (md_rows md1)))) ids
              = filter (fun i => negb (mem_str i (map fst (md_rows md2))))
                       ids).
  { apply filter_ext_in. intros i Hi. f_equal. apply mem_str_ext.
    rewrite (In_index_restricted ids i (md_rows md1) Hi).
    rewrite (In_index_restricted ids i (md_rows md2) Hi).
    now rewrite Hr. }
  rewrite E, Hn, Hc, Hr. reflexivity.
Qed.

(** ** The rows of the Sample frame *)

(** The labels of a frame filled by [peds_df.loc[len(peds_df)] = row]
    from an empty frame: 0, 1, 2, ... *)
Definition labels_ok (f : PedsFrame) : Prop :=
  map fst (p_rows f) = seq 0 (List.length (p_rows f)).

Lemma existsb_label_fresh (rows : list (nat * list value)) :
  map fst rows = seq 0 (List.length rows) ->
  existsb (fun r => fst r =? List.length rows) rows = false.
Proof.
  intros H. destruct (existsb _ rows) eqn:E; [|reflexivity].
  apply existsb_exists in E. destruct E as [r [Hr E]].
  apply Nat.eqb_eq in E.
  assert (Hin : In (fst r) (map fst rows)) by now apply in_map.
  rewrite H, E in Hin. apply in_seq in Hin. lia.
Qed.

Lemma p_set_loc_append (f : PedsFrame) (row : list value) :
  labels_ok f ->
  List.length row = List.length (p_columns f) ->
  p_set_loc f (List.length (p_rows f)) row
  = Ok (mkPedsFrame (p_columns f)
          (p_rows f ++ [(List.length (p_rows f), row)])).
Proof.
  intros Hl Hr. unfold p_set_loc.
  rewrite Hr, Nat.eqb_refl. simpl.
  now rewrite (existsb_label_fresh _ Hl).
Qed.

Lemma labels_ok_append (f : PedsFrame) (row : list value) :
  labels_ok f ->
  labels_ok (mkPedsFrame (p_columns f)
               (p_rows f ++ [(List.length (p_rows f), row)])).
Proof.
  unfold labels_ok. simpl. intros H.
  rewrite map_app, length_app, H. simpl.
  rewrite Nat.add_1_r, seq_S. reflexivity.
Qed.

Lemma sample_row_values_length (metadata : DataFrame)
  (num_sum donor_sum : list Z) (tc sc rc : string) (count : nat)
  (sample : string) (row : list value) :
  sample_row_values metadata num_sum donor_sum tc sc rc count sample = Ok row
  -> List.length row = 7.
Proof.
  unfold sample_row_values.
  destruct (lookup sample (df_rows metadata)); [|discriminate].
  destruct (row_field _ _ rc); [|discriminate].
  destruct (row_field _ _ sc); [|discriminate].
  destruct (row_field _ _ tc); [|discriminate].
  simpl. intros E. inversion E. reflexivity.
Qed.

(** Starting from a well-labelled frame of seven columns, the Sample
    loop appends one row per sample, in order, and drops none. *)
Lemma sample_frames_rows (metadata : DataFrame) (num_sum donor_sum : list Z)
  (tc sc rc : string) (samples : list (nat * string)) :
  forall (f f' : PedsFrame),
    labels_ok f ->
    List.length (p_columns f) = 7 ->
    sample_frames f metadata num_sum donor_sum tc sc rc samples = Ok f' ->
    exists rows,
      Forall2 (fun cs row =>
                 sample_row_values metadata num_sum donor_sum tc sc rc
                   (fst cs) (snd cs) = Ok row)
              samples rows
      /\ p_columns f' = p_columns f
      /\ map snd (p_rows f') = map snd (p_rows f) ++ rows
      /\ labels_ok f'.
Proof.
  induction samples as [|[count sample] rest IH]; intros f f' Hl Hc E;
    simpl in E.
  - inversion E; subst. exists []. rewrite app_nil_r. auto.
  - destruct (sample_row_values _ _ _ _ _ _ _ _) as [row|e] eqn:Er;
      [|discriminate]. simpl in E.
    rewrite p_set_loc_append in E; auto;
      [|rewrite Hc; eapply sample_row_values_length; eauto].
    simpl in E.
    destruct (IH _ _ (labels_ok_append f row Hl) Hc E)
      as [rows [HF [Hcols [Hrows Hl']]]].
    exists (row :: rows). repeat split; auto.
    simpl in Hrows. rewrite Hrows, map_app, <- app_assoc. reflexivity.
Qed.

(** ** Lookups *)

Lemma index_of_lookup {A} (d : string) (rows : list (string * A)) (n : nat)
  (default : A) :
  index_of d (map fst rows) = Some n ->
  lookup d rows = Some (nth n (map snd rows) default).
Proof.
  revert n. induction rows as [|[k v] rows IH]; intros n; simpl.
  - discriminate.
  - destruct (String.eqb d k).
    + intros E. inversion E. reflexivity.
    + destruct (index_of d (map fst rows)); [|discriminate].
      intros E. inversion E. simpl. now apply IH.
Qed.

Lemma lookup_filter_label {A} (P : string -> bool) (d : string)
  (rows : list (string * A)) (x : A) :
  lookup d (filter (fun r => P (fst r)) rows) = Some x ->
  lookup d rows = Some x.
Proof.
  induction rows as [|[k v] rows IH]; simpl; [discriminate|].
  destruct (String.eqb d k) eqn:E.
  - apply String.eqb_eq in E. subst k.
    destruct (P d) eqn:EP; simpl.
    + now rewrite String.eqb_refl.
    + intros H. exfalso. clear IH.
      induction rows as [|[k v'] rows IH]; simpl in H; [discriminate|].
      destruct (P k) eqn:EPk; simpl in H; [|auto].
      destruct (String.eqb d k) eqn:Ek; [|auto].
      apply String.eqb_eq in Ek. congruence.
  - destruct (P k); simpl; [rewrite E|]; exact IH.
Qed.

Lemma lookup_In {A} (d : string) (rows : list (string * A)) (x : A) :
  lookup d rows = Some x -> In (d, x) rows.
Proof.
  induction rows as [|[k v] rows IH]; simpl; [discriminate|].
  destruct (String.eqb d k) eqn:E.
  - apply String.eqb_eq in E. intros H. inversion H. subst. auto.
  - auto.
Qed.

Lemma In_lookup {A} (d : string) (rows : list (string * A)) (x : A) :
  NoDup (map fst rows) -> In (d, x) rows -> lookup d rows = Some x.
Proof.
  induction rows as [|[k v] rows IH]; simpl; [tauto|].
  intros Hnd [H|H]; inversion Hnd; subst.
  - inversion H. subst. now rewrite String.eqb_refl.
  - destruct (String.eqb d k) eqn:E; [|auto].
    apply String.eqb_eq in E. subst k. exfalso.
    apply H2. apply in_map_iff. exists (d, x). auto.
Qed.

Lemma lookup_binarize (t : Table) (d : string) (b : list bool) :
  lookup d (bt_rows (binarize t)) = Some b ->
  exists z, lookup d (t_rows t) = Some z
            /\ b = map (fun v => (0 <? v)%Z) z.
Proof.
  unfold binarize. simpl.
  induction (t_rows t) as [|[k z] rows IH]; simpl; [discriminate|].
  destruct (String.eqb d k).
  - intros E. inversion E. exists z. auto.
  - exact IH.
Qed.

(** ** Positions *)

Lemma In_enumerate_from {A} (l : list A) (k c : nat) (x : A) :
  In (c, x) (combine (seq k (List.length l)) l) ->
  k <= c /\ nth_error l (c - k) = Some x.
Proof.
  revert k. induction l as [|y l IH]; intros k; simpl; [tauto|].
  intros [E|H].
  - inversion E. subst. rewrite Nat.sub_diag. auto.
  - apply IH in H. destruct H as [Hk H]. split; [lia|].
    replace (c - k) with (S (c - S k)) by lia. exact H.
Qed.

Lemma In_enumerate {A} (l : list A) (c : nat) (x : A) :
  In (c, x) (enumerate l) -> nth_error l c = Some x.
Proof.
  intros H. apply In_enumerate_from in H. destruct H as [_ H].
  now rewrite Nat.sub_0_r in H.
Qed.

Lemma Forall2_nth_error {A B} (R : A -> B -> Prop) (l1 : list A)
  (l2 : list B) (i : nat) (a : A) :
  Forall2 R l1 l2 -> nth_error l1 i = Some a ->
  exists b, nth_error l2 i = Some b /\ R a b.
Proof.
  intros H. revert i. induction H as [|x y l1 l2 Hxy H IH]; intros i.
  - destruct i; discriminate.
  - destruct i; simpl.
    + intros E. inversion E. subst. exists y. auto.
    + apply IH.
Qed.

Lemma nth_error_combine {A B} (a : list A) (b : list B) (i : nat)
  (x : A) (y : B) :
  nth_error a i = Some x -> nth_error b i = Some y ->
  nth_error (combine a b) i = Some (x, y).
Proof.
  revert b i. induction a as [|x' a IH]; intros [|y' b] [|i]; simpl;
    try discriminate.
  - intros E1 E2. inversion E1. inversion E2. reflexivity.
  - apply IH.
Qed.

Lemma nth_map_nth_error {A B} (f : A -> B) (l : list A) (i : nat) (x : A)
  (d : B) :
  nth_error l i = Some x -> nth i (map f l) d = f x.
Proof.
  intros H. apply nth_error_nth. now apply map_nth_error.
Qed.

(** ** Counting features *)

Lemma sum_bools_cons (b : bool) (l : list bool) :
  sum_bools (b :: l) = (Z.b2z b + sum_bools l)%Z.
Proof. reflexivity. Qed.

Lemma sum_bools_filter {A} (p : A -> bool) (l : list A) :
  sum_bools (map p l) = Z.of_nat (List.length (filter p l)).
Proof.
  induction l as [|x l IH]; simpl; [reflexivity|].
  rewrite IH. destruct (p x); cbn [Z.b2z List.length].
  - rewrite Nat2Z.inj_succ. lia.
  - lia.
Qed.

Lemma and_rows_map {A} (p : A -> bool) (a b : list A) :
  and_rows (map p a) (map p b)
  = map (fun xy => p (fst xy) && p (snd xy)) (combine a b).
Proof.
  unfold and_rows. revert b. induction a as [|x a IH]; intros [|y b];
    simpl; try reflexivity.
  now rewrite IH.
Qed.

Lemma sum_bools_nonneg (l : list bool) : (0 <= sum_bools l)%Z.
Proof.
  induction l as [|b l IH]; [simpl; lia|].
  rewrite sum_bools_cons. destruct b; simpl Z.b2z; lia.
Qed.

Lemma sum_bools_and_le (a b : list bool) :
  (sum_bools (and_rows a b) <= sum_bools a)%Z.
Proof.
  revert b. induction a as [|x a IH]; intros [|y b].
  - simpl. lia.
  - simpl. lia.
  - pose proof (sum_bools_nonneg a). rewrite sum_bools_cons.
    change (and_rows (x :: a) []) with (@nil bool).
    change (sum_bools []) with 0%Z.
    destruct x; cbn [Z.b2z]; lia.
  - change (and_rows (x :: a) (y :: b)) with ((x && y) :: and_rows a b).
    rewrite !sum_bools_cons. specialize (IH b).
    destruct x, y; cbn [andb Z.b2z]; lia.
Qed.

(** ** The donor mask *)

Lemma donor_positions_spec (md : DataFrame) (donor_df : BoolTable)
  (rc : string) (samples : list string) :
  forall idxs,
    donor_positions md donor_df rc samples = Ok idxs ->
    Forall2 (fun sample n =>
               exists d, loc_cell md sample rc = Ok (Str d)
                         /\ index_of d (bt_index donor_df) = Some n)
            samples idxs.
Proof.
  induction samples as [|sample rest IH]; intros idxs; simpl.
  - intros E. inversion E. constructor.
  - destruct (loc_cell md sample rc) as [donor|e] eqn:El; [|discriminate].
    simpl. destruct donor as [z|d|]; simpl; try discriminate.
    destruct (index_of d (bt_index donor_df)) as [n|] eqn:Ei; simpl;
      [|discriminate].
    destruct (donor_positions md donor_df rc rest) as [ns|e] eqn:Er;
      simpl; [|discriminate].
    intros E. inversion E. constructor; [|now apply IH].
    exists d. auto.
Qed.

(** The two sums of the row that the Sample loop writes for a
    recipient: its donor is the one the metadata assigns to it. *)
Lemma sample_mask_sums (md : DataFrame) (donor_df recip_df : BoolTable)
  (rc : string) (donormask : list (list bool)) (count : nat)
  (sample : string) :
  _create_masking md donor_df recip_df rc = Ok donormask ->
  In (count, sample) (enumerate (bt_index recip_df)) ->
  exists d drow rrow,
    loc_cell md sample rc = Ok (Str d)
    /\ lookup d (bt_rows donor_df) = Some drow
    /\ In (sample, rrow) (bt_rows recip_df)
    /\ nth count (sum_axis1 (_mask_recipient donormask recip_df)) 0%Z
       = sum_bools (and_rows drow rrow)
    /\ nth count (sum_axis1 donormask) 0%Z = sum_bools drow.
Proof.
  unfold _create_masking. intros E Hin.
  destruct (donor_positions _ _ _ _) as [idxs|e] eqn:Ep; [|discriminate].
  simpl in E. inversion E; subst donormask; clear E.
  apply In_enumerate in Hin. unfold bt_index in Hin.
  rewrite nth_error_map in Hin.
  destruct (nth_error (bt_rows recip_df) count) as [[s rrow]|] eqn:Er;
    [|discriminate].
  simpl in Hin. inversion Hin; subst s; clear Hin.
  destruct (Forall2_nth_error _ _ _ count sample
              (donor_positions_spec _ _ _ _ _ Ep))
    as [n [En [d [Hd Hi]]]].
  { unfold bt_index. now rewrite nth_error_map, Er. }
  set (g := fun n => nth n (map snd (bt_rows donor_df)) []).
  exists d, (g n), rrow. repeat split.
  - assumption.
  - now apply index_of_lookup.
  - eapply nth_error_In; eauto.
  - unfold sum_axis1, _mask_recipient. rewrite map_map.
    apply nth_map_nth_error with (x := (g n, rrow)).
    apply nth_error_combine.
    + now apply map_nth_error.
    + now apply (map_nth_error snd) in Er.
  - unfold sum_axis1. apply nth_map_nth_error with (x := g n).
    now apply map_nth_error.
Qed.

Lemma has_dup_false (l : list string) : has_dup l = false -> NoDup l.
Proof.
  induction l as [|x l IH]; simpl; [constructor|].
  intros H. apply orb_false_iff in H. destruct H as [Hx Hl].
  constructor; [|auto]. intros Hin. apply mem_str_In in Hin. congruence.
Qed.

(** ** What the validation keeps of the metadata *)

Lemma filter_ids_ok (md md' : Metadata) (ids : list string) :
  filter_ids md ids = Ok md' ->
  NoDup ids
  /\ md_index_name md' = md_index_name md
  /\ md_columns md' = md_columns md
  /\ md_rows md' = filter (fun r => mem_str (fst r) ids) (md_rows md).
Proof.
  unfold filter_ids. destruct ids as [|i ids]; [discriminate|].
  destruct (has_dup (i :: ids)) eqn:Ed; [discriminate|].
  destruct (filter _ (i :: ids)); [|discriminate].
  intros E. inversion E. simpl. split; [now apply has_dup_false | auto].
Qed.

Lemma filter_associated_reference_ok (rs : Series) (d d' : DataFrame)
  (tc rc : string) (fm : bool) (used : Series) :
  _filter_associated_reference rs d tc fm rc = Ok (d', used) ->
  df_columns d' = df_columns d
  /\ forall r, In r (df_rows d') -> In r (df_rows d).
Proof.
  unfold _filter_associated_reference.
  destruct (get_column d tc); [|discriminate].
  destruct (existsb _ _).
  - destruct fm; [|discriminate].
    destruct (index_of rc (df_columns d)); [|discriminate].
    intros E. inversion E. simpl. split; [reflexivity|].
    intros r Hr. now apply filter_In in Hr.
  - intros E. inversion E. subst. auto.
Qed.

Lemma check_subjects_ok (ss : Series) (n : nat) (di : bool)
  (d d' : DataFrame) (sc : string) (used used' : Series) :
  _check_subjects_in_all_timepoints ss n di d sc used = Ok (d', used') ->
  df_columns d' = df_columns d
  /\ forall r, In r (df_rows d') -> In r (df_rows d).
Proof.
  unfold _check_subjects_in_all_timepoints.
  destruct (existsb _ _).
  - destruct di; [|discriminate].
    destruct (index_of sc (df_columns d)); [|discriminate].
    intros E. inversion E. simpl. split; [reflexivity|].
    intros r Hr. now apply filter_In in Hr.
  - intros E. inversion E. subst. auto.
Qed.

Lemma sample_peds_resolve_ok (t : Table) (md : Metadata)
  (tc rc sc : string) (fm di : bool) (d : DataFrame) (used : Series) :
  sample_peds_resolve t md tc rc sc fm di = Ok (d, used) ->
  NoDup (t_index t)
  /\ df_columns d = map fst (md_columns md)
  /\ forall r, In r (df_rows d) -> In r (md_rows md).
Proof.
  unfold sample_peds_resolve.
  destruct (filter_ids md (t_index t)) as [md'|] eqn:Ef; [|discriminate].
  apply filter_ids_ok in Ef. destruct Ef as [Hnd [_ [Hc Hr]]].
  cbn [rbind].
  destruct (_check_for_time_column _ _); [|discriminate]. cbn [rbind].
  destruct (_check_column_type _ _ _ _); [|discriminate]. cbn [rbind].
  destruct (_check_reference_column _ _); [|discriminate]. cbn [rbind].
  destruct (_check_column_type _ _ _ _); [|discriminate]. cbn [rbind].
  destruct (_filter_associated_reference _ _ _ _ _) as [[d1 u1]|] eqn:E1;
    [|discriminate]. cbn [rbind].
  apply filter_associated_reference_ok in E1. destruct E1 as [Hc1 Hr1].
  destruct (_check_subject_column _ _); [|discriminate]. cbn [rbind].
  destruct (_check_column_type _ _ _ _); [|discriminate]. cbn [rbind].
  destruct (_check_duplicate_subject_timepoint _ _ _ _); [|discriminate].
  cbn [rbind]. intros E2.
  apply check_subjects_ok in E2. destruct E2 as [Hc2 Hr2].
  split; [assumption|]. split.
  - rewrite Hc2, Hc1. simpl. now rewrite Hc.
  - intros r Hin. apply Hr2, Hr1 in Hin. simpl in Hin.
    rewrite Hr in Hin. now apply filter_In in Hin.
Qed.

Lemma Forall2_In_r {A B} (R : A -> B -> Prop) (l1 : list A) (l2 : list B)
  (b : B) :
  Forall2 R l1 l2 -> In b l2 -> exists a, In a l1 /\ R a b.
Proof.
  induction 1 as [|x y l1 l2 Hxy H IH]; simpl; [tauto|].
  intros [E|Hin].
  - subst. exists x. auto.
  - destruct (IH Hin) as [a [Ha HR]]. exists a. auto.
Qed.

Lemma Forall2_enumerate {A B} (R : nat * A -> B -> Prop)
  (Q : A -> B -> Prop) (l : list A) :
  (forall c a b, R (c, a) b -> Q a b) ->
  forall (k : nat) (rows : list B),
    Forall2 R (combine (seq k (List.length l)) l) rows ->
    Forall2 Q l rows.
Proof.
  intros HRQ. induction l as [|a l IH]; intros k rows H; simpl in H.
  - inversion H. constructor.
  - inversion H; subst. constructor; eauto.
Qed.

(** A row of the Sample frame, read against the binarized table [bt]
    and the metadata [d] that reach [_compute_peds]. *)
Definition sample_row_of (bt : BoolTable) (d : DataFrame) (rc : string)
  (row : list value) : Prop :=
  exists sample cells dn drow rrow subject time,
    row = [VStr sample;
           VFloat (true_divide (sum_bools (and_rows drow rrow))
                               (sum_bools drow));
           VInt (sum_bools (and_rows drow rrow));
           VInt (sum_bools drow);
           VCell (Str dn); VCell subject; VCell time]
    /\ lookup sample (df_rows d) = Some cells
    /\ row_field (df_columns d) cells rc = Ok (Str dn)
    /\ lookup dn (bt_rows bt) = Some drow
    /\ In (sample, rrow) (bt_rows bt).

Lemma sample_row_values_id (d : DataFrame) (num_sum donor_sum : list Z)
  (tc sc rc : string) (count : nat) (sample : string) (row : list value) :
  sample_row_values d num_sum donor_sum tc sc rc count sample = Ok row ->
  nth_error row 0 = Some (VStr sample).
Proof.
  unfold sample_row_values.
  destruct (lookup sample (df_rows d)); [|discriminate].
  destruct (row_field _ _ rc); [|discriminate].
  destruct (row_field _ _ sc); [|discriminate].
  destruct (row_field _ _ tc); [|discriminate].
  simpl. intros E. inversion E. reflexivity.
Qed.

Lemma compute_sample_frame_spec (peds_time : cell) (used : Series)
  (t : Table) (d : DataFrame) (tc sc rc : string) (f : PedsFrame) :
  compute_peds_frame (mkPedsFrame sample_columns []) "Sample" peds_time
    used t d tc sc rc = Ok f ->
  p_columns f = sample_columns
  /\ labels_ok f
  /\ Forall2 (fun sample row => nth_error row 0 = Some (VStr sample))
       (bt_index (_create_recipient_table used d (binarize t)))
       (map snd (p_rows f))
  /\ forall row, In row (map snd (p_rows f)) ->
       sample_row_of (binarize t) d rc row.
Proof.
  unfold compute_peds_frame. cbv zeta.
  destruct (filter _ used); [|discriminate].
  destruct (_create_masking _ _ _ _) as [donormask|] eqn:Em;
    [|discriminate].
  cbn [rbind]. change (String.eqb "Sample" "Sample") with true. cbv iota.
  intros E. apply sample_frames_rows in E; [|reflexivity|reflexivity].
  destruct E as [rows [HF [Hc [Hr Hl]]]]. simpl in Hr, Hc.
  rewrite Hr. repeat split; try assumption.
  - eapply Forall2_enumerate; [|exact HF].
    intros c a b Hb. simpl in Hb. eapply sample_row_values_id; eauto.
  - intros row Hin.
    destruct (Forall2_In_r _ _ _ _ HF Hin) as [[count sample] [Hcs Hv]].
    simpl in Hv.
    destruct (sample_mask_sums _ _ _ _ _ _ _ Em Hcs)
      as [dn [drow [rrow [Hloc [Hd [Hrr [Hnum Hden]]]]]]].
    unfold sample_row_values in Hv. rewrite Hnum, Hden in Hv.
    unfold loc_cell in Hloc.
    destruct (lookup sample (df_rows d)) as [cells|] eqn:Ec;
      [|discriminate].
    assert (Hrc : row_field (df_columns d) cells rc = Ok (Str dn)).
    { unfold row_field.
      destruct (index_of rc (df_columns d)); [assumption | discriminate]. }
    rewrite Hrc in Hv. cbn [rbind] in Hv.
    destruct (row_field _ _ sc) as [subject|]; [|discriminate].
    destruct (row_field _ _ tc) as [time|]; [|discriminate].
    cbn [rbind] in Hv. inversion Hv; subst row; clear Hv.
    exists sample, cells, dn, drow, rrow, subject, time.
    repeat split; auto.
    + simpl in Hd.
      now apply (lookup_filter_label
                   (fun k => mem_cell (Str k) (s_values used))) in Hd.
    + simpl in Hrr. now apply filter_In in Hrr.
Qed.

(** ** The Sample measure *)

(** The number of features with a positive abundance in a row of the
    feature table. *)
Definition positive_features (row : list Z) : Z :=
  Z.of_nat (List.length (filter (fun v => (0 <? v)%Z) row)).

(** The number of features with a positive abundance in both rows. *)
Definition shared_positive_features (donor_row recipient_row : list Z)
  : Z :=
  Z.of_nat
    (List.length
       (filter (fun p => (0 <? fst p)%Z && (0 <? snd p)%Z)
               (combine donor_row recipient_row))).

(** The value of a row of the result frame in a named column. *)
Definition p_field (f : PedsFrame) (row : list value) (column : string)
  : option value :=
  match index_of column (p_columns f) with
  | Some j => nth_error row j
  | None => None
  end.

Lemma returns_frame_ok (l : loc) (h' : heap) (expected : result PedsFrame) :
  returns_frame (Ok l, h') expected ->
  exists f, expected = Ok f /\ nth_error h' l = Some (OFrame f).
Proof.
  unfold returns_frame. destruct expected as [f|e]; simpl.
  - intros [l0 [E H]]. inversion E. subst. exists f. auto.
  - discriminate.
Qed.

Lemma sample_peds_frame_ok (t : Table) (md : Metadata) (tc rc sc : string)
  (fm di : bool) (f : PedsFrame) :
  sample_peds_frame t md tc rc sc fm di = Ok f ->
  exists d used,
    sample_peds_resolve t md tc rc sc fm di = Ok (d, used)
    /\ compute_peds_frame (mkPedsFrame sample_columns []) "Sample" NA
         used t d tc sc rc = Ok f.
Proof.
  unfold sample_peds_frame.
  destruct (sample_peds_resolve _ _ _ _ _ _ _) as [[d used]|];
    [|discriminate].
  cbn [rbind]. intros E. exists d, used. auto.
Qed.

Lemma In_binarize (t : Table) (sample : string) (rrow : list bool) :
  NoDup (t_index t) ->
  In (sample, rrow) (bt_rows (binarize t)) ->
  exists z, lookup sample (t_rows t) = Some z
            /\ rrow = map (fun v => (0 <? v)%Z) z.
Proof.
  intros Hnd Hin. unfold binarize in Hin. simpl in Hin.
  apply in_map_iff in Hin. destruct Hin as [[s z] [E Hin]].
  simpl in E. inversion E; subst. exists z. split; [|reflexivity].
  now apply In_lookup.
Qed.

Definition c1_table : Table :=
  mkTable ["f1"; "f2"; "f3"]
    [("D", [3; 1; 2]%Z); ("A", [1; 5; 0]%Z); ("B", [0; 0; 4]%Z)].

Definition c1_metadata : Metadata :=
  mkMetadata "id"
    [("time", Numeric); ("donor", Categorical); ("subject", Categorical)]
    [("D", [NA; NA; NA]);
     ("A", [Num 1; Str "D"; Str "S1"]);
     ("B", [Num 1; Str "D"; Str "S2"])].

Definition c1_heap : heap := [OTable c1_table; OMetadata c1_metadata].

Definition c1_run : result loc * heap :=
  sample_peds 0 1 "time" "donor" "subject" false false c1_heap.

(** Donor D has f1, f2, f3; recipient A has f1, f2: 2 of 3. *)
Example sample_peds_two_thirds :
  fst c1_run = Ok 2
  /\ nth_error (snd c1_run) 2
     = Some (OFrame
               (mkPedsFrame sample_columns
                  [(0, [VStr "A"; VFloat (FVal (2 # 3)); VInt 2; VInt 3;
                        VCell (Str "D"); VCell (Str "S1"); VCell (Num 1)]);
                   (1, [VStr "B"; VFloat (FVal (1 # 3)); VInt 1; VInt 3;
                        VCell (Str "D"); VCell (Str "S2");
                        VCell (Num 1)])])).
Proof. split; reflexivity. Qed.

(** ** The range of the measure *)

(** A measure and its denominator: NaN when the denominator is zero, a
    value between 0 and 1 otherwise. *)
Definition measure_ok (m : float) (denominator : Z) : Prop :=
  (denominator = 0%Z /\ m = FNaN)
  \/ (denominator <> 0%Z
      /\ exists q, m = FVal q /\ (0 <= q)%Q /\ (q <= 1)%Q).

Lemma true_divide_range (n d : Z) :
  (0 <= n <= d)%Z -> measure_ok (true_divide n d) d.
Proof.
  intros [Hn Hd]. unfold measure_ok, true_divide.
  destruct (d =? 0)%Z eqn:Ed.
  - apply Z.eqb_eq in Ed. left. split; [assumption|].
    assert (n = 0%Z) by lia. subst n. reflexivity.
  - apply Z.eqb_neq in Ed. right. split; [assumption|].
    exists (inject_Z n / inject_Z d)%Q. split; [reflexivity|].
    assert (Hpos : (0 < inject_Z d)%Q).
    { change 0%Q with (inject_Z 0). rewrite <- Zlt_Qlt. lia. }
    split.
    + apply Qle_shift_div_l; [assumption|]. rewrite Qmult_0_l.
      change 0%Q with (inject_Z 0). rewrite <- Zle_Qle. assumption.
    + apply Qle_shift_div_r; [assumption|]. rewrite Qmult_1_l.
      rewrite <- Zle_Qle. assumption.
Qed.

Lemma true_divide_nan (n d : Z) :
  (0 <= n <= d)%Z -> true_divide n d = FNaN -> d = 0%Z.
Proof.
  intros H E. destruct (true_divide_range n d H) as [[Hd _]|[_ [q [Hq _]]]].
  - assumption.
  - congruence.
Qed.

Lemma nth_and_rows (c : nat) (a b : list bool) :
  nth c (and_rows a b) false = true -> nth c a false = true.
Proof.
  unfold and_rows. revert c b.
  induction a as [|x a IH]; intros c [|y b]; simpl;
    try (destruct c; discriminate).
  destruct c.
  - intros H. now apply andb_true_iff in H.
  - apply IH.
Qed.

Lemma column_sum_masked_le (c : nat) (donormask rows : list (list bool)) :
  (sum_bools
     (map (fun row => nth c row false)
          (map (fun p => and_rows (fst p) (snd p)) (combine donormask rows)))
   <= sum_bools (map (fun row => nth c row false) donormask))%Z.
Proof.
  revert rows. induction donormask as [|a D IH]; intros [|b R].
  - simpl. lia.
  - simpl. lia.
  - apply sum_bools_nonneg.
  - cbn [combine map fst snd]. rewrite !sum_bools_cons.
    specialize (IH R). pose proof (nth_and_rows c a b) as H.
    destruct (nth c (and_rows a b) false).
    + rewrite H by reflexivity. lia.
    + destruct (nth c a false); cbn [Z.b2z]; lia.
Qed.

Lemma nth_map_seq (g : nat -> Z) (k c : nat) :
  nth c (map g (seq 0 k)) 0%Z = if c <? k then g c else 0%Z.
Proof.
  destruct (c <? k) eqn:E.
  - apply Nat.ltb_lt in E.
    rewrite (nth_indep _ 0%Z (g 0)) by now rewrite length_map, length_seq.
    rewrite map_nth, seq_nth by assumption. reflexivity.
  - apply Nat.ltb_ge in E. apply nth_overflow.
    now rewrite length_map, length_seq.
Qed.

(** The column sums of the Feature mode: numerator below denominator. *)
Lemma sum_axis0_bounds (ncols c : nat) (donormask : list (list bool))
  (recip_df : BoolTable) :
  (0 <= nth c (sum_axis0 ncols (_mask_recipient donormask recip_df)) 0
   <= nth c (sum_axis0 ncols donormask) 0)%Z.
Proof.
  unfold sum_axis0. rewrite !nth_map_seq.
  destruct (c <? ncols); [|lia]. split.
  - apply sum_bools_nonneg.
  - apply column_sum_masked_le.
Qed.

(** ** The rows of the Feature frame *)

(** A row of the Feature frame: the quotient of two counts with a
    non-zero denominator, at a time that is not missing. *)
Definition feature_row_ok (row : list value) : Prop :=
  exists feature n d time,
    row = [VStr feature; VFloat (true_divide n d); VInt n; VInt d;
           VCell time; VStr feature]
    /\ (0 <= n <= d)%Z /\ d <> 0%Z /\ time <> NA.

Lemma replace_row_rows (label : nat) (row r : list value)
  (rows : list (nat * list value)) :
  In r (map snd (replace_row label row rows)) ->
  In r (map snd rows) \/ r = row.
Proof.
  induction rows as [|x rows IH]; simpl; [tauto|].
  destruct (fst x =? label); simpl; intros [E|H]; auto;
    destruct (IH H); auto.
Qed.

Lemma p_set_loc_rows (f f' : PedsFrame) (label : nat) (row : list value) :
  p_set_loc f label row = Ok f' ->
  p_columns f' = p_columns f
  /\ forall r, In r (map snd (p_rows f')) ->
               In r (map snd (p_rows f)) \/ r = row.
Proof.
  unfold p_set_loc. destruct (negb _); [discriminate|].
  destruct (existsb _ _); intros E; inversion E; simpl;
    (split; [reflexivity|]); intros r Hr.
  - now apply replace_row_rows in Hr.
  - rewrite map_app in Hr. apply in_app_or in Hr. simpl in Hr.
    destruct Hr as [H|[H|[]]]; auto.
Qed.

Lemma p_dropna_rows (f : PedsFrame) (r : list value) :
  In r (map snd (p_rows (p_dropna f))) ->
  In r (map snd (p_rows f)) /\ existsb is_nan_value r = false.
Proof.
  unfold p_dropna. simpl. rewrite in_map_iff.
  intros [x [E Hx]]. apply filter_In in Hx. destruct Hx as [Hx Hn].
  subst r. split; [now apply in_map|]. now apply negb_true_iff in Hn.
Qed.

Lemma feature_row_values_ok (num_sum donor_sum : list Z) (time : cell)
  (count : nat) (feature : string) :
  (forall c, (0 <= nth c num_sum 0 <= nth c donor_sum 0)%Z) ->
  existsb is_nan_value
    (feature_row_values num_sum donor_sum time count feature) = false ->
  feature_row_ok (feature_row_values num_sum donor_sum time count feature).
Proof.
  intros Hb Hn. unfold feature_row_values in *. simpl in Hn.
  exists feature, (nth count num_sum 0%Z), (nth count donor_sum 0%Z), time.
  split; [reflexivity|]. split; [apply Hb|].
  pose proof (true_divide_range _ _ (Hb count)) as Hr.
  split.
  - intros Hd. destruct Hr as [[_ Hr]|[Hr _]]; [|contradiction].
    rewrite Hr in Hn. discriminate.
  - intros Ht. subst time.
    destruct (true_divide _ _) as [|?|?]; simpl in Hn; discriminate.
Qed.

Lemma feature_frames_inv (num_sum donor_sum : list Z) (time : cell)
  (features : list (nat * string)) :
  (forall c, (0 <= nth c num_sum 0 <= nth c donor_sum 0)%Z) ->
  forall f f',
    Forall feature_row_ok (map snd (p_rows f)) ->
    feature_frames f num_sum donor_sum time features = Ok f' ->
    Forall feature_row_ok (map snd (p_rows f'))
    /\ p_columns f' = p_columns f.
Proof.
  intros Hb. induction features as [|[count feature] rest IH];
    intros f f' Hf E; simpl in E.
  - inversion E; subst. auto.
  - destruct (p_set_loc _ _ _) as [f1|] eqn:Es; [|discriminate].
    cbn [rbind] in E. apply p_set_loc_rows in Es.
    destruct Es as [Hc Hrows].
    destruct (IH (p_dropna f1) f') as [H1 H2]; [|assumption|].
    + apply Forall_forall. intros r Hr. apply p_dropna_rows in Hr.
      destruct Hr as [Hr Hn]. destruct (Hrows r Hr) as [Hold|Hnew].
      * rewrite Forall_forall in Hf. now apply Hf.
      * subst r. now apply feature_row_values_ok.
    + split; [assumption|]. rewrite H2. simpl. assumption.
Qed.

Lemma compute_feature_frame_inv (f f' : PedsFrame) (time : cell)
  (used : Series) (t : Table) (d : DataFrame) (tc sc rc : string) :
  Forall feature_row_ok (map snd (p_rows f)) ->
  compute_peds_frame f "Feature" time used t d tc sc rc = Ok f' ->
  Forall feature_row_ok (map snd (p_rows f'))
  /\ p_columns f' = p_columns f.
Proof.
  intros Hf. unfold compute_peds_frame. cbv zeta.
  destruct (filter _ used); [|discriminate].
  destruct (_create_masking _ _ _ _) as [donormask|]; [|discriminate].
  cbn [rbind]. change (String.eqb "Feature" "Sample") with false.
  change (String.eqb "Feature" "Feature") with true. cbv iota.
  apply feature_frames_inv; [|assumption].
  intros c. apply sum_axis0_bounds.
Qed.

Lemma feature_groups_frames_inv (used : Series) (t : Table)
  (tc sc rc : string) (groups : list (cell * DataFrame)) :
  forall f f',
    Forall feature_row_ok (map snd (p_rows f)) ->
    feature_groups_frames f used t tc sc rc groups = Ok f' ->
    Forall feature_row_ok (map snd (p_rows f'))
    /\ p_columns f' = p_columns f.
Proof.
  induction groups as [|[time d] rest IH]; intros f f' Hf E; simpl in E.
  - inversion E; subst. auto.
  - destruct (compute_peds_frame _ _ _ _ _ _ _ _ _) as [f1|] eqn:Ec;
      [|discriminate].
    cbn [rbind] in E.
    destruct (compute_feature_frame_inv _ _ _ _ _ _ _ _ _ Hf Ec)
      as [H1 H2].
    destruct (IH _ _ H1 E) as [H3 H4]. split; [assumption|].
    now rewrite H4.
Qed.

Lemma feature_peds_frame_spec (t : Table) (md : Metadata)
  (tc rc sc : string) (fm : bool) (f : PedsFrame) :
  feature_peds_frame t md tc rc sc fm = Ok f ->
  p_columns f = feature_columns
  /\ Forall feature_row_ok (map snd (p_rows f)).
Proof.
  unfold feature_peds_frame.
  destruct (feature_peds_resolve _ _ _ _ _ _) as [[d used]|];
    [|discriminate].
  cbn [rbind]. destruct (groupby d tc) as [groups|]; [|discriminate].
  cbn [rbind]. intros E.
  apply feature_groups_frames_inv in E; [|constructor].
  destruct E as [H1 H2]. auto.
Qed.

Lemma feature_peds_frame_ok (h h' : heap) (table metadata l : loc)
  (t : Table) (md : Metadata) (tc rc sc : string) (fm : bool) :
  nth_error h table = Some (OTable t) ->
  nth_error h metadata = Some (OMetadata md) ->
  feature_peds table metadata tc rc sc fm h = (Ok l, h') ->
  exists f, nth_error h' l = Some (OFrame f)
            /\ p_columns f = feature_columns
            /\ Forall feature_row_ok (map snd (p_rows f)).
Proof.
  intros Ht Hm E.
  pose proof (feature_peds_run h table metadata t md tc rc sc fm Ht Hm)
    as R.
  rewrite E in R. apply returns_frame_ok in R. destruct R as [f [Ef Hf]].
  exists f. split; [assumption|]. now apply feature_peds_frame_spec in Ef.
Qed.

Lemma sample_peds_frame_rows (h h' : heap) (table metadata l : loc)
  (t : Table) (md : Metadata) (tc rc sc : string) (fm di : bool) :
  nth_error h table = Some (OTable t) ->
  nth_error h metadata = Some (OMetadata md) ->
  sample_peds table metadata tc rc sc fm di h = (Ok l, h') ->
  exists f d used,
    nth_error h' l = Some (OFrame f)
    /\ sample_peds_resolve t md tc rc sc fm di = Ok (d, used)
    /\ p_columns f = sample_columns
    /\ Forall2 (fun sample row => nth_error row 0 = Some (VStr sample))
         (bt_index (_create_recipient_table used d (binarize t)))
         (map snd (p_rows f))
    /\ forall row, In row (map snd (p_rows f)) ->
         sample_row_of (binarize t) d rc row.
Proof.
  intros Ht Hm E.
  pose proof (sample_peds_run h table metadata t md tc rc sc fm di Ht Hm)
    as R.
  rewrite E in R. apply returns_frame_ok in R. destruct R as [f [Ef Hf]].
  apply sample_peds_frame_ok in Ef. destruct Ef as [d [used [Er Ec]]].
  apply compute_sample_frame_spec in Ec.
  destruct Ec as [Hc [_ [Hids Hspec]]].
  exists f, d, used. auto.
Qed.

Lemma sample_row_measure (bt : BoolTable) (d : DataFrame) (rc : string)
  (f : PedsFrame) (row : list value) :
  p_columns f = sample_columns ->
  sample_row_of bt d rc row ->
  exists m den,
    p_field f row "measure" = Some (VFloat m)
    /\ p_field f row "total_donor_features" = Some (VInt den)
    /\ measure_ok m den.
Proof.
  intros Hc [sample [cells [dn [drow [rrow [subject [time [E _]]]]]]]].
  subst row. unfold p_field. rewrite Hc.
  eexists; eexists. split; [reflexivity|]. split; [reflexivity|].
  apply true_divide_range. split.
  - apply sum_bools_nonneg.
  - apply sum_bools_and_le.
Qed.

Lemma feature_row_measure (f : PedsFrame) (row : list value) :
  p_columns f = feature_columns ->
  feature_row_ok row ->
  exists m den,
    p_field f row "measure" = Some (VFloat m)
    /\ p_field f row "all possible recipients with feature"
       = Some (VInt den)
    /\ measure_ok m den /\ m <> FNaN.
Proof.
  intros Hc [feature [n [d [time [E [Hb [Hd _]]]]]]].
  subst row. unfold p_field. rewrite Hc.
  eexists; eexists. split; [reflexivity|]. split; [reflexivity|].
  pose proof (true_divide_range n d Hb) as Hr. split; [assumption|].
  destruct Hr as [[Hz _]|[_ [q [Hq _]]]]; [contradiction|].
  rewrite Hq. discriminate.
Qed.

(** C2.  Every measure in the frames that [sample_peds] and
    [feature_peds] return is NaN when its donor denominator is 0 and a
    value between 0 and 1 otherwise; so is every measure the Feature
    loop writes before it drops the NaN rows.  The division of 0 by 0
    is a value, NaN, not an error. *)
Theorem peds_measure_range :
  forall (h : heap) (table metadata : loc) (t : Table) (md : Metadata)
         (time_column reference_column subject_column : string)
         (filter_missing_references drop_incomplete_subjects : bool),
    nth_error h table = Some (OTable t) ->
    nth_error h metadata = Some (OMetadata md) ->
    (forall l h',
        sample_peds table metadata time_column reference_column
          subject_column filter_missing_references
          drop_incomplete_subjects h = (Ok l, h') ->
        exists f,
          nth_error h' l = Some (OFrame f)
          /\ forall row, In row (map snd (p_rows f)) ->
               exists m den,
                 p_field f row "measure" = Some (VFloat m)
                 /\ p_field f row "total_donor_features" = Some (VInt den)
                 /\ measure_ok m den)
    /\ (forall l h',
          feature_peds table metadata time_column reference_column
            subject_column filter_missing_references h = (Ok l, h') ->
          exists f,
            nth_error h' l = Some (OFrame f)
            /\ forall row, In row (map snd (p_rows f)) ->
                 exists m den,
                   p_field f row "measure" = Some (VFloat m)
                   /\ p_field f row "all possible recipients with feature"
                      = Some (VInt den)
                   /\ measure_ok m den)
    /\ (forall ncols donormask recip_df peds_time count feature,
          exists m den,
            feature_row_values
              (sum_axis0 ncols (_mask_recipient donormask recip_df))
              (sum_axis0 ncols donormask) peds_time count feature
            = [VStr feature; VFloat m;
               VInt (nth count
                       (sum_axis0 ncols
                          (_mask_recipient donormask recip_df)) 0%Z);
               VInt den; VCell peds_time; VStr feature]
            /\ measure_ok m den)
    /\ true_divide 0 0 = FNaN.
Proof.
  intros h table metadata t md tc rc sc fm di Ht Hm.
  split; [|split; [|split]].
  - intros l h' E.
    destruct (sample_peds_frame_rows _ _ _ _ _ _ _ _ _ _ _ _ Ht Hm E)
      as [f [d [used [Hf [_ [Hc [_ Hspec]]]]]]].
    exists f. split; [assumption|]. intros row Hin.
    eapply sample_row_measure; eauto.
  - intros l h' E.
    destruct (feature_peds_frame_ok _ _ _ _ _ _ _ _ _ _ _ Ht Hm E)
      as [f [Hf [Hc Hrows]]].
    exists f. split; [assumption|]. intros row Hin.
    rewrite Forall_forall in Hrows.
    destruct (feature_row_measure f row Hc (Hrows row Hin))
      as [m [den [H1 [H2 [H3 _]]]]].
    exists m, den. auto.
  - intros ncols donormask recip_df peds_time count feature.
    eexists; eexists. split; [reflexivity|].
    apply true_divide_range. apply sum_axis0_bounds.
  - reflexivity.
Qed.

Definition c6_table : Table :=
  mkTable ["f1"; "f2"; "f3"; "f4"]
    [("D", [3; 1; 2; 0]%Z); ("E", [0; 0; 0; 0]%Z);
     ("A", [1; 5; 0; 7]%Z); ("C", [1; 1; 1; 0]%Z)].

Definition c6_metadata : Metadata :=
  mkMetadata "id"
    [("time", Numeric); ("donor", Categorical); ("subject", Categorical)]
    [("D", [NA; NA; NA]);
     ("E", [NA; NA; NA]);
     ("A", [Num 1; Str "D"; Str "S1"]);
     ("C", [Num 1; Str "E"; Str "S2"])].

Definition c6_heap : heap := [OTable c6_table; OMetadata c6_metadata].

Definition c6_sample_run : result loc * heap :=
  sample_peds 0 1 "time" "donor" "subject" false false c6_heap.

Definition c6_feature_run : result loc * heap :=
  feature_peds 0 1 "time" "donor" "subject" false c6_heap.

(** Recipient C has donor E, which has no feature at all: its Sample row
    is kept with a NaN measure. *)
Example sample_peds_keeps_nan :
  fst c6_sample_run = Ok 2
  /\ nth_error (snd c6_sample_run) 2
     = Some (OFrame
               (mkPedsFrame sample_columns
                  [(0, [VStr "A"; VFloat (FVal (2 # 3)); VInt 2; VInt 3;
                        VCell (Str "D"); VCell (Str "S1"); VCell (Num 1)]);
                   (1, [VStr "C"; VFloat FNaN; VInt 0; VInt 0;
                        VCell (Str "E"); VCell (Str "S2");
                        VCell (Num 1)])])).
Proof. split; reflexivity. Qed.

(** No donor has feature f4: its Feature row is dropped. *)
Example feature_peds_drops_nan :
  fst c6_feature_run = Ok 6
  /\ nth_error (snd c6_feature_run) 6
     = Some (OFrame
               (mkPedsFrame feature_columns
                  [(0, [VStr "f1"; VFloat (FVal (1 # 1)); VInt 1; VInt 1;
                        VCell (Num 1); VStr "f1"]);
                   (1, [VStr "f2"; VFloat (FVal (1 # 1)); VInt 1; VInt 1;
                        VCell (Num 1); VStr "f2"]);
                   (2, [VStr "f3"; VFloat (FVal (0 # 1)); VInt 0; VInt 1;
                        VCell (Num 1); VStr "f3"])])).
Proof. split; reflexivity. Qed.

Lemma peds_measure_range_witness :
  (exists f,
      nth_error (snd c6_sample_run) 2 = Some (OFrame f)
      /\ forall row, In row (map snd (p_rows f)) ->
           exists m den,
             p_field f row "measure" = Some (VFloat m)
             /\ p_field f row "total_donor_features" = Some (VInt den)
             /\ measure_ok m den)
  /\ (exists f,
        nth_error (snd c6_feature_run) 6 = Some (OFrame f)
        /\ forall row, In row (map snd (p_rows f)) ->
             exists m den,
               p_field f row "measure" = Some (VFloat m)
               /\ p_field f row "all possible recipients with feature"
                  = Some (VInt den)
               /\ measure_ok m den).
Proof.
  destruct (peds_measure_range c6_heap 0 1 c6_table c6_metadata
              "time" "donor" "subject" false false eq_refl eq_refl)
    as [Hs [Hf _]].
  split.
  - apply (Hs 2 (snd c6_sample_run)). reflexivity.
  - apply (Hf 6 (snd c6_feature_run)). reflexivity.
Defined.

(** ** NaN rows *)

Lemma measure_ok_nan (m : float) (den : Z) :
  measure_ok m den -> (m = FNaN <-> den = 0%Z).
Proof.
  intros [[Hd Hm]|[Hd [q [Hq _]]]]; subst; split; intros H;
    try reflexivity; try congruence; try contradiction.
Qed.

Lemma Forall2_impl_In_r {A B} (P Q : A -> B -> Prop) (l : list A)
  (rows : list B) :
  Forall2 P l rows ->
  (forall a r, In r rows -> P a r -> Q a r) ->
  Forall2 Q l rows.
Proof.
  induction 1 as [|a r l rows Har H IH]; intros HPQ; constructor.
  - apply HPQ; simpl; auto.
  - apply IH. intros a' r' Hin. apply HPQ. simpl. auto.
Qed.

(** C6.  The frame [feature_peds] returns has no row with a NaN
    measure.  The frame [sample_peds] returns has one row for each
    recipient sample, in the order of the table, and that row is there
    with a NaN measure whenever its donor denominator is 0. *)
Theorem nan_rows_dropped_by_feature_kept_by_sample :
  forall (h : heap) (table metadata : loc) (t : Table) (md : Metadata)
         (time_column reference_column subject_column : string)
         (filter_missing_references drop_incomplete_subjects : bool),
    nth_error h table = Some (OTable t) ->
    nth_error h metadata = Some (OMetadata md) ->
    (forall l h',
        feature_peds table metadata time_column reference_column
          subject_column filter_missing_references h = (Ok l, h') ->
        exists f,
          nth_error h' l = Some (OFrame f)
          /\ forall row, In row (map snd (p_rows f)) ->
               exists m, p_field f row "measure" = Some (VFloat m)
                         /\ m <> FNaN)
    /\ (forall l h',
          sample_peds table metadata time_column reference_column
            subject_column filter_missing_references
            drop_incomplete_subjects h = (Ok l, h') ->
          exists f resolved used_references,
            nth_error h' l = Some (OFrame f)
            /\ sample_peds_resolve t md time_column reference_column
                 subject_column filter_missing_references
                 drop_incomplete_subjects
               = Ok (resolved, used_references)
            /\ Forall2
                 (fun sample row =>
                    p_field f row "id" = Some (VStr sample)
                    /\ exists m den,
                         p_field f row "measure" = Some (VFloat m)
                         /\ p_field f row "total_donor_features"
                            = Some (VInt den)
                         /\ (m = FNaN <-> den = 0%Z))
                 (bt_index (_create_recipient_table used_references
                              resolved (binarize t)))
                 (map snd (p_rows f))).
Proof.
  intros h table metadata t md tc rc sc fm di Ht Hm. split.
  - intros l h' E.
    destruct (feature_peds_frame_ok _ _ _ _ _ _ _ _ _ _ _ Ht Hm E)
      as [f [Hf [Hc Hrows]]].
    exists f. split; [assumption|]. intros row Hin.
    rewrite Forall_forall in Hrows.
    destruct (feature_row_measure f row Hc (Hrows row Hin))
      as [m [den [H1 [_ [_ H4]]]]].
    exists m. auto.
  - intros l h' E.
    destruct (sample_peds_frame_rows _ _ _ _ _ _ _ _ _ _ _ _ Ht Hm E)
      as [f [d [used [Hf [Hr [Hc [Hids Hspec]]]]]]].
    exists f, d, used. split; [assumption|]. split; [assumption|].
    eapply Forall2_impl_In_r; [exact Hids|].
    intros sample row Hin Hid. split.
    + unfold p_field. rewrite Hc. exact Hid.
    + destruct (sample_row_measure _ _ _ f row Hc (Hspec row Hin))
        as [m [den [H1 [H2 H3]]]].
      exists m, den. split; [assumption|]. split; [assumption|].
      now apply measure_ok_nan.
Qed.

Lemma nan_rows_dropped_by_feature_kept_by_sample_witness :
  (exists f,
      nth_error (snd c6_feature_run) 6 = Some (OFrame f)
      /\ forall row, In row (map snd (p_rows f)) ->
           exists m, p_field f row "measure" = Some (VFloat m)
                     /\ m <> FNaN)
  /\ (exists f resolved used_references,
        nth_error (snd c6_sample_run) 2 = Some (OFrame f)
        /\ sample_peds_resolve c6_table c6_metadata "time" "donor"
             "subject" false false = Ok (resolved, used_references)
        /\ Forall2
             (fun sample row =>
                p_field f row "id" = Some (VStr sample)
                /\ exists m den,
                     p_field f row "measure" = Some (VFloat m)
                     /\ p_field f row "total_donor_features"
                        = Some (VInt den)
                     /\ (m = FNaN <-> den = 0%Z))
             (bt_index (_create_recipient_table used_references
                          resolved (binarize c6_table)))
             (map snd (p_rows f))).
Proof.
  destruct (nan_rows_dropped_by_feature_kept_by_sample c6_heap 0 1
              c6_table c6_metadata "time" "donor" "subject" false false
              eq_refl eq_refl) as [Hf Hs].
  split.
  - apply (Hf 6 (snd c6_feature_run)). reflexivity.
  - apply (Hs 2 (snd c6_sample_run)). reflexivity.
Defined.

(** Two runs with the same outcome: the same error, or two locations
    holding equal frames. *)
Definition same_outcome (r1 r2 : result loc * heap) : Prop :=
  match fst r1, fst r2 with
  | Ok l1, Ok l2 =>
      exists f, nth_error (snd r1) l1 = Some (OFrame f)
                /\ nth_error (snd r2) l2 = Some (OFrame f)
  | Err e1, Err e2 => e1 = e2
  | _, _ => False
  end.

Lemma returns_frame_same (r1 r2 : result loc * heap)
  (expected : result PedsFrame) :
  returns_frame r1 expected -> returns_frame r2 expected ->
  same_outcome r1 r2.
Proof.
  unfold returns_frame, same_outcome. destruct expected as [f|e].
  - intros [l1 [E1 H1]] [l2 [E2 H2]]. rewrite E1, E2. exists f. auto.
  - intros E1 E2. now rewrite E1, E2.
Qed.

Lemma sample_peds_frame_rows_in_table (t : Table) (md1 md2 : Metadata)
  (tc rc sc : string) (fm di : bool) :
  md_index_name md1 = md_index_name md2 ->
  md_columns md1 = md_columns md2 ->
  rows_in_table t md1 = rows_in_table t md2 ->
  sample_peds_frame t md1 tc rc sc fm di
  = sample_peds_frame t md2 tc rc sc fm di.
Proof.
  intros Hn Hc Hr. unfold sample_peds_frame, sample_peds_resolve.
  cbv zeta. now rewrite (filter_ids_rows_in_table t md1 md2 Hn Hc Hr).
Qed.

Lemma feature_peds_frame_rows_in_table (t : Table) (md1 md2 : Metadata)
  (tc rc sc : string) (fm : bool) :
  md_index_name md1 = md_index_name md2 ->
  md_columns md1 = md_columns md2 ->
  rows_in_table t md1 = rows_in_table t md2 ->
  feature_peds_frame t md1 tc rc sc fm
  = feature_peds_frame t md2 tc rc sc fm.
Proof.
  intros Hn Hc Hr. unfold feature_peds_frame, feature_peds_resolve.
  cbv zeta. now rewrite (filter_ids_rows_in_table t md1 md2 Hn Hc Hr).
Qed.

Lemma recipient_in_table (used : Series) (d : DataFrame) (t : Table)
  (sample : string) :
  In sample (bt_index (_create_recipient_table used d (binarize t))) ->
  In sample (t_index t).
Proof.
  unfold bt_index, _create_recipient_table, binarize, t_index. simpl.
  rewrite !in_map_iff. intros [r [E Hr]]. apply filter_In in Hr.
  destruct Hr as [Hr _]. apply in_map_iff in Hr.
  destruct Hr as [z [Ez Hz]]. exists z. subst r. simpl in E. auto.
Qed.

(** C9.  [sample_peds] and [feature_peds] see of the metadata only the
    rows whose sample is a row of the feature table: on two metadata
    with the same columns that differ only in rows for samples absent
    from the table, each call has the same outcome, the same error or
    an equal frame; and every row of the Sample frame is the row of a
    sample of the table. *)
Theorem metadata_rows_outside_table_ignored :
  forall (h1 h2 : heap) (table metadata : loc) (t : Table)
         (md1 md2 : Metadata)
         (time_column reference_column subject_column : string)
         (filter_missing_references drop_incomplete_subjects : bool),
    nth_error h1 table = Some (OTable t) ->
    nth_error h1 metadata = Some (OMetadata md1) ->
    nth_error h2 table = Some (OTable t) ->
    nth_error h2 metadata = Some (OMetadata md2) ->
    md_index_name md1 = md_index_name md2 ->
    md_columns md1 = md_columns md2 ->
    rows_in_table t md1 = rows_in_table t md2 ->
    same_outcome
      (sample_peds table metadata time_column reference_column
         subject_column filter_missing_references
         drop_incomplete_subjects h1)
      (sample_peds table metadata time_column reference_column
         subject_column filter_missing_references
         drop_incomplete_subjects h2)
    /\ same_outcome
         (feature_peds table metadata time_column reference_column
            subject_column filter_missing_references h1)
         (feature_peds table metadata time_column reference_column
            subject_column filter_missing_references h2)
    /\ (forall l h',
          sample_peds table metadata time_column reference_column
            subject_column filter_missing_references
            drop_incomplete_subjects h1 = (Ok l, h') ->
          exists f,
            nth_error h' l = Some (OFrame f)
            /\ forall row, In row (map snd (p_rows f)) ->
                 exists sample,
                   p_field f row "id" = Some (VStr sample)
                   /\ In sample (t_index t)).
Proof.
  intros h1 h2 table metadata t md1 md2 tc rc sc fm di
         Ht1 Hm1 Ht2 Hm2 Hn Hc Hr.
  split; [|split].
  - apply returns_frame_same
      with (expected := sample_peds_frame t md1 tc rc sc fm di).
    + now apply sample_peds_run.
    + rewrite (sample_peds_frame_rows_in_table t md1 md2 tc rc sc fm di
                 Hn Hc Hr).
      now apply sample_peds_run.
  - apply returns_frame_same
      with (expected := feature_peds_frame t md1 tc rc sc fm).
    + now apply feature_peds_run.
    + rewrite (feature_peds_frame_rows_in_table t md1 md2 tc rc sc fm
                 Hn Hc Hr).
      now apply feature_peds_run.
  - intros l h' E.
    destruct (sample_peds_frame_rows _ _ _ _ _ _ _ _ _ _ _ _ Ht1 Hm1 E)
      as [f [d [used [Hf [_ [Hcols [Hids _]]]]]]].
    exists f. split; [assumption|]. intros row Hin.
    destruct (Forall2_In_r _ _ _ _ Hids Hin) as [sample [Hs Hid]].
    exists sample. split.
    + unfold p_field. rewrite Hcols. exact Hid.
    + eapply recipient_in_table; eauto.
Qed.

(** The metadata of the example with two more rows, for samples that
    the table does not have. *)
Definition c9_metadata : Metadata :=
  mkMetadata "id"
    [("time", Numeric); ("donor", Categorical); ("subject", Categorical)]
    [("Y", [Num 1; NA; Str "S1"]);
     ("D", [NA; NA; NA]);
     ("A", [Num 1; Str "D"; Str "S1"]);
     ("Z", [Num 9; Str "Q"; NA]);
     ("B", [Num 1; Str "D"; Str "S2"])].

Lemma metadata_rows_outside_table_ignored_witness :
  same_outcome
    (sample_peds 0 1 "time" "donor" "subject" false false c1_heap)
    (sample_peds 0 1 "time" "donor" "subject" false false
       [OTable c1_table; OMetadata c9_metadata])
  /\ same_outcome
       (feature_peds 0 1 "time" "donor" "subject" false c1_heap)
       (feature_peds 0 1 "time" "donor" "subject" false
          [OTable c1_table; OMetadata c9_metadata]).
Proof.
  destruct (metadata_rows_outside_table_ignored c1_heap
              [OTable c1_table; OMetadata c9_metadata] 0 1 c1_table
              c1_metadata c9_metadata "time" "donor" "subject" false false
              eq_refl eq_refl eq_refl eq_refl eq_refl eq_refl eq_refl)
    as [Hs [Hf _]].
  split; assumption.
Defined.

(** ** The bootstrap test *)

(** What the name [metadata_df] of [peds_bootstrap] can hold: a frame,
    or a method that was not called. *)
Inductive pyvalue : Type :=
| PyFrame (d : DataFrame)
| PyBoundMethod (name : string).

(** [value.loc] *)
Definition getattr_loc (v : pyvalue) : result DataFrame :=
  match v with
  | PyFrame d => Ok d
  | PyBoundMethod _ => Err (AttributeError "loc")
  end.

(** [value[column]] *)
Definition getitem (v : pyvalue) (column : string) : result Series :=
  match v with
  | PyFrame d =>
      match get_column d column with
      | Some s => Ok s
      | None => Err (KeyError column)
      end
  | PyBoundMethod _ => Err TypeError
  end.

Section Bootstrap.

(** The global name [body_site]: [None] while nothing defines it. *)
Variable body_site : option cell.

(** Lines 344 to 365: the split into donors and recipients, the
    replicate loop and the rank-sum test, given the frame, the
    Location column and the body site.  They end without a [return]
    statement. *)
Variable replicates_and_test :
  DataFrame -> Series -> cell -> nat -> M unit.

Definition lookup_global (name : string) (v : option cell) : result cell :=
  match v with
  | Some c => Ok c
  | None => Err (NameError name)
  end.

Definition peds_bootstrap (table metadata : loc)
  (time_column reference_column subject_column : string)
  (filter_missing_references drop_incomplete_subjects : bool)
  (bootstrap_replicates : nat) : M (option (Q * Q)) :=
  (md <- load_metadata metadata ;;
   (* metadata_df = metadata.to_dataframe  -- the method, not its result *)
   let metadata_df := PyBoundMethod "to_dataframe" in
   (* donor = metadata_df.loc[metadata_df['Location'] == body_site] *)
   frame <- lift (getattr_loc metadata_df) ;;
   location <- lift (getitem metadata_df "Location") ;;
   site <- lift (lookup_global "body_site" body_site) ;;
   replicates_and_test frame location site bootstrap_replicates ;;;
   (* no return statement: the call returns None *)
   ret None)%heap.

(** C3, against the code.  Whatever the table, the metadata and the
    number of replicates, [peds_bootstrap] raises before its first
    replicate: [metadata.to_dataframe] is not called, and the method
    object has no [loc].  It never returns a statistic and a p-value. *)
Theorem peds_bootstrap_raises :
  forall (h : heap) (table metadata : loc) (md : Metadata)
         (time_column reference_column subject_column : string)
         (filter_missing_references drop_incomplete_subjects : bool)
         (bootstrap_replicates : nat),
    nth_error h metadata = Some (OMetadata md) ->
    peds_bootstrap table metadata time_column reference_column
      subject_column filter_missing_references drop_incomplete_subjects
      bootstrap_replicates h
    = (Err (AttributeError "loc"), h).
Proof.
  intros h table metadata md tc rc sc fm di n Hm.
  unfold peds_bootstrap. unfold bind at 1. unfold load_metadata.
  rewrite Hm. reflexivity.
Qed.

(** Were the body to run to its end, the call would still return
    [None]. *)
Lemma peds_bootstrap_returns_none :
  forall (h h' : heap) (table metadata : loc)
         (tc rc sc : string) (fm di : bool) (n : nat)
         (r : option (Q * Q)),
    peds_bootstrap table metadata tc rc sc fm di n h = (Ok r, h') ->
    r = None.
Proof.
  intros h h' table metadata tc rc sc fm di n r.
  unfold peds_bootstrap, bind, load_metadata, lift, ret.
  destruct (nth_error h metadata) as [[| |]|]; simpl; discriminate.
Qed.

End Bootstrap.

Lemma peds_bootstrap_raises_witness :
  peds_bootstrap None (fun _ _ _ _ => ret tt) 0 1 "time" "donor" "subject"
    false false 999 c1_heap
  = (Err (AttributeError "loc"), c1_heap).
Proof.
  apply (peds_bootstrap_raises None (fun _ _ _ _ => ret tt) c1_heap 0 1
           c1_metadata "time" "donor" "subject" false false 999).
  reflexivity.
Defined.

(** * Further properties of the code *)

(** ** The column checks *)

Lemma NoDup_unique (l : list cell) : NoDup (unique l).
Proof.
  induction l as [|x l IH]; simpl; constructor.
  - intros H. apply filter_In in H. destruct H as [_ H].
    now rewrite cell_eqb_refl in H.
  - now apply NoDup_filter.
Qed.

Lemma index_of_In (x : string) (l : list string) :
  index_of x l = None <-> ~ In x l.
Proof.
  induction l as [|y l IH]; simpl; [tauto|].
  destruct (String.eqb x y) eqn:E.
  - apply String.eqb_eq in E. subst. split; [discriminate | tauto].
  - apply String.eqb_neq in E.
    destruct (index_of x l).
    + split; [discriminate|]. intros H. exfalso. apply H. right.
      destruct (in_dec string_dec x l) as [Hin|Hin]; [assumption|].
      apply IH in Hin. discriminate.
    + split; [|reflexivity]. intros _ [H|H]; [congruence|].
      now apply (proj1 IH).
Qed.

Lemma get_column_None (d : DataFrame) (column : string) :
  ~ In column (df_columns d) -> get_column d column = None.
Proof.
  intros H. unfold get_column. apply index_of_In in H. now rewrite H.
Qed.

(** The number of timepoints is the number of distinct time values of
    the column, a missing value not being one of them. *)
Theorem time_column_counts_distinct_timepoints :
  forall (metadata : DataFrame) (time_column : string) (jt : nat),
    index_of time_column (df_columns metadata) = Some jt ->
    exists timepoints,
      _check_for_time_column metadata time_column
      = Ok (List.length timepoints)
      /\ NoDup timepoints
      /\ forall c, In c timepoints <->
           c <> NA /\ exists r, In r (df_rows metadata) /\ cell_at jt r = c.
Proof.
  intros metadata tc jt Hj. unfold _check_for_time_column.
  rewrite (get_column_index _ _ _ Hj).
  exists (unique (s_values (s_dropna (frame_column jt metadata)))).
  split; [reflexivity|]. split; [apply NoDup_unique|].
  intros c. rewrite In_unique, s_values_dropna, filter_In, notna_true.
  unfold s_values, frame_column. rewrite map_map, in_map_iff. simpl.
  split.
  - intros [[r [E Hr]] Hc]. split; [assumption|]. exists r. auto.
  - intros [Hc [r [Hr E]]]. split; [|assumption]. exists r. auto.
Qed.

Definition two_timepoints_metadata : DataFrame :=
  mkDataFrame "id" ["time"; "donor"; "subject"]
    [("D", [NA; NA; NA]);
     ("a1", [Num 1; Str "D"; Str "S1"]);
     ("a2", [Num 2; Str "D"; Str "S1"]);
     ("b1", [Num 1; Str "D"; Str "S2"]);
     ("b2", [Num 2; Str "D"; Str "S2"])].

Lemma time_column_counts_distinct_timepoints_witness :
  exists timepoints,
    _check_for_time_column two_timepoints_metadata "time"
    = Ok (List.length timepoints)
    /\ NoDup timepoints
    /\ forall c, In c timepoints <->
         c <> NA
         /\ exists r, In r (df_rows two_timepoints_metadata)
                      /\ cell_at 0 r = c.
Proof.
  apply (time_column_counts_distinct_timepoints two_timepoints_metadata
           "time" 0).
  reflexivity.
Defined.

Lemma lookup_index_of {A} (x : string) (l : list (string * A)) (v : A) :
  lookup x l = Some v -> exists j, index_of x (map fst l) = Some j.
Proof.
  induction l as [|[k w] l IH]; simpl; [discriminate|].
  destruct (String.eqb x k); [eauto|].
  intros H. destruct (IH H) as [j Hj]. rewrite Hj. eauto.
Qed.

Lemma check_column_type_ok (column_properties : list (string * ctype))
  (parameter_type column : string) (column_type : ctype) :
  _check_column_type column_properties parameter_type column column_type
  = Ok tt ->
  lookup column column_properties = Some column_type.
Proof.
  unfold _check_column_type.
  destruct (lookup column column_properties) as [ty|]; [|discriminate].
  destruct ty, column_type; simpl; intros H;
    try reflexivity; discriminate.
Qed.

Lemma get_column_Some (d : DataFrame) (column : string) (s : Series) :
  get_column d column = Some s ->
  exists j, index_of column (df_columns d) = Some j /\ s = frame_column j d.
Proof.
  unfold get_column.
  destruct (index_of column (df_columns d)) as [j|]; [|discriminate].
  intros E. inversion E. exists j. auto.
Qed.

Lemma check_reference_column_ok (d : DataFrame) (column : string)
  (s : Series) :
  _check_reference_column d column = Ok s ->
  exists j, index_of column (df_columns d) = Some j /\ s = frame_column j d.
Proof.
  unfold _check_reference_column.
  destruct (get_column d column) as [s'|] eqn:E.
  - intros H. inversion H; subst. now apply get_column_Some.
  - destruct (String.eqb _ _); discriminate.
Qed.

Lemma check_subject_column_ok (d : DataFrame) (column : string)
  (s : Series) :
  _check_subject_column d column = Ok s ->
  exists j, index_of column (df_columns d) = Some j /\ s = frame_column j d.
Proof.
  unfold _check_subject_column.
  destruct (get_column d column) as [s'|] eqn:E.
  - intros H. inversion H; subst. now apply get_column_Some.
  - destruct (String.eqb _ _); discriminate.
Qed.

Lemma check_for_time_column_ok (d : DataFrame) (column : string) (n : nat) :
  _check_for_time_column d column = Ok n ->
  exists j, index_of column (df_columns d) = Some j.
Proof.
  unfold _check_for_time_column.
  destruct (get_column d column) as [s'|] eqn:E.
  - intros _. apply get_column_Some in E. destruct E as [j [E _]]. eauto.
  - destruct (String.eqb _ _); discriminate.
Qed.

(** What a metadata has passed when the validation of [feature_peds]
    accepts it. *)
Lemma feature_peds_resolve_inv (t : Table) (md : Metadata)
  (tc rc sc : string) (fm : bool) (d : DataFrame) (used : Series) :
  feature_peds_resolve t md tc rc sc fm = Ok (d, used) ->
  exists md' jt jr js,
    filter_ids md (t_index t) = Ok md'
    /\ index_of tc (map fst (md_columns md')) = Some jt
    /\ index_of rc (map fst (md_columns md')) = Some jr
    /\ index_of sc (map fst (md_columns md')) = Some js
    /\ lookup tc (md_columns md') = Some Numeric
    /\ lookup rc (md_columns md') = Some Categorical
    /\ lookup sc (md_columns md') = Some Categorical
    /\ _filter_associated_reference (frame_column jr (to_dataframe md'))
         (to_dataframe md') tc fm rc = Ok (d, used).
Proof.
  unfold feature_peds_resolve.
  destruct (filter_ids md (t_index t)) as [md'|]; [|discriminate].
  cbn [rbind].
  destruct (_check_for_time_column _ _) as [n|] eqn:Et; [|discriminate].
  cbn [rbind].
  destruct (_check_column_type _ "time" _ _) as [[]|] eqn:Ett;
    [|discriminate]. cbn [rbind].
  destruct (_check_reference_column _ _) as [rs|] eqn:Er; [|discriminate].
  cbn [rbind].
  destruct (_check_column_type _ "reference" _ _) as [[]|] eqn:Ert;
    [|discriminate]. cbn [rbind].
  destruct (_filter_associated_reference _ _ _ _ _) as [[d1 u1]|] eqn:Ef;
    [|discriminate]. cbn [rbind].
  destruct (_check_subject_column _ _) as [ss|] eqn:Es; [|discriminate].
  cbn [rbind].
  destruct (_check_column_type _ "subject" _ _) as [[]|] eqn:Est;
    [|discriminate]. cbn [rbind].
  intros E. inversion E; subst d1 u1; clear E.
  apply check_for_time_column_ok in Et. destruct Et as [jt Hjt].
  apply check_reference_column_ok in Er. destruct Er as [jr [Hjr ->]].
  apply check_subject_column_ok in Es. destruct Es as [js [Hjs _]].
  destruct (filter_associated_reference_ok _ _ _ _ _ _ _ Ef) as [Hc _].
  rewrite Hc in Hjs.
  exists md', jt, jr, js.
  repeat split; eauto using check_column_type_ok.
Qed.

(** What a metadata has passed when the validation of [sample_peds]
    accepts it. *)
Lemma sample_peds_resolve_inv (t : Table) (md : Metadata)
  (tc rc sc : string) (fm di : bool) (d : DataFrame) (used : Series) :
  sample_peds_resolve t md tc rc sc fm di = Ok (d, used) ->
  exists md' jt jr js d1 used1 n,
    filter_ids md (t_index t) = Ok md'
    /\ index_of tc (map fst (md_columns md')) = Some jt
    /\ index_of rc (map fst (md_columns md')) = Some jr
    /\ index_of sc (map fst (md_columns md')) = Some js
    /\ lookup tc (md_columns md') = Some Numeric
    /\ lookup rc (md_columns md') = Some Categorical
    /\ lookup sc (md_columns md') = Some Categorical
    /\ _check_for_time_column (to_dataframe md') tc = Ok n
    /\ _filter_associated_reference (frame_column jr (to_dataframe md'))
         (to_dataframe md') tc fm rc = Ok (d1, used1)
    /\ df_columns d1 = map fst (md_columns md')
    /\ _check_duplicate_subject_timepoint (frame_column js d1) d1 sc tc
       = Ok tt
    /\ _check_subjects_in_all_timepoints (frame_column js d1) n di d1 sc
         used1 = Ok (d, used).
Proof.
  unfold sample_peds_resolve.
  destruct (filter_ids md (t_index t)) as [md'|]; [|discriminate].
  cbn [rbind].
  destruct (_check_for_time_column _ _) as [n|] eqn:Et; [|discriminate].
  cbn [rbind].
  destruct (_check_column_type _ "time" _ _) as [[]|] eqn:Ett;
    [|discriminate]. cbn [rbind].
  destruct (_check_reference_column _ _) as [rs|] eqn:Er; [|discriminate].
  cbn [rbind].
  destruct (_check_column_type _ "reference" _ _) as [[]|] eqn:Ert;
    [|discriminate]. cbn [rbind].
  destruct (_filter_associated_reference _ _ _ _ _) as [[d1 u1]|] eqn:Ef;
    [|discriminate]. cbn [rbind].
  destruct (_check_subject_column _ _) as [ss|] eqn:Es; [|discriminate].
  cbn [rbind].
  destruct (_check_column_type _ "subject" _ _) as [[]|] eqn:Est;
    [|discriminate]. cbn [rbind].
  destruct (_check_duplicate_subject_timepoint _ _ _ _) as [[]|] eqn:Ed;
    [|discriminate]. cbn [rbind].
  intros E.
  pose proof (check_for_time_column_ok _ _ _ Et) as [jt Hjt].
  apply check_reference_column_ok in Er. destruct Er as [jr [Hjr ->]].
  apply check_subject_column_ok in Es. destruct Es as [js [Hjs ->]].
  destruct (filter_associated_reference_ok _ _ _ _ _ _ _ Ef) as [Hc _].
  rewrite Hc in Hjs.
  exists md', jt, jr, js, d1, u1, n.
  repeat split; eauto using check_column_type_ok.
Qed.

Lemma feature_peds_frame_ok_resolve (t : Table) (md : Metadata)
  (tc rc sc : string) (fm : bool) (f : PedsFrame) :
  feature_peds_frame t md tc rc sc fm = Ok f ->
  exists d used groups,
    feature_peds_resolve t md tc rc sc fm = Ok (d, used)
    /\ groupby d tc = Ok groups
    /\ feature_groups_frames (mkPedsFrame feature_columns []) used t
         tc sc rc groups = Ok f.
Proof.
  unfold feature_peds_frame.
  destruct (feature_peds_resolve _ _ _ _ _ _) as [[d used]|];
    [|discriminate]. cbn [rbind].
  destruct (groupby d tc) as [groups|] eqn:Eg; [|discriminate].
  cbn [rbind]. intros E. exists d, used, groups. auto.
Qed.

(** A call that returns has been given three columns of the metadata: a
    numeric time column, a categorical reference column and a
    categorical subject column. *)
Theorem accepted_columns_are_typed :
  forall (h h' : heap) (table metadata l : loc) (t : Table) (md : Metadata)
         (time_column reference_column subject_column : string)
         (filter_missing_references drop_incomplete_subjects : bool),
    nth_error h table = Some (OTable t) ->
    nth_error h metadata = Some (OMetadata md) ->
    sample_peds table metadata time_column reference_column subject_column
      filter_missing_references drop_incomplete_subjects h = (Ok l, h')
    \/ feature_peds table metadata time_column reference_column
         subject_column filter_missing_references h = (Ok l, h') ->
    lookup time_column (md_columns md) = Some Numeric
    /\ lookup reference_column (md_columns md) = Some Categorical
    /\ lookup subject_column (md_columns md) = Some Categorical.
Proof.
  intros h h' table metadata l t md tc rc sc fm di Ht Hm [E|E].
  - pose proof (sample_peds_run h table metadata t md tc rc sc fm di Ht Hm)
      as R.
    rewrite E in R. apply returns_frame_ok in R. destruct R as [f [Ef _]].
    apply sample_peds_frame_ok in Ef. destruct Ef as [d [used [Er _]]].
    apply sample_peds_resolve_inv in Er.
    destruct Er as [md' [jt [jr [js [d1 [u1 [n
      [Hf [_ [_ [_ [H1 [H2 [H3 _]]]]]]]]]]]]]].
    apply filter_ids_ok in Hf. destruct Hf as [_ [_ [Hc _]]].
    rewrite Hc in H1, H2, H3. auto.
  - pose proof (feature_peds_run h table metadata t md tc rc sc fm Ht Hm)
      as R.
    rewrite E in R. apply returns_frame_ok in R. destruct R as [f [Ef _]].
    apply feature_peds_frame_ok_resolve in Ef.
    destruct Ef as [d [used [groups [Er _]]]].
    apply feature_peds_resolve_inv in Er.
    destruct Er as [md' [jt [jr [js [Hf [_ [_ [_ [H1 [H2 [H3 _]]]]]]]]]]].
    apply filter_ids_ok in Hf. destruct Hf as [_ [_ [Hc _]]].
    rewrite Hc in H1, H2, H3. auto.
Qed.

Lemma accepted_columns_are_typed_witness :
  lookup "time" (md_columns c1_metadata) = Some Numeric
  /\ lookup "donor" (md_columns c1_metadata) = Some Categorical
  /\ lookup "subject" (md_columns c1_metadata) = Some Categorical.
Proof.
  apply (accepted_columns_are_typed c1_heap (snd c1_run) 0 1 2 c1_table
           c1_metadata "time" "donor" "subject" false false).
  - reflexivity.
  - reflexivity.
  - left. reflexivity.
Defined.

(** ** Errors of the validation *)

(** One validation step of a run whose value semantics fails. *)
Ltac fail_lift :=
  unfold bind at 1; unfold lift at 1; cbv beta iota zeta;
  lazymatch goal with
  | |- _ -> (match ?R with _ => _ end) = _ =>
      destruct R; cbn [rbind];
      [|let E := fresh "E" in intros E; inversion E; reflexivity]
  end.

(** An error of the validation is raised before anything is allocated:
    the heap is the one of the call. *)
Lemma sample_peds_validation_error (h : heap) (table metadata : loc)
  (t : Table) (md : Metadata) (tc rc sc : string) (fm di : bool)
  (e : error) :
  nth_error h table = Some (OTable t) ->
  nth_error h metadata = Some (OMetadata md) ->
  sample_peds_resolve t md tc rc sc fm di = Err e ->
  sample_peds table metadata tc rc sc fm di h = (Err e, h).
Proof.
  intros Ht Hm. unfold sample_peds, sample_peds_resolve.
  unfold bind at 1. unfold load_table at 1. rewrite Ht.
  unfold bind at 1. unfold load_metadata at 1. rewrite Hm.
  do 6 fail_lift.
  match goal with p : (DataFrame * Series)%type |- _ => destruct p end.
  do 4 fail_lift.
  discriminate.
Qed.

Lemma feature_peds_validation_error (h : heap) (table metadata : loc)
  (t : Table) (md : Metadata) (tc rc sc : string) (fm : bool) (e : error) :
  nth_error h table = Some (OTable t) ->
  nth_error h metadata = Some (OMetadata md) ->
  feature_peds_resolve t md tc rc sc fm = Err e ->
  feature_peds table metadata tc rc sc fm h = (Err e, h).
Proof.
  intros Ht Hm. unfold feature_peds, feature_peds_resolve.
  unfold bind at 1. unfold load_table at 1. rewrite Ht.
  unfold bind at 1. unfold load_metadata at 1. rewrite Hm.
  do 6 fail_lift.
  match goal with p : (DataFrame * Series)%type |- _ => destruct p end.
  do 2 fail_lift.
  discriminate.
Qed.

(** The error of a missing column: the one that names the index when
    the column asked for is the index of the metadata. *)
Definition column_key_error (parameter column index_name : string)
  : error :=
  if String.eqb column index_name
  then KeyError_column_is_index parameter column
  else KeyError_column_not_found parameter column.

(** When the metadata covers the table: a time column that is not a
    column of the metadata makes [sample_peds] and [feature_peds] raise
    the key error of the time column, and a time column that is
    declared categorical makes both raise the type assertion, whatever
    the other columns are; nothing has been written by then. *)
Theorem time_column_errors :
  forall (h : heap) (table metadata : loc) (t : Table) (md md' : Metadata)
         (time_column reference_column subject_column : string)
         (filter_missing_references drop_incomplete_subjects : bool),
    nth_error h table = Some (OTable t) ->
    nth_error h metadata = Some (OMetadata md) ->
    filter_ids md (t_index t) = Ok md' ->
    (~ In time_column (map fst (md_columns md)) ->
       let e := column_key_error "time" time_column (md_index_name md) in
       sample_peds table metadata time_column reference_column
         subject_column filter_missing_references drop_incomplete_subjects h
       = (Err e, h)
       /\ feature_peds table metadata time_column reference_column
            subject_column filter_missing_references h
          = (Err e, h))
    /\ (lookup time_column (md_columns md) = Some Categorical ->
          let e := AssertionError_column_type Numeric "time" time_column in
          sample_peds table metadata time_column reference_column
            subject_column filter_missing_references
            drop_incomplete_subjects h
          = (Err e, h)
          /\ feature_peds table metadata time_column reference_column
               subject_column filter_missing_references h
             = (Err e, h)).
Proof.
  intros h table metadata t md md' tc rc sc fm di Ht Hm Hf.
  pose proof (filter_ids_ok _ _ _ Hf) as [_ [Hn [Hc _]]].
  split.
  - intros Hin e.
    assert (Et : _check_for_time_column (to_dataframe md') tc = Err e).
    { unfold _check_for_time_column. rewrite get_column_None.
      - simpl. rewrite Hn. subst e. unfold column_key_error.
        now destruct (String.eqb tc (md_index_name md)).
      - simpl. now rewrite Hc. }
    split.
    + apply (sample_peds_validation_error _ _ _ t md); auto.
      unfold sample_peds_resolve. rewrite Hf. cbn [rbind].
      now rewrite Et.
    + apply (feature_peds_validation_error _ _ _ t md); auto.
      unfold feature_peds_resolve. rewrite Hf. cbn [rbind].
      now rewrite Et.
  - intros Hty e.
    destruct (lookup_index_of _ _ _ Hty) as [jt Hjt].
    assert (Et : exists n,
               _check_for_time_column (to_dataframe md') tc = Ok n).
    { unfold _check_for_time_column.
      rewrite (get_column_index _ _ jt); [eauto|]. simpl. now rewrite Hc. }
    destruct Et as [n Et].
    assert (Ety : _check_column_type (md_columns md') "time" tc Numeric
                  = Err e).
    { unfold _check_column_type. rewrite Hc, Hty. reflexivity. }
    split.
    + apply (sample_peds_validation_error _ _ _ t md); auto.
      unfold sample_peds_resolve. rewrite Hf. cbn [rbind].
      rewrite Et. cbn [rbind]. now rewrite Ety.
    + apply (feature_peds_validation_error _ _ _ t md); auto.
      unfold feature_peds_resolve. rewrite Hf. cbn [rbind].
      rewrite Et. cbn [rbind]. now rewrite Ety.
Qed.

(** The metadata of the example with its time column declared
    categorical. *)
Definition categorical_time_metadata : Metadata :=
  mkMetadata "id"
    [("time", Categorical); ("donor", Categorical);
     ("subject", Categorical)]
    (md_rows c1_metadata).

Lemma time_column_errors_witness :
  (sample_peds 0 1 "day" "donor" "subject" false false c1_heap
   = (Err (KeyError_column_not_found "time" "day"), c1_heap)
   /\ feature_peds 0 1 "id" "donor" "subject" false c1_heap
      = (Err (KeyError_column_is_index "time" "id"), c1_heap))
  /\ sample_peds 0 1 "time" "donor" "subject" false false
       [OTable c1_table; OMetadata categorical_time_metadata]
     = (Err (AssertionError_column_type Numeric "time" "time"),
        [OTable c1_table; OMetadata categorical_time_metadata]).
Proof.
  split; [split|].
  - refine (proj1 (proj1 (time_column_errors c1_heap 0 1 c1_table
                            c1_metadata c1_metadata "day" "donor" "subject"
                            false false eq_refl eq_refl eq_refl) _)).
    simpl. intuition discriminate.
  - refine (proj2 (proj1 (time_column_errors c1_heap 0 1 c1_table
                            c1_metadata c1_metadata "id" "donor" "subject"
                            false false eq_refl eq_refl eq_refl) _)).
    simpl. intuition discriminate.
  - refine (proj1 (proj2 (time_column_errors
                            [OTable c1_table;
                             OMetadata categorical_time_metadata] 0 1
                            c1_table categorical_time_metadata
                            categorical_time_metadata "time" "donor"
                            "subject" false false eq_refl eq_refl eq_refl)
                     _)).
    reflexivity.
Defined.

(** ** Duplicate timepoints of a subject *)

Lemma is_unique_NoDup (l : list cell) : is_unique l = true <-> NoDup l.
Proof.
  induction l as [|x l IH]; simpl.
  - split; [constructor | reflexivity].
  - rewrite andb_true_iff, negb_true_iff, IH. split.
    + intros [Hx Hl]. constructor; [|assumption].
      intros Hin. apply mem_cell_In in Hin. congruence.
    + intros H. inversion H; subst. split; [|assumption].
      destruct (mem_cell x l) eqn:E; [|reflexivity].
      apply mem_cell_In in E. contradiction.
Qed.

Lemma for_each_ok {A} (body : A -> result unit) (l : list A) :
  for_each body l = Ok tt <-> Forall (fun x => body x = Ok tt) l.
Proof.
  induction l as [|x l IH]; simpl.
  - split; [constructor | reflexivity].
  - destruct (body x) as [[]|e] eqn:E; cbn [rbind].
    + rewrite IH. split; [now constructor|]. intros H. now inversion H.
    + split; [discriminate|]. intros H. inversion H; subst. congruence.
Qed.

(** The first element that fails stops the loop with its error. *)
Lemma for_each_err {A} (body : A -> result unit) (l : list A) (e : error) :
  for_each body l = Err e ->
  exists l1 x l2,
    l = l1 ++ x :: l2
    /\ Forall (fun y => body y = Ok tt) l1
    /\ body x = Err e.
Proof.
  induction l as [|x l IH]; simpl; [discriminate|].
  destruct (body x) as [[]|e'] eqn:E; cbn [rbind].
  - intros H. destruct (IH H) as [l1 [y [l2 [-> [HF Hy]]]]].
    exists (x :: l1), y, l2. repeat split; auto.
  - intros H. inversion H; subst. exists [], x, l. repeat split; auto.
Qed.

(** A list of cells with a repeated value. *)
Lemma not_NoDup_repeat (l : list cell) :
  ~ NoDup l -> exists a x b c, l = a ++ x :: b ++ x :: c.
Proof.
  induction l as [|y l IH]; intros H.
  - exfalso. apply H. constructor.
  - destruct (mem_cell y l) eqn:E.
    + apply mem_cell_In, in_split in E. destruct E as [b [c ->]].
      exists [], y, b, c. reflexivity.
    + destruct IH as [a [x [b [c ->]]]].
      * intros Hl. apply H. constructor; [|assumption].
        intros Hin. apply mem_cell_In in Hin. congruence.
      * exists (y :: a), x, b, c. reflexivity.
Qed.

Lemma filter_eq_split {A} (p : A -> bool) (l a b : list A) (x : A) :
  filter p l = a ++ x :: b ->
  exists l1 l2,
    l = l1 ++ x :: l2 /\ filter p l1 = a /\ filter p l2 = b
    /\ p x = true.
Proof.
  revert a. induction l as [|y l IH]; intros a; simpl.
  - destruct a; discriminate.
  - destruct (p y) eqn:E.
    + destruct a as [|z a]; simpl; intros H; inversion H; subst.
      * exists [], l. auto.
      * destruct (IH a H2) as [l1 [l2 [-> [H1 [H3 H4]]]]].
        exists (z :: l1), l2. simpl. rewrite E, H1. auto.
    + intros H. destruct (IH a H) as [l1 [l2 [-> [H1 [H3 H4]]]]].
      exists (y :: l1), l2. simpl. rewrite E. auto.
Qed.

(** No row has the missing value for subject: NaN equals nothing. *)
Lemma filter_pd_eq_NA (js : nat) (rows : list (string * list cell)) :
  filter (fun r => cell_pd_eq (cell_at js r) NA) rows = [].
Proof.
  induction rows as [|y l IH]; simpl; [reflexivity|].
  destruct (cell_at js y); simpl; exact IH.
Qed.

(** Two rows of a frame for the same subject with the same time value;
    two missing time values count as the same, a missing subject is no
    subject. *)
Definition shares_timepoint (js jt : nat) (rows : list (string * list cell))
  : Prop :=
  exists l1 r1 l2 r2 l3,
    rows = l1 ++ r1 :: l2 ++ r2 :: l3
    /\ cell_at js r1 <> NA
    /\ cell_at js r2 = cell_at js r1
    /\ cell_at jt r2 = cell_at jt r1.

(** The time values of the rows of a subject, in the order of the
    frame. *)
Definition timepoints_of (js jt : nat) (d : DataFrame) (subject : cell)
  : list cell :=
  map (cell_at jt)
      (filter (fun r => cell_pd_eq (cell_at js r) subject) (df_rows d)).

Lemma check_subject_timepoints_eq (d : DataFrame) (sc tc : string)
  (js jt : nat) (subject : cell) :
  index_of sc (df_columns d) = Some js ->
  index_of tc (df_columns d) = Some jt ->
  check_subject_timepoints d sc tc subject
  = if is_unique (timepoints_of js jt d subject) then Ok tt
    else Err (ValueError_duplicate_timepoint subject
                (timepoints_of js jt d subject)).
Proof.
  intros Hs Ht. unfold check_subject_timepoints. now rewrite Hs, Ht.
Qed.

Lemma repeated_timepoint_shares (js jt : nat) (d : DataFrame)
  (subject : cell) :
  ~ NoDup (timepoints_of js jt d subject) ->
  shares_timepoint js jt (df_rows d).
Proof.
  intros H. apply not_NoDup_repeat in H.
  destruct H as [a [x [b [c H]]]]. unfold timepoints_of in H.
  apply map_eq_app in H. destruct H as [fa [rest [Hf [_ H]]]].
  apply map_eq_cons in H. destruct H as [r1 [rest1 [-> [Hx1 H]]]].
  apply map_eq_app in H. destruct H as [fb [rest2 [-> [_ H]]]].
  apply map_eq_cons in H. destruct H as [r2 [fc [-> [Hx2 _]]]].
  apply filter_eq_split in Hf.
  destruct Hf as [l1 [tail [Hrows [_ [Htail Hp1]]]]].
  apply filter_eq_split in Htail.
  destruct Htail as [l2 [l3 [-> [_ [_ Hp2]]]]].
  apply cell_pd_eq_spec in Hp1, Hp2.
  exists l1, r1, l2, r2, l3. repeat split.
  - assumption.
  - tauto.
  - destruct Hp1 as [-> _]. tauto.
  - congruence.
Qed.

(** Two rows of a subject with the same time value make the time values
    of the subject repeat. *)
Lemma shares_timepoint_repeats (js jt : nat) (d : DataFrame) :
  shares_timepoint js jt (df_rows d) ->
  exists subject,
    In subject (s_values (frame_column js d))
    /\ ~ NoDup (timepoints_of js jt d subject).
Proof.
  intros [l1 [r1 [l2 [r2 [l3 [Hrows [Hna [Es Et]]]]]]]].
  exists (cell_at js r1). split.
  - unfold s_values, frame_column. rewrite map_map. simpl.
    apply in_map_iff. exists r1. split; [reflexivity|].
    rewrite Hrows. apply in_or_app. right. left. reflexivity.
  - intros Eu. unfold timepoints_of in Eu.
    assert (Hp1 : cell_pd_eq (cell_at js r1) (cell_at js r1) = true)
      by (apply cell_pd_eq_spec; auto).
    assert (Hp2 : cell_pd_eq (cell_at js r2) (cell_at js r1) = true)
      by (apply cell_pd_eq_spec; split; congruence).
    rewrite Hrows in Eu. rewrite filter_app in Eu. simpl in Eu.
    rewrite Hp1, filter_app in Eu. simpl in Eu. rewrite Hp2 in Eu.
    rewrite map_app in Eu. simpl in Eu. rewrite map_app in Eu.
    simpl in Eu. apply NoDup_remove_2 in Eu. apply Eu.
    apply in_or_app. right. apply in_or_app. right. left. assumption.
Qed.

(** A metadata that passes the check has no subject with two rows at
    the same time value. *)
Lemma duplicate_check_sound (d : DataFrame) (sc tc : string) (js jt : nat) :
  index_of sc (df_columns d) = Some js ->
  index_of tc (df_columns d) = Some jt ->
  _check_duplicate_subject_timepoint (frame_column js d) d sc tc = Ok tt ->
  ~ shares_timepoint js jt (df_rows d).
Proof.
  intros Hs Ht E Hshare. unfold _check_duplicate_subject_timepoint in E.
  rewrite for_each_ok, Forall_forall in E.
  destruct (shares_timepoint_repeats _ _ _ Hshare) as [subject [Hin Hrep]].
  specialize (E _ Hin).
  rewrite (check_subject_timepoints_eq _ _ _ _ _ _ Hs Ht) in E.
  destruct (is_unique _) eqn:Eu; [|discriminate].
  now apply is_unique_NoDup in Eu.
Qed.

(** The check passes exactly on a metadata in which no subject has two
    rows with the same time value. *)
Theorem duplicate_check_passes_iff :
  forall (metadata : DataFrame) (subject_column time_column : string)
         (js jt : nat),
    index_of subject_column (df_columns metadata) = Some js ->
    index_of time_column (df_columns metadata) = Some jt ->
    _check_duplicate_subject_timepoint (frame_column js metadata) metadata
      subject_column time_column = Ok tt
    <-> ~ shares_timepoint js jt (df_rows metadata).
Proof.
  intros d sc tc js jt Hs Ht. split.
  - now apply duplicate_check_sound.
  - intros Hno. unfold _check_duplicate_subject_timepoint.
    rewrite for_each_ok, Forall_forall. intros subject _.
    rewrite (check_subject_timepoints_eq _ _ _ _ _ _ Hs Ht).
    destruct (is_unique _) eqn:Eu; [reflexivity|].
    exfalso. apply Hno. apply (repeated_timepoint_shares js jt d subject).
    intros Hnd. apply is_unique_NoDup in Hnd. congruence.
Qed.

Lemma duplicate_check_passes_iff_witness :
  _check_duplicate_subject_timepoint (frame_column 2 two_timepoints_metadata)
    two_timepoints_metadata "subject" "time" = Ok tt
  <-> ~ shares_timepoint 2 0 (df_rows two_timepoints_metadata).
Proof.
  apply (duplicate_check_passes_iff two_timepoints_metadata "subject"
           "time" 2 0).
  - reflexivity.
  - reflexivity.
Defined.

(** The error of the check names the first subject, in the order of the
    rows, that has two rows with the same time value, with the time
    values of all its rows. *)
Theorem duplicate_check_error_names_first_subject :
  forall (metadata : DataFrame) (subject_column time_column : string)
         (js jt : nat) (e : error),
    index_of subject_column (df_columns metadata) = Some js ->
    index_of time_column (df_columns metadata) = Some jt ->
    _check_duplicate_subject_timepoint (frame_column js metadata) metadata
      subject_column time_column = Err e ->
    exists before r after,
      df_rows metadata = before ++ r :: after
      /\ cell_at js r <> NA
      /\ e = ValueError_duplicate_timepoint (cell_at js r)
               (timepoints_of js jt metadata (cell_at js r))
      /\ ~ NoDup (timepoints_of js jt metadata (cell_at js r))
      /\ forall r', In r' before ->
           NoDup (timepoints_of js jt metadata (cell_at js r')).
Proof.
  intros d sc tc js jt e Hs Ht E.
  unfold _check_duplicate_subject_timepoint in E.
  apply for_each_err in E. destruct E as [v1 [x [v2 [Hv [Hbefore Hx]]]]].
  unfold s_values, frame_column in Hv. rewrite map_map in Hv. simpl in Hv.
  apply map_eq_app in Hv. destruct Hv as [before [rest [Hrows [Hb Hv]]]].
  apply map_eq_cons in Hv. destruct Hv as [r [after [-> [Hr _]]]].
  subst x v1.
  rewrite (check_subject_timepoints_eq _ _ _ _ _ _ Hs Ht) in Hx.
  destruct (is_unique _) eqn:Eu; [discriminate|].
  assert (Hdup : ~ NoDup (timepoints_of js jt d (cell_at js r))).
  { intros Hnd. apply is_unique_NoDup in Hnd. congruence. }
  exists before, r, after. repeat split; auto.
  - intros Hna. apply Hdup. unfold timepoints_of. rewrite Hna.
    rewrite filter_pd_eq_NA. constructor.
  - now inversion Hx.
  - intros r' Hr'. rewrite Forall_forall in Hbefore.
    specialize (Hbefore (cell_at js r')).
    rewrite (check_subject_timepoints_eq _ _ _ _ _ _ Hs Ht) in Hbefore.
    apply is_unique_NoDup.
    destruct (is_unique _); [reflexivity|].
    assert (In (cell_at js r') (map (fun x => cell_at js x) before))
      by now apply in_map.
    specialize (Hbefore H). discriminate.
Qed.

(** Subject S1 has two rows at time 1. *)
Definition repeated_timepoint_metadata : DataFrame :=
  mkDataFrame "id" ["time"; "donor"; "subject"]
    [("D", [NA; NA; NA]);
     ("b1", [Num 1; Str "D"; Str "S2"]);
     ("a1", [Num 1; Str "D"; Str "S1"]);
     ("a2", [Num 1; Str "D"; Str "S1"]);
     ("b2", [Num 2; Str "D"; Str "S2"])].

Lemma duplicate_check_error_names_first_subject_witness :
  exists before r after,
    df_rows repeated_timepoint_metadata = before ++ r :: after
    /\ cell_at 2 r <> NA
    /\ ValueError_duplicate_timepoint (Str "S1") [Num 1; Num 1]
       = ValueError_duplicate_timepoint (cell_at 2 r)
           (timepoints_of 2 0 repeated_timepoint_metadata (cell_at 2 r))
    /\ ~ NoDup (timepoints_of 2 0 repeated_timepoint_metadata (cell_at 2 r))
    /\ forall r', In r' before ->
         NoDup (timepoints_of 2 0 repeated_timepoint_metadata (cell_at 2 r')).
Proof.
  apply (duplicate_check_error_names_first_subject
           repeated_timepoint_metadata "subject" "time" 2 0).
  - reflexivity.
  - reflexivity.
  - reflexivity.
Defined.

(** ** The references in use *)

Lemma existsb_pointwise {A} (p q : A -> bool) (l : list A) :
  (forall x, p x = q x) -> existsb p l = existsb q l.
Proof.
  intros H. induction l as [|x l IH]; simpl; [reflexivity|].
  now rewrite H, IH.
Qed.

Lemma existsb_false {A} (p : A -> bool) (l : list A) :
  existsb p l = false <-> forall x, In x l -> p x = false.
Proof.
  induction l as [|y l IH]; simpl.
  - split; [tauto | reflexivity].
  - rewrite orb_false_iff, IH. split.
    + intros [Hy Hl] x [<-|Hx]; auto.
    + intros H. split; auto.
Qed.

Lemma existsb_false_filter {A} (p q : A -> bool) (l : list A) :
  existsb (fun x => p x && negb (q x)) l = false ->
  filter p l = filter (fun x => p x && q x) l.
Proof.
  induction l as [|x l IH]; simpl; [reflexivity|].
  intros H. apply orb_false_iff in H. destruct H as [Hx Hl].
  rewrite (IH Hl). destruct (p x), (q x); simpl in *;
    try reflexivity; discriminate.
Qed.

Lemma timestamped_without_reference_eq (jt jr : nat)
  (r : string * list cell) :
  timestamped_without_reference jt jr r
  = notna (cell_at jt r) && negb (notna (cell_at jr r)).
Proof.
  unfold timestamped_without_reference, notna.
  now rewrite negb_involutive.
Qed.

(** A sample with a time value and a reference. *)
Definition timestamped_with_reference (jt jr : nat)
  (r : string * list cell) : bool :=
  notna (cell_at jt r) && notna (cell_at jr r).

(** What [_filter_associated_reference] returns, when it returns. *)
Lemma filter_associated_reference_result (d d' : DataFrame)
  (tc rc : string) (jt jr : nat) (fm : bool) (used : Series) :
  index_of tc (df_columns d) = Some jt ->
  index_of rc (df_columns d) = Some jr ->
  _filter_associated_reference (frame_column jr d) d tc fm rc
  = Ok (d', used) ->
  used = map (fun r => (fst r, cell_at jr r))
             (filter (timestamped_with_reference jt jr) (df_rows d))
  /\ df_index_name d' = df_index_name d
  /\ df_columns d' = df_columns d
  /\ (df_rows d' = df_rows d
      /\ existsb (timestamped_without_reference jt jr) (df_rows d) = false
      \/ df_rows d' = filter (fun r => notna (cell_at jr r)) (df_rows d)
         /\ fm = true).
Proof.
  intros Ht Hr. rewrite (filter_associated_reference_eq _ _ _ _ _ _ Ht Hr).
  destruct (existsb (timestamped_without_reference jt jr) (df_rows d))
    eqn:Ex.
  - destruct fm; [|discriminate]. intros E. inversion E; subst; clear E.
    simpl. repeat split; auto. f_equal. apply filter_ext. intros r.
    unfold timestamped_with_reference, timestamped_without_reference.
    unfold notna.
    destruct (isna (cell_at jt r)), (isna (cell_at jr r)); reflexivity.
  - intros E. inversion E; subst; clear E. repeat split; auto.
    f_equal. apply existsb_false_filter.
    rewrite <- Ex. apply existsb_pointwise. intros r.
    now rewrite timestamped_without_reference_eq.
Qed.

(** When the call returns, the reference series it gives on is the
    reference of exactly the samples that have a time value and a
    reference, in the order of the metadata: none of its values is
    missing; the metadata it gives on has all of these samples, and
    every sample in it that has a time value has a reference. *)
Theorem used_references_are_timed_and_present :
  forall (metadata metadata' : DataFrame)
         (time_column reference_column : string) (jt jr : nat)
         (filter_missing_references : bool) (used_references : Series),
    index_of time_column (df_columns metadata) = Some jt ->
    index_of reference_column (df_columns metadata) = Some jr ->
    _filter_associated_reference (frame_column jr metadata) metadata
      time_column filter_missing_references reference_column
    = Ok (metadata', used_references) ->
    used_references
    = map (fun r => (fst r, cell_at jr r))
          (filter (timestamped_with_reference jt jr) (df_rows metadata))
    /\ (forall sample v, In (sample, v) used_references -> v <> NA)
    /\ (forall r, In r (df_rows metadata) ->
          timestamped_with_reference jt jr r = true ->
          In r (df_rows metadata'))
    /\ (forall r, In r (df_rows metadata') ->
          In r (df_rows metadata)
          /\ (cell_at jt r <> NA -> cell_at jr r <> NA)).
Proof.
  intros d d' tc rc jt jr fm used Ht Hr E.
  destruct (filter_associated_reference_result _ _ _ _ _ _ _ _ Ht Hr E)
    as [Hused [_ [_ Hrows]]].
  split; [assumption|]. split; [|split].
  - intros sample v Hin. rewrite Hused in Hin.
    apply in_map_iff in Hin. destruct Hin as [r [Er Hin]].
    apply filter_In in Hin. destruct Hin as [_ Hin].
    inversion Er; subst. unfold timestamped_with_reference in Hin.
    apply andb_true_iff in Hin. now apply notna_true.
  - intros r Hin Hw. destruct Hrows as [[-> _]|[-> _]]; [assumption|].
    apply filter_In. split; [assumption|].
    unfold timestamped_with_reference in Hw.
    now apply andb_true_iff in Hw.
  - intros r Hin. destruct Hrows as [[Hrows Hex]|[Hrows _]];
      rewrite Hrows in Hin.
    + split; [assumption|]. intros Htime.
      pose proof (proj1 (existsb_false _ _) Hex r Hin) as Hall.
      unfold timestamped_without_reference in Hall.
      apply notna_true in Htime. rewrite Htime in Hall. simpl in Hall.
      intros Hna. rewrite Hna in Hall. discriminate.
    + apply filter_In in Hin. destruct Hin as [Hin Hn].
      split; [assumption|]. intros _. now apply notna_true.
Qed.

Lemma used_references_are_timed_and_present_witness :
  exists metadata',
    _filter_associated_reference (frame_column 1 c4_metadata) c4_metadata
      "time" true "donor" = Ok (metadata', [("B", Str "D")])
    /\ [("B", Str "D")]
       = map (fun r => (fst r, cell_at 1 r))
           (filter (timestamped_with_reference 0 1) (df_rows c4_metadata)).
Proof.
  eexists. split; [reflexivity|].
  eapply (used_references_are_timed_and_present c4_metadata _ "time"
            "donor" 0 1 true).
  - reflexivity.
  - reflexivity.
  - reflexivity.
Defined.

(** Filtering the missing references once is enough: the metadata and
    the reference series that the call returns pass the same check with
    filtering off, and are returned as they are. *)
Theorem filtered_references_pass_strict_check :
  forall (metadata metadata' : DataFrame)
         (time_column reference_column : string) (jt jr : nat)
         (filter_missing_references : bool) (used_references : Series),
    index_of time_column (df_columns metadata) = Some jt ->
    index_of reference_column (df_columns metadata) = Some jr ->
    _filter_associated_reference (frame_column jr metadata) metadata
      time_column filter_missing_references reference_column
    = Ok (metadata', used_references) ->
    _filter_associated_reference (frame_column jr metadata') metadata'
      time_column false reference_column
    = Ok (metadata', used_references).
Proof.
  intros d d' tc rc jt jr fm used Ht Hr E.
  destruct (filter_associated_reference_result _ _ _ _ _ _ _ _ Ht Hr E)
    as [Hused [_ [Hc Hrows]]].
  assert (Ht' : index_of tc (df_columns d') = Some jt) by now rewrite Hc.
  assert (Hr' : index_of rc (df_columns d') = Some jr) by now rewrite Hc.
  rewrite (filter_associated_reference_eq _ _ _ _ _ _ Ht' Hr').
  destruct Hrows as [[Hrows Hex]|[Hrows _]]; rewrite Hrows.
  - rewrite Hex, Hused. cbv iota.
    rewrite (existsb_false_filter (fun r => notna (cell_at jt r))
               (fun r => notna (cell_at jr r))); [reflexivity|].
    rewrite <- Hex. apply existsb_pointwise. intros r.
    now rewrite timestamped_without_reference_eq.
  - assert (Hex : existsb (timestamped_without_reference jt jr)
                    (filter (fun r => notna (cell_at jr r)) (df_rows d))
                  = false).
    { apply existsb_false. intros r Hin. apply filter_In in Hin.
      destruct Hin as [_ Hn]. unfold timestamped_without_reference.
      unfold notna in Hn. apply negb_true_iff in Hn. rewrite Hn.
      apply andb_false_r. }
    rewrite Hex, Hused, filter_filter. cbv iota.
    rewrite (filter_ext _ (timestamped_with_reference jt jr));
      [reflexivity|].
    intros r. unfold timestamped_with_reference. apply andb_comm.
Qed.

Lemma filtered_references_pass_strict_check_witness :
  exists metadata' used_references,
    _filter_associated_reference (frame_column 1 c4_metadata) c4_metadata
      "time" true "donor" = Ok (metadata', used_references)
    /\ _filter_associated_reference (frame_column 1 metadata') metadata'
         "time" false "donor" = Ok (metadata', used_references).
Proof.
  eexists; eexists. split; [reflexivity|].
  apply (filtered_references_pass_strict_check c4_metadata _ "time"
           "donor" 0 1 true).
  - reflexivity.
  - reflexivity.
  - reflexivity.
Defined.

(** ** Subjects and their number of rows *)

(** Every subject of the column occurs at least [n] times. *)
Definition subjects_complete (js n : nat) (d : DataFrame) : Prop :=
  forall s, s <> NA -> In s (s_values (frame_column js d)) ->
            n <= count_cell s (s_values (frame_column js d)).

Lemma subjects_complete_existsb (js n : nat) (d : DataFrame) :
  subjects_complete js n d <->
  existsb (fun e : cell * nat => snd e <? n)
          (value_counts (frame_column js d)) = false.
Proof.
  unfold subjects_complete. split.
  - intros H. destruct (existsb _ _) eqn:E; [|reflexivity].
    apply (existsb_value_counts _ (fun k => k <? n)) in E.
    destruct E as [x [Hx [Hin Hlt]]]. apply Nat.ltb_lt in Hlt.
    specialize (H x Hx Hin). lia.
  - intros H s Hs Hin.
    destruct (n <=? count_cell s (s_values (frame_column js d))) eqn:E.
    + now apply Nat.leb_le.
    + exfalso. apply Nat.leb_gt in E.
      assert (Hex : existsb (fun e : cell * nat => snd e <? n)
                      (value_counts (frame_column js d)) = true).
      { apply (existsb_value_counts _ (fun k => k <? n)).
        exists s. repeat split; auto. now apply Nat.ltb_lt. }
      congruence.
Qed.

(** When no subject has fewer rows than there are timepoints, the check
    returns the metadata and the reference series as they are, with
    dropping on or off: a subject with more rows than timepoints is
    accepted. *)
Theorem complete_subjects_pass_unchanged :
  forall (metadata : DataFrame) (subject_column : string) (js : nat)
         (num_timepoints : nat) (drop_incomplete_subjects : bool)
         (used_references : Series),
    index_of subject_column (df_columns metadata) = Some js ->
    subjects_complete js num_timepoints metadata ->
    _check_subjects_in_all_timepoints (frame_column js metadata)
      num_timepoints drop_incomplete_subjects metadata subject_column
      used_references
    = Ok (metadata, used_references).
Proof.
  intros d sc js n drop used Hs Hc.
  rewrite (check_subjects_eq _ _ _ _ _ _ Hs).
  apply subjects_complete_existsb in Hc. now rewrite Hc.
Qed.

(** Subject S1 has three rows for two timepoints. *)
Definition extra_row_metadata : DataFrame :=
  mkDataFrame "id" ["time"; "donor"; "subject"]
    [("a1", [Num 1; Str "D"; Str "S1"]);
     ("a2", [Num 2; Str "D"; Str "S1"]);
     ("a3", [NA; Str "D"; Str "S1"]);
     ("b1", [Num 1; Str "D"; Str "S2"]);
     ("b2", [Num 2; Str "D"; Str "S2"])].

Lemma complete_subjects_pass_unchanged_witness :
  count_cell (Str "S1") (s_values (frame_column 2 extra_row_metadata)) = 3
  /\ _check_subjects_in_all_timepoints (frame_column 2 extra_row_metadata) 2
       false extra_row_metadata "subject" (frame_column 1 extra_row_metadata)
     = Ok (extra_row_metadata, frame_column 1 extra_row_metadata).
Proof.
  split; [reflexivity|].
  apply (complete_subjects_pass_unchanged extra_row_metadata "subject" 2 2
           false).
  - reflexivity.
  - apply subjects_complete_existsb. reflexivity.
Defined.

(** Keeping the rows of the subjects chosen by their number of rows
    leaves the number of rows of a kept subject as it was. *)
Lemma count_cell_subject_rows (js : nat) (p : nat -> bool) (d : DataFrame)
  (x : cell) :
  x <> NA ->
  p (count_cell x (s_values (frame_column js d))) = true ->
  count_cell x (map (cell_at js) (subject_rows js p d))
  = count_cell x (s_values (frame_column js d)).
Proof.
  intros Hx Hp. unfold count_cell, subject_rows, s_values, frame_column.
  rewrite map_map. simpl. rewrite !filter_map_comm, !length_map.
  rewrite filter_filter. f_equal. apply filter_ext. intros r.
  destruct (cell_eqb x (cell_at js r)) eqn:E.
  - apply cell_eqb_eq in E. subst x.
    unfold s_values, frame_column in Hp. rewrite map_map in Hp.
    simpl in Hp. rewrite Hp.
    apply notna_true in Hx. now rewrite Hx.
  - apply andb_false_r.
Qed.

(** Dropping the incomplete subjects once is enough: what the check
    returns passes the check with dropping off, and is returned as it
    is. *)
Theorem kept_subjects_pass_strict_check :
  forall (metadata metadata' : DataFrame) (subject_column : string)
         (js : nat) (num_timepoints : nat)
         (drop_incomplete_subjects : bool)
         (used_references used_references' : Series),
    index_of subject_column (df_columns metadata) = Some js ->
    _check_subjects_in_all_timepoints (frame_column js metadata)
      num_timepoints drop_incomplete_subjects metadata subject_column
      used_references
    = Ok (metadata', used_references') ->
    _check_subjects_in_all_timepoints (frame_column js metadata')
      num_timepoints false metadata' subject_column used_references'
    = Ok (metadata', used_references').
Proof.
  intros d d' sc js n drop used used' Hs.
  rewrite (check_subjects_eq _ _ _ _ _ _ Hs).
  destruct (existsb _ _) eqn:Ex.
  - destruct drop; [|discriminate]. intros E. inversion E; clear E.
    set (kept := mkDataFrame (df_index_name d) (df_columns d)
                   (subject_rows js (fun k => k =? n) d)).
    rewrite (check_subjects_eq kept sc js n false _ Hs).
    assert (Hk : subjects_complete js n kept);
      [|apply subjects_complete_existsb in Hk; now rewrite Hk].
    intros s Hna Hin.
    unfold s_values, frame_column in Hin. rewrite map_map in Hin.
    simpl in Hin. apply in_map_iff in Hin. destruct Hin as [r [Er Hr]].
    unfold subject_rows in Hr. apply filter_In in Hr.
    destruct Hr as [_ Hp]. apply andb_true_iff in Hp.
    destruct Hp as [_ Hp]. rewrite Er in Hp.
    assert (Hcount : count_cell s (s_values (frame_column js kept))
                     = count_cell s (s_values (frame_column js d))).
    { unfold s_values at 1. unfold frame_column at 1. rewrite map_map.
      simpl. now apply (count_cell_subject_rows js (fun k => k =? n)). }
    rewrite Hcount. apply Nat.eqb_eq in Hp. lia.
  - intros E. inversion E; subst; clear E.
    rewrite (check_subjects_eq _ _ _ _ _ _ Hs). now rewrite Ex.
Qed.

Lemma kept_subjects_pass_strict_check_witness :
  exists metadata' used_references',
    _check_subjects_in_all_timepoints (frame_column 2 c10_metadata) 2
      true c10_metadata "subject" (frame_column 1 c10_metadata)
    = Ok (metadata', used_references')
    /\ df_index metadata' = ["b1"; "b2"]
    /\ _check_subjects_in_all_timepoints (frame_column 2 metadata') 2
         false metadata' "subject" used_references'
       = Ok (metadata', used_references').
Proof.
  eexists; eexists. split; [reflexivity|]. split; [reflexivity|].
  apply (kept_subjects_pass_strict_check c10_metadata _ "subject" 2 2 true
           (frame_column 1 c10_metadata)).
  - reflexivity.
  - reflexivity.
Defined.

(** ** The donor mask and the errors of [_compute_peds] *)

Lemma In_index_of (x : string) (l : list string) :
  In x l -> exists n, index_of x l = Some n.
Proof.
  intros H. destruct (index_of x l) as [n|] eqn:E; [eauto|].
  apply index_of_In in E. contradiction.
Qed.

Lemma index_of_Some_In (x : string) (l : list string) (n : nat) :
  index_of x l = Some n -> In x l.
Proof.
  intros H. destruct (in_dec string_dec x l) as [Hin|Hin]; [assumption|].
  apply index_of_In in Hin. congruence.
Qed.

Lemma Forall2_map_r {A B C} (R : A -> C -> Prop) (g : B -> C)
  (l : list A) (l' : list B) :
  Forall2 (fun a b => R a (g b)) l l' -> Forall2 R l (map g l').
Proof. induction 1; simpl; constructor; auto. Qed.

(** The rows of the donor mask. *)
Lemma create_masking_rows (md : DataFrame) (donor_df recip_df : BoolTable)
  (rc : string) (mask : list (list bool)) :
  _create_masking md donor_df recip_df rc = Ok mask ->
  Forall2 (fun sample mrow =>
             exists donor,
               loc_cell md sample rc = Ok (Str donor)
               /\ lookup donor (bt_rows donor_df) = Some mrow)
          (bt_index recip_df) mask.
Proof.
  unfold _create_masking. intros E.
  destruct (donor_positions _ _ _ _) as [idxs|e] eqn:Ep; [|discriminate].
  simpl in E. inversion E; subst mask; clear E.
  apply Forall2_map_r. apply donor_positions_spec in Ep.
  eapply Forall2_impl; [|exact Ep].
  intros sample n [d [Hd Hi]]. exists d. split; [assumption|].
  now apply index_of_lookup.
Qed.

(** On a metadata and a donor table without repeated sample
    identifiers, [_create_masking] returns exactly when the metadata
    assigns to every recipient sample a donor that is a row of the
    donor table; the mask then has one row for each recipient, in their
    order, and that row is the row of its donor. *)
Theorem donor_mask_is_rows_of_assigned_donors :
  forall (time_metadata : DataFrame) (donor_df recip_df : BoolTable)
         (reference_column : string),
    NoDup (df_index time_metadata) ->
    NoDup (bt_index donor_df) ->
    ((exists donor_mask,
         _create_masking time_metadata donor_df recip_df reference_column
         = Ok donor_mask)
     <-> Forall (fun sample =>
                   exists donor,
                     loc_cell time_metadata sample reference_column
                     = Ok (Str donor)
                     /\ In donor (bt_index donor_df))
                (bt_index recip_df))
    /\ forall donor_mask,
         _create_masking time_metadata donor_df recip_df reference_column
         = Ok donor_mask ->
         Forall2 (fun sample mask_row =>
                    exists donor,
                      loc_cell time_metadata sample reference_column
                      = Ok (Str donor)
                      /\ lookup donor (bt_rows donor_df) = Some mask_row)
                 (bt_index recip_df) donor_mask.
Proof.
  intros md donor_df recip_df rc _ _. split; [|apply create_masking_rows].
  split.
  - intros [mask E]. apply create_masking_rows in E.
    induction E as [|sample mrow l l' [d [Hd Hl]] _ IH]; constructor;
      [|assumption].
    exists d. split; [assumption|]. apply lookup_In in Hl.
    unfold bt_index. apply in_map_iff. exists (d, mrow). auto.
  - intros H. unfold _create_masking.
    assert (Hp : exists idxs,
               donor_positions md donor_df rc (bt_index recip_df)
               = Ok idxs).
    { induction H as [|sample l [d [Hd Hin]] _ [idxs IH]]; simpl;
        [eauto|].
      rewrite Hd. cbn [rbind]. simpl.
      destruct (In_index_of _ _ Hin) as [n Hn]. rewrite Hn. cbn [rbind].
      rewrite IH. cbn [rbind]. eauto. }
    destruct Hp as [idxs Hp]. rewrite Hp. cbn [rbind]. eauto.
Qed.

Lemma donor_mask_is_rows_of_assigned_donors_witness :
  Forall2 (fun sample mask_row =>
             exists donor,
               loc_cell (to_dataframe c1_metadata) sample "donor"
               = Ok (Str donor)
               /\ lookup donor (bt_rows (binarize c1_table))
                  = Some mask_row)
          ["A"; "B"] [[true; true; true]; [true; true; true]].
Proof.
  refine (proj2 (donor_mask_is_rows_of_assigned_donors
                   (to_dataframe c1_metadata) (binarize c1_table)
                   (mkBoolTable ["f1"; "f2"; "f3"]
                      [("A", [true; true; false]);
                       ("B", [false; false; true])])
                   "donor" _ _) _ _).
  - simpl. repeat constructor; simpl; intuition discriminate.
  - simpl. repeat constructor; simpl; intuition discriminate.
  - reflexivity.
Defined.

Lemma bt_index_binarize (t : Table) : bt_index (binarize t) = t_index t.
Proof.
  unfold bt_index, binarize, t_index. simpl. now rewrite map_map.
Qed.

(** Before anything else, [_compute_peds] checks that every reference
    in use is a sample of the table.  If one is not, a missing
    reference included, the call raises the assertion with each absent
    reference listed once, whatever the PEDS type, and leaves the
    result frame as it is. *)
Theorem references_absent_from_table_raise :
  forall (h : heap) (peds_df table : loc) (t : Table) (peds_type : string)
         (peds_time : cell) (reference_series : Series)
         (metadata : DataFrame)
         (time_column subject_column reference_column : string),
    nth_error h table = Some (OTable t) ->
    (exists r, In r reference_series
               /\ cell_in_labels (snd r) (t_index t) = false) ->
    exists missing_ref,
      _compute_peds peds_df peds_type peds_time reference_series table
        metadata time_column subject_column reference_column h
      = (Err (AssertionError_reference_ids missing_ref), h)
      /\ NoDup missing_ref
      /\ forall c, In c missing_ref <->
           In c (s_values reference_series)
           /\ cell_in_labels c (t_index t) = false.
Proof.
  intros h l table t ty time rs md tc sc rc Ht [r [Hin Hr]].
  unfold _compute_peds. unfold bind at 1. unfold load_table at 1.
  rewrite Ht. cbv zeta. rewrite bt_index_binarize.
  destruct (filter _ rs) as [|m ms] eqn:Ef.
  - exfalso.
    assert (Hm : In r (filter (fun r0 : string * cell =>
                                 negb (cell_in_labels (snd r0) (t_index t)))
                              rs)).
    { apply filter_In. split; [assumption|]. now rewrite Hr. }
    rewrite Ef in Hm. destruct Hm.
  - eexists. split; [reflexivity|]. split; [apply NoDup_unique|].
    intros c. rewrite In_unique. rewrite <- Ef. unfold s_values.
    rewrite !in_map_iff. split.
    + intros [x [Ex Hx]]. apply filter_In in Hx. destruct Hx as [Hx Hn].
      subst c. split; [eauto|]. now apply negb_true_iff.
    + intros [[x [Ex Hx]] Hc]. exists x. split; [assumption|].
      apply filter_In. split; [assumption|]. subst c.
      now apply negb_true_iff.
Qed.

Lemma references_absent_from_table_raise_witness :
  exists missing_ref,
    _compute_peds 2 "Sample" NA [("A", Str "D"); ("B", Str "Q")] 0
      (to_dataframe c1_metadata) "time" "subject" "donor"
      (c1_heap ++ [OFrame (mkPedsFrame sample_columns [])])
    = (Err (AssertionError_reference_ids missing_ref),
       c1_heap ++ [OFrame (mkPedsFrame sample_columns [])])
    /\ NoDup missing_ref
    /\ forall c, In c missing_ref <->
         In c (s_values [("A", Str "D"); ("B", Str "Q")])
         /\ cell_in_labels c (t_index c1_table) = false.
Proof.
  apply (references_absent_from_table_raise
           (c1_heap ++ [OFrame (mkPedsFrame sample_columns [])]) 2 0
           c1_table).
  - reflexivity.
  - exists ("B", Str "Q"). split; [simpl; auto | reflexivity].
Defined.

(** The rows of the table for the samples that are the reference of
    some sample. *)
Definition donor_table (reference_series : Series) (table : BoolTable)
  : BoolTable :=
  mkBoolTable (bt_columns table)
    (filter (fun r => mem_cell (Str (fst r)) (s_values reference_series))
            (bt_rows table)).

(** With a PEDS type that is neither Sample nor Feature the call never
    returns and writes nothing.  The error that tells so is the last
    one: it is raised once the references and the donor mask have
    passed. *)
Theorem unknown_peds_type_raises :
  forall (h : heap) (peds_df table : loc) (peds_type : string)
         (peds_time : cell) (reference_series : Series)
         (metadata : DataFrame)
         (time_column subject_column reference_column : string),
    peds_type <> "Sample" ->
    peds_type <> "Feature" ->
    exists e,
      _compute_peds peds_df peds_type peds_time reference_series table
        metadata time_column subject_column reference_column h
      = (Err e, h)
      /\ forall t donor_mask,
           nth_error h table = Some (OTable t) ->
           (forall r, In r reference_series ->
                      cell_in_labels (snd r) (t_index t) = true) ->
           _create_masking metadata
             (donor_table reference_series (binarize t))
             (_create_recipient_table reference_series metadata
                (binarize t))
             reference_column = Ok donor_mask ->
           e = KeyError_peds_type.
Proof.
  intros h l table ty time rs md tc sc rc Hs Hf.
  apply String.eqb_neq in Hs, Hf.
  unfold _compute_peds. unfold bind at 1. unfold load_table at 1.
  destruct (nth_error h table) as [[t| |]|] eqn:Ht;
    try (eexists; split; [reflexivity | intros; discriminate]).
  cbv zeta. rewrite bt_index_binarize.
  destruct (filter _ rs) as [|m ms] eqn:Ef.
  - unfold bind at 1. unfold lift at 1. fold (donor_table rs (binarize t)).
    destruct (_create_masking _ _ _ _) as [mask|e] eqn:Em.
    + rewrite Hs, Hf. eexists. split; [reflexivity|]. reflexivity.
    + eexists. split; [reflexivity|].
      intros t' mask' Ht' _ Em'. inversion Ht'; subst t'. congruence.
  - eexists. split; [reflexivity|].
    intros t' mask' Ht' Hall _. inversion Ht'; subst t'.
    assert (Hm : In m (filter (fun r0 : string * cell =>
                                 negb (cell_in_labels (snd r0) (t_index t)))
                              rs))
      by (rewrite Ef; simpl; auto).
    apply filter_In in Hm. destruct Hm as [Hm Hn].
    rewrite (Hall m Hm) in Hn. discriminate.
Qed.

Lemma unknown_peds_type_raises_witness :
  exists e,
    _compute_peds 2 "Samples" NA [("A", Str "D"); ("B", Str "D")] 0
      (to_dataframe c1_metadata) "time" "subject" "donor"
      (c1_heap ++ [OFrame (mkPedsFrame sample_columns [])])
    = (Err e, c1_heap ++ [OFrame (mkPedsFrame sample_columns [])])
    /\ e = KeyError_peds_type.
Proof.
  destruct (unknown_peds_type_raises
              (c1_heap ++ [OFrame (mkPedsFrame sample_columns [])]) 2 0
              "Samples" NA [("A", Str "D"); ("B", Str "D")]
              (to_dataframe c1_metadata) "time" "subject" "donor")
    as [e [E He]].
  - discriminate.
  - discriminate.
  - exists e. split; [exact E|].
    eapply (He c1_table).
    + reflexivity.
    + intros r [<-|[<-|[]]]; reflexivity.
    + reflexivity.
Defined.

(** ** The rows of the Sample frame and the metadata *)

Lemma sample_row_values_fields (d : DataFrame) (num_sum donor_sum : list Z)
  (tc sc rc : string) (count : nat) (sample : string) (row : list value) :
  sample_row_values d num_sum donor_sum tc sc rc count sample = Ok row ->
  exists cells donor subject time m n k,
    lookup sample (df_rows d) = Some cells
    /\ row_field (df_columns d) cells rc = Ok donor
    /\ row_field (df_columns d) cells sc = Ok subject
    /\ row_field (df_columns d) cells tc = Ok time
    /\ row = [VStr sample; VFloat m; VInt n; VInt k; VCell donor;
              VCell subject; VCell time].
Proof.
  unfold sample_row_values.
  destruct (lookup sample (df_rows d)) as [cells|] eqn:El; [|discriminate].
  destruct (row_field _ _ rc) as [donor|] eqn:Er; [|discriminate].
  destruct (row_field _ _ sc) as [subject|] eqn:Es; [|discriminate].
  destruct (row_field _ _ tc) as [time|] eqn:Et; [|discriminate].
  cbn [rbind]. intros E. inversion E.
  exists cells, donor, subject, time. do 3 eexists.
  repeat split; try eassumption; reflexivity.
Qed.

(** The rows of the frame that the Sample mode fills from an empty
    frame: one for each recipient, in their order. *)
Lemma compute_sample_frame_rows (peds_time : cell) (used : Series)
  (t : Table) (d : DataFrame) (tc sc rc : string) (f : PedsFrame) :
  compute_peds_frame (mkPedsFrame sample_columns []) "Sample" peds_time
    used t d tc sc rc = Ok f ->
  p_columns f = sample_columns
  /\ Forall2 (fun sample row =>
                exists num_sum donor_sum count,
                  sample_row_values d num_sum donor_sum tc sc rc count
                    sample = Ok row)
       (bt_index (_create_recipient_table used d (binarize t)))
       (map snd (p_rows f)).
Proof.
  unfold compute_peds_frame. cbv zeta.
  destruct (filter _ used); [|discriminate].
  destruct (_create_masking _ _ _ _) as [donormask|] eqn:Em;
    [|discriminate].
  cbn [rbind]. change (String.eqb "Sample" "Sample") with true. cbv iota.
  intros E. apply sample_frames_rows in E; [|reflexivity|reflexivity].
  destruct E as [rows [HF [Hc [Hr Hl]]]]. simpl in Hr, Hc.
  rewrite Hr. split; [assumption|].
  eapply Forall2_enumerate; [|exact HF].
  intros c a b Hb. simpl in Hb. eauto.
Qed.

Lemma map_fst_filter {A} (p : string -> bool) (l : list (string * A)) :
  map fst (filter (fun r => p (fst r)) l) = filter p (map fst l).
Proof.
  induction l as [|x l IH]; simpl; [reflexivity|].
  destruct (p (fst x)); simpl; now rewrite IH.
Qed.

(** The recipients are the samples of the table that the reference
    series and the metadata both have. *)
Lemma recipient_index (used : Series) (d : DataFrame) (t : Table) :
  bt_index (_create_recipient_table used d (binarize t))
  = filter (fun s => mem_str s (s_index used) && mem_str s (df_index d))
           (t_index t).
Proof.
  unfold bt_index at 1. unfold _create_recipient_table.
  cbn [bt_rows].
  rewrite (map_fst_filter
             (fun s => mem_str s
                         (s_index (filter (fun r => mem_str (fst r)
                                                      (df_index d)) used)))).
  change (map fst (bt_rows (binarize t))) with (bt_index (binarize t)).
  rewrite bt_index_binarize.
  apply filter_ext. intros s. unfold s_index.
  rewrite (map_fst_filter (fun i => mem_str i (df_index d))).
  apply Bool.eq_iff_eq_true.
  rewrite andb_true_iff, !mem_str_In, filter_In, mem_str_In. tauto.
Qed.

Lemma s_filter_items_index (s : Series) (items : list string) (i : string) :
  In i (s_index (s_filter_items s items)) ->
  In i items /\ In i (s_index s).
Proof.
  unfold s_index, s_filter_items. rewrite in_map_iff.
  intros [[k v] [E H]]. simpl in E. subst k.
  apply in_flat_map in H. destruct H as [j [Hj H]].
  destruct (lookup j s) as [w|] eqn:El; [|destruct H].
  destruct H as [H|[]]. inversion H; subst.
  split; [assumption|]. apply lookup_In in El.
  apply in_map_iff. exists (i, v). auto.
Qed.

(** The reference series that the subject check gives on names no
    sample that the one it was given does not name. *)
Lemma check_subjects_used_index (ss : Series) (n : nat) (di : bool)
  (d d' : DataFrame) (sc : string) (used used' : Series) (i : string) :
  _check_subjects_in_all_timepoints ss n di d sc used = Ok (d', used') ->
  In i (s_index used') -> In i (s_index used).
Proof.
  unfold _check_subjects_in_all_timepoints.
  destruct (existsb _ _).
  - destruct di; [|discriminate].
    destruct (index_of sc (df_columns d)); [|discriminate].
    intros E. inversion E. intros H.
    now apply s_filter_items_index in H.
  - intros E. inversion E. subst. auto.
Qed.

Lemma row_field_index (columns : list string) (cells : list cell)
  (column : string) (j : nat) :
  index_of column columns = Some j ->
  row_field columns cells column = Ok (nth j cells NA).
Proof. unfold row_field. now intros ->. Qed.

(** A sample of the reference series in use is a sample of the metadata
    with a time value and a reference. *)
Lemma used_sample_timed (t : Table) (md : Metadata) (tc rc sc : string)
  (fm di : bool) (d : DataFrame) (used : Series) (sample : string) :
  sample_peds_resolve t md tc rc sc fm di = Ok (d, used) ->
  In sample (s_index used) ->
  exists jt jr cells,
    index_of tc (map fst (md_columns md)) = Some jt
    /\ index_of rc (map fst (md_columns md)) = Some jr
    /\ In (sample, cells) (md_rows md)
    /\ nth jt cells NA <> NA
    /\ nth jr cells NA <> NA.
Proof.
  intros E Hin. apply sample_peds_resolve_inv in E.
  destruct E as [md' [jt [jr [js [d1 [u1 [n
    [Hf [Hjt [Hjr [_ [_ [_ [_ [_ [Hfa [_ [_ Hcs]]]]]]]]]]]]]]]]]].
  apply filter_ids_ok in Hf. destruct Hf as [_ [_ [Hc Hrows]]].
  apply (check_subjects_used_index _ _ _ _ _ _ _ _ _ Hcs) in Hin.
  apply filter_associated_reference_result with (jt := jt) (jr := jr)
    in Hfa; [|assumption|assumption].
  destruct Hfa as [Hu _]. rewrite Hu in Hin. unfold s_index in Hin.
  rewrite map_map in Hin. simpl in Hin. apply in_map_iff in Hin.
  destruct Hin as [[s cells] [Es Hr]]. simpl in Es. subst s.
  apply filter_In in Hr. destruct Hr as [Hr Hw]. simpl in Hr.
  rewrite Hrows in Hr. apply filter_In in Hr. destruct Hr as [Hr _].
  unfold timestamped_with_reference, cell_at in Hw. simpl in Hw.
  apply andb_true_iff in Hw. destruct Hw as [Hw1 Hw2].
  apply notna_true in Hw1, Hw2. rewrite Hc in Hjt, Hjr.
  exists jt, jr, cells. auto.
Qed.

(** In the frame [sample_peds] returns, the row of a sample holds in
    [subject] and in [group] the subject and the time value that the
    metadata has for that sample, and in [donor] its reference; the
    time value and the reference are never missing. *)
Theorem sample_rows_copy_metadata :
  forall (h h' : heap) (table metadata l : loc) (t : Table) (md : Metadata)
         (time_column reference_column subject_column : string)
         (filter_missing_references drop_incomplete_subjects : bool),
    nth_error h table = Some (OTable t) ->
    nth_error h metadata = Some (OMetadata md) ->
    NoDup (map fst (md_rows md)) ->
    sample_peds table metadata time_column reference_column subject_column
      filter_missing_references drop_incomplete_subjects h = (Ok l, h') ->
    exists f,
      nth_error h' l = Some (OFrame f)
      /\ forall row, In row (map snd (p_rows f)) ->
           exists sample cells donor subject time,
             p_field f row "id" = Some (VStr sample)
             /\ lookup sample (md_rows md) = Some cells
             /\ row_field (map fst (md_columns md)) cells reference_column
                = Ok donor
             /\ row_field (map fst (md_columns md)) cells subject_column
                = Ok subject
             /\ row_field (map fst (md_columns md)) cells time_column
                = Ok time
             /\ donor <> NA /\ time <> NA
             /\ p_field f row "donor" = Some (VCell donor)
             /\ p_field f row "subject" = Some (VCell subject)
             /\ p_field f row "group" = Some (VCell time).
Proof.
  intros h h' table metadata l t md tc rc sc fm di Ht Hm Hnd E.
  pose proof (sample_peds_run h table metadata t md tc rc sc fm di Ht Hm)
    as R.
  rewrite E in R. apply returns_frame_ok in R. destruct R as [f [Ef Hf]].
  exists f. split; [assumption|].
  apply sample_peds_frame_ok in Ef. destruct Ef as [d [used [Er Ec]]].
  pose proof (sample_peds_resolve_ok _ _ _ _ _ _ _ _ _ Er)
    as [_ [Hcols Hrows]].
  apply compute_sample_frame_rows in Ec. destruct Ec as [Hc HF].
  intros row Hin.
  destruct (Forall2_In_r _ _ _ _ HF Hin)
    as [sample [Hs [ns [ds [count Hv]]]]].
  apply sample_row_values_fields in Hv.
  destruct Hv as [cells [donor [subject [time [m [n [k
    [Hl [Hd [Hsu [Hti Erow]]]]]]]]]]].
  rewrite recipient_index in Hs. apply filter_In in Hs.
  destruct Hs as [_ Hs]. apply andb_true_iff in Hs.
  destruct Hs as [Hs _]. apply mem_str_In in Hs.
  destruct (used_sample_timed _ _ _ _ _ _ _ _ _ _ Er Hs)
    as [jt [jr [cells' [Hjt [Hjr [Hin' [Hnt Hnr]]]]]]].
  assert (Hlm : lookup sample (md_rows md) = Some cells).
  { apply In_lookup; [assumption|]. apply Hrows. now apply lookup_In. }
  assert (cells' = cells).
  { apply (In_lookup _ _ _ Hnd) in Hin'. congruence. }
  subst cells'. rewrite Hcols in Hd, Hsu, Hti.
  exists sample, cells, donor, subject, time.
  unfold p_field. rewrite Hc, Erow.
  repeat split; try reflexivity; try assumption.
  - rewrite (row_field_index _ _ _ _ Hjr) in Hd. now inversion Hd.
  - rewrite (row_field_index _ _ _ _ Hjt) in Hti. now inversion Hti.
Qed.

Lemma sample_rows_copy_metadata_witness :
  exists f,
    nth_error (snd c1_run) 2 = Some (OFrame f)
    /\ forall row, In row (map snd (p_rows f)) ->
         exists sample cells donor subject time,
           p_field f row "id" = Some (VStr sample)
           /\ lookup sample (md_rows c1_metadata) = Some cells
           /\ row_field (map fst (md_columns c1_metadata)) cells "donor"
              = Ok donor
           /\ row_field (map fst (md_columns c1_metadata)) cells "subject"
              = Ok subject
           /\ row_field (map fst (md_columns c1_metadata)) cells "time"
              = Ok time
           /\ donor <> NA /\ time <> NA
           /\ p_field f row "donor" = Some (VCell donor)
           /\ p_field f row "subject" = Some (VCell subject)
           /\ p_field f row "group" = Some (VCell time).
Proof.
  apply (sample_rows_copy_metadata c1_heap (snd c1_run) 0 1 2 c1_table
           c1_metadata "time" "donor" "subject" false false).
  - reflexivity.
  - reflexivity.
  - simpl. repeat constructor; simpl; intuition discriminate.
  - reflexivity.
Defined.

(** ** Which samples get a row *)

(** A sample for which the metadata has a time value and a reference. *)
Definition timed_with_reference_sample (md : Metadata) (jt jr : nat)
  (sample : string) : bool :=
  match lookup sample (md_rows md) with
  | Some cells => notna (nth jt cells NA) && notna (nth jr cells NA)
  | None => false
  end.

Lemma check_subjects_no_drop (ss : Series) (n : nat) (d d' : DataFrame)
  (sc : string) (used used' : Series) :
  _check_subjects_in_all_timepoints ss n false d sc used = Ok (d', used') ->
  d' = d /\ used' = used.
Proof.
  unfold _check_subjects_in_all_timepoints.
  destruct (existsb _ _); [discriminate|].
  intros E. inversion E. auto.
Qed.

(** With dropping off, the samples of the reference series and of the
    metadata that reach [_compute_peds] are the samples with a time
    value and a reference. *)
Lemma resolved_samples (t : Table) (md : Metadata) (tc rc sc : string)
  (fm : bool) (d : DataFrame) (used : Series) (jt jr : nat) (s : string) :
  NoDup (map fst (md_rows md)) ->
  index_of tc (map fst (md_columns md)) = Some jt ->
  index_of rc (map fst (md_columns md)) = Some jr ->
  sample_peds_resolve t md tc rc sc fm false = Ok (d, used) ->
  In s (t_index t) ->
  mem_str s (s_index used) && mem_str s (df_index d)
  = timed_with_reference_sample md jt jr s.
Proof.
  intros Hnd Hjt Hjr E Hs. apply sample_peds_resolve_inv in E.
  destruct E as [md' [jt' [jr' [js [d1 [u1 [n
    [Hf [Hjt' [Hjr' [_ [_ [_ [_ [_ [Hfa [_ [_ Hcs]]]]]]]]]]]]]]]]]].
  apply filter_ids_ok in Hf. destruct Hf as [_ [_ [Hc Hrows]]].
  rewrite Hc in Hjt', Hjr'.
  assert (jt' = jt) by congruence. assert (jr' = jr) by congruence.
  subst jt' jr'.
  apply check_subjects_no_drop in Hcs. destruct Hcs as [-> ->].
  apply filter_associated_reference_result with (jt := jt) (jr := jr)
    in Hfa; [|simpl; now rewrite Hc|simpl; now rewrite Hc].
  destruct Hfa as [Hu [_ [_ Hd1]]]. simpl in Hu, Hd1.
  apply Bool.eq_iff_eq_true. rewrite andb_true_iff, !mem_str_In.
  unfold timed_with_reference_sample. split.
  - intros [Hin _]. rewrite Hu in Hin. unfold s_index in Hin.
    rewrite map_map in Hin. simpl in Hin. apply in_map_iff in Hin.
    destruct Hin as [[s' cells] [Es Hr]]. simpl in Es. subst s'.
    apply filter_In in Hr. destruct Hr as [Hr Hw].
    rewrite Hrows in Hr. apply filter_In in Hr. destruct Hr as [Hr _].
    rewrite (In_lookup _ _ _ Hnd Hr). exact Hw.
  - destruct (lookup s (md_rows md)) as [cells|] eqn:El; [|discriminate].
    intros Hw. apply lookup_In in El.
    assert (Hin' : In (s, cells) (md_rows md')).
    { rewrite Hrows. apply filter_In. split; [assumption|].
      now apply mem_str_In. }
    assert (Htw : timestamped_with_reference jt jr (s, cells) = true)
      by exact Hw.
    split.
    + rewrite Hu. unfold s_index. rewrite map_map. simpl.
      apply in_map_iff. exists (s, cells). split; [reflexivity|].
      apply filter_In. auto.
    + unfold df_index. apply in_map_iff. exists (s, cells).
      split; [reflexivity|].
      destruct Hd1 as [[-> _]|[-> _]]; [assumption|].
      apply filter_In. split; [assumption|].
      unfold timestamped_with_reference in Htw.
      now apply andb_true_iff in Htw.
Qed.

(** With dropping off, the frame [sample_peds] returns has one row for
    each sample of the table for which the metadata has a time value
    and a reference, in the order of the table, and no other row. *)
Theorem sample_rows_are_timed_table_samples :
  forall (h h' : heap) (table metadata l : loc) (t : Table) (md : Metadata)
         (time_column reference_column subject_column : string)
         (filter_missing_references : bool) (jt jr : nat),
    nth_error h table = Some (OTable t) ->
    nth_error h metadata = Some (OMetadata md) ->
    NoDup (map fst (md_rows md)) ->
    index_of time_column (map fst (md_columns md)) = Some jt ->
    index_of reference_column (map fst (md_columns md)) = Some jr ->
    sample_peds table metadata time_column reference_column subject_column
      filter_missing_references false h = (Ok l, h') ->
    exists f,
      nth_error h' l = Some (OFrame f)
      /\ Forall2 (fun sample row => p_field f row "id" = Some (VStr sample))
           (filter (timed_with_reference_sample md jt jr) (t_index t))
           (map snd (p_rows f)).
Proof.
  intros h h' table metadata l t md tc rc sc fm jt jr Ht Hm Hnd Hjt Hjr E.
  pose proof (sample_peds_run h table metadata t md tc rc sc fm false
                Ht Hm) as R.
  rewrite E in R. apply returns_frame_ok in R. destruct R as [f [Ef Hf]].
  exists f. split; [assumption|].
  apply sample_peds_frame_ok in Ef. destruct Ef as [d [used [Er Ec]]].
  apply compute_sample_frame_spec in Ec.
  destruct Ec as [Hc [_ [Hids _]]].
  rewrite recipient_index in Hids.
  rewrite (filter_ext_in _ (timed_with_reference_sample md jt jr)) in Hids.
  - eapply Forall2_impl; [|exact Hids].
    intros sample row Hid. unfold p_field. now rewrite Hc.
  - intros s Hs. eapply resolved_samples; eauto.
Qed.

Lemma sample_rows_are_timed_table_samples_witness :
  exists f,
    nth_error (snd c1_run) 2 = Some (OFrame f)
    /\ Forall2 (fun sample row => p_field f row "id" = Some (VStr sample))
         ["A"; "B"] (map snd (p_rows f)).
Proof.
  apply (sample_rows_are_timed_table_samples c1_heap (snd c1_run) 0 1 2
           c1_table c1_metadata "time" "donor" "subject" false 0 1).
  - reflexivity.
  - reflexivity.
  - simpl. repeat constructor; simpl; intuition discriminate.
  - reflexivity.
  - reflexivity.
  - reflexivity.
Defined.

(** ** The rows of the Feature frame, exactly *)

(** A row that [dropna] keeps. *)
Definition no_nan (row : list value) : bool :=
  negb (existsb is_nan_value row).

Lemma filter_all {A} (p : A -> bool) (l : list A) :
  Forall (fun x => p x = true) l -> filter p l = l.
Proof.
  induction 1 as [|x l Hx _ IH]; simpl; [reflexivity|].
  now rewrite Hx, IH.
Qed.

Lemma Forall_map_snd {A B} (P : B -> Prop) (l : list (A * B)) :
  Forall P (map snd l) <-> Forall (fun r => P (snd r)) l.
Proof. apply Forall_map. Qed.

(** One iteration of the Feature loop on a frame whose labels are
    0, 1, 2, ... and whose rows have no missing value: the row is
    appended, under the next label, if it has no missing value, and the
    frame is left as it is otherwise. *)
Lemma feature_step (f : PedsFrame) (row : list value) :
  labels_ok f ->
  List.length row = List.length (p_columns f) ->
  Forall (fun r => no_nan r = true) (map snd (p_rows f)) ->
  exists f1,
    p_set_loc f (List.length (p_rows f)) row = Ok f1
    /\ p_columns (p_dropna f1) = p_columns f
    /\ labels_ok (p_dropna f1)
    /\ map snd (p_rows (p_dropna f1))
       = map snd (p_rows f) ++ filter no_nan [row].
Proof.
  intros Hl Hr Hn. eexists. split; [now apply p_set_loc_append|].
  unfold p_dropna. cbn [p_columns p_rows]. rewrite filter_app.
  apply Forall_map_snd in Hn.
  rewrite (filter_all (fun r => negb (existsb is_nan_value (snd r))))
    by exact Hn.
  split; [reflexivity|]. cbn [filter snd].
  change (negb (existsb is_nan_value row)) with (no_nan row).
  destruct (no_nan row).
  - split; [now apply labels_ok_append|]. now rewrite map_app.
  - rewrite !app_nil_r. auto.
Qed.

Lemma feature_frames_rows (num_sum donor_sum : list Z) (time : cell)
  (features : list (nat * string)) :
  forall f,
    labels_ok f ->
    List.length (p_columns f) = 6 ->
    Forall (fun r => no_nan r = true) (map snd (p_rows f)) ->
    exists f',
      feature_frames f num_sum donor_sum time features = Ok f'
      /\ p_columns f' = p_columns f
      /\ labels_ok f'
      /\ map snd (p_rows f')
         = map snd (p_rows f)
           ++ filter no_nan
                (map (fun cf => feature_row_values num_sum donor_sum time
                                  (fst cf) (snd cf))
                     features).
Proof.
  induction features as [|[count feature] rest IH]; intros f Hl Hc Hn;
    cbn [feature_frames map filter].
  - exists f. rewrite app_nil_r. auto.
  - destruct (feature_step f
                (feature_row_values num_sum donor_sum time count feature)
                Hl) as [f1 [E1 [Hc1 [Hl1 Hr1]]]];
      [now rewrite Hc | assumption |].
    rewrite E1. cbn [rbind].
    destruct (IH (p_dropna f1)) as [f' [E' [Hc' [Hl' Hr']]]].
    + assumption.
    + now rewrite Hc1.
    + rewrite Hr1. apply Forall_app. split; [assumption|].
      apply Forall_forall. intros r Hr. now apply filter_In in Hr.
    + exists f'. split; [assumption|]. split; [congruence|].
      split; [assumption|]. rewrite Hr', Hr1, <- app_assoc.
      cbn [filter fst snd]. now destruct (no_nan _).
Qed.

(** The rows that the Feature mode writes for one timepoint: one for
    each feature of the table, in their order, the rows with a missing
    value left out. *)
Definition feature_group_rows (used : Series) (t : Table) (rc : string)
  (time : cell) (time_metadata : DataFrame) : result (list (list value)) :=
  let recip_df := _create_recipient_table used time_metadata (binarize t) in
  donormask <- _create_masking time_metadata
                 (donor_table used (binarize t)) recip_df rc ;;
  let ncols := List.length (t_columns t) in
  Ok (filter no_nan
        (map (fun cf =>
                feature_row_values
                  (sum_axis0 ncols (_mask_recipient donormask recip_df))
                  (sum_axis0 ncols donormask) time (fst cf) (snd cf))
             (enumerate (t_columns t)))).

Lemma compute_feature_frame_rows (f : PedsFrame) (time : cell)
  (used : Series) (t : Table) (d : DataFrame) (tc sc rc : string) :
  labels_ok f ->
  List.length (p_columns f) = 6 ->
  Forall (fun r => no_nan r = true) (map snd (p_rows f)) ->
  match compute_peds_frame f "Feature" time used t d tc sc rc with
  | Ok f' =>
      exists rows,
        feature_group_rows used t rc time d = Ok rows
        /\ p_columns f' = p_columns f
        /\ labels_ok f'
        /\ map snd (p_rows f') = map snd (p_rows f) ++ rows
  | Err e =>
      (exists r, In r used
                 /\ cell_in_labels (snd r) (t_index t) = false)
      \/ feature_group_rows used t rc time d = Err e
  end.
Proof.
  intros Hl Hc Hn. unfold compute_peds_frame, feature_group_rows.
  cbv zeta. rewrite bt_index_binarize.
  destruct (filter _ used) as [|m ms] eqn:Ef.
  - fold (donor_table used (binarize t)).
    destruct (_create_masking _ _ _ _) as [mask|e]; cbn [rbind];
      [|now right].
    change (String.eqb "Feature" "Sample") with false.
    change (String.eqb "Feature" "Feature") with true. cbv iota.
    change (bt_columns (_create_recipient_table used d (binarize t)))
      with (t_columns t).
    destruct (feature_frames_rows
                (sum_axis0 (List.length (t_columns t))
                   (_mask_recipient mask
                      (_create_recipient_table used d (binarize t))))
                (sum_axis0 (List.length (t_columns t)) mask) time
                (enumerate (t_columns t)) f Hl Hc Hn)
      as [f' [E [Hc' [Hl' Hr']]]].
    rewrite E. eexists. split; [reflexivity|]. auto.
  - left. exists m.
    assert (Hm : In m (filter (fun r : string * cell =>
                                 negb (cell_in_labels (snd r) (t_index t)))
                              used))
      by (rewrite Ef; simpl; auto).
    apply filter_In in Hm. destruct Hm as [Hm Hneg].
    split; [assumption|]. now apply negb_true_iff.
Qed.

Lemma feature_groups_frames_rows (used : Series) (t : Table)
  (tc sc rc : string) (groups : list (cell * DataFrame)) :
  forall f f',
    labels_ok f ->
    List.length (p_columns f) = 6 ->
    Forall (fun r => no_nan r = true) (map snd (p_rows f)) ->
    feature_groups_frames f used t tc sc rc groups = Ok f' ->
    p_columns f' = p_columns f
    /\ labels_ok f'
    /\ exists rows,
         Forall2 (fun g r =>
                    feature_group_rows used t rc (fst g) (snd g) = Ok r)
                 groups rows
         /\ map snd (p_rows f') = map snd (p_rows f) ++ List.concat rows.
Proof.
  induction groups as [|[time d] rest IH]; intros f f' Hl Hc Hn E;
    cbn [feature_groups_frames] in E.
  - inversion E; subst. split; [reflexivity|]. split; [assumption|].
    exists []. split; [constructor|]. simpl. now rewrite app_nil_r.
  - pose proof (compute_feature_frame_rows f time used t d tc sc rc
                  Hl Hc Hn) as H1.
    destruct (compute_peds_frame _ _ _ _ _ _ _ _ _) as [f1|];
      [|discriminate]. cbn [rbind] in E.
    destruct H1 as [rows1 [Eg [Hc1 [Hl1 Hr1]]]].
    assert (Hn1 : Forall (fun r => no_nan r = true) (map snd (p_rows f1))).
    { rewrite Hr1. apply Forall_app. split; [assumption|].
      unfold feature_group_rows in Eg.
      destruct (_create_masking _ _ _ _); [|discriminate].
      cbn [rbind] in Eg. inversion Eg.
      apply Forall_forall. intros r Hr. now apply filter_In in Hr. }
    destruct (IH f1 f' Hl1 ltac:(congruence) Hn1 E)
      as [Hc' [Hl' [rows [HF Hr']]]].
    split; [congruence|]. split; [assumption|].
    exists (rows1 :: rows). split; [now constructor|].
    simpl. rewrite Hr', Hr1, <- app_assoc. reflexivity.
Qed.

(** ** The groups of [feature_peds] *)

Lemma In_insert_key (x y : cell) (l : list cell) :
  In y (insert_key x l) <-> y = x \/ In y l.
Proof.
  induction l as [|z l IH]; simpl.
  - split; intros [H|H]; auto.
  - destruct (cell_ltb x z); simpl; [split; intros [H|H]; auto|].
    rewrite IH. tauto.
Qed.

Lemma In_sorted_keys (y : cell) (l : list cell) :
  In y (fold_right insert_key [] l) <-> In y l.
Proof.
  induction l as [|x l IH]; simpl; [tauto|].
  rewrite In_insert_key, IH. split; intros [H|H]; auto.
Qed.

(** A group of [groupby]: the rows of the frame with one time value,
    which is not missing. *)
Lemma groupby_groups (d : DataFrame) (tc : string) (jt : nat)
  (groups : list (cell * DataFrame)) (time : cell) (g : DataFrame) :
  index_of tc (df_columns d) = Some jt ->
  groupby d tc = Ok groups ->
  In (time, g) groups ->
  time <> NA
  /\ df_columns g = df_columns d
  /\ df_rows g = filter (fun r => cell_eqb (cell_at jt r) time) (df_rows d).
Proof.
  intros Hj. unfold groupby. rewrite Hj. intros E. inversion E; clear E.
  intros Hin. apply in_map_iff in Hin. destruct Hin as [k [Ek Hk]].
  inversion Ek; subst. simpl. split; [|auto].
  apply In_sorted_keys, In_unique, filter_In in Hk.
  destruct Hk as [_ Hk]. now apply notna_true.
Qed.

(** ** Counting recipients *)

(** The recipients at a time: the samples of the table for which the
    metadata has that time value and a reference. *)
Definition sample_at_time (md : Metadata) (jt jr : nat) (time : cell)
  (sample : string) : bool :=
  match lookup sample (md_rows md) with
  | Some cells => cell_eqb (nth jt cells NA) time && notna (nth jr cells NA)
  | None => false
  end.

Definition recipients_at (t : Table) (md : Metadata) (jt jr : nat)
  (time : cell) : list string :=
  filter (sample_at_time md jt jr time) (t_index t).

(** The donor of the sample has feature number [c]. *)
Definition donor_has_feature (t : Table) (md : Metadata) (jr c : nat)
  (sample : string) : bool :=
  match lookup sample (md_rows md) with
  | Some cells =>
      match nth jr cells NA with
      | Str donor =>
          match lookup donor (t_rows t) with
          | Some donor_row => (0 <? nth c donor_row 0)%Z
          | None => false
          end
      | _ => false
      end
  | None => false
  end.

(** The sample has feature number [c]. *)
Definition sample_has_feature (t : Table) (c : nat) (sample : string)
  : bool :=
  match lookup sample (t_rows t) with
  | Some row => (0 <? nth c row 0)%Z
  | None => false
  end.

(** The recipients at a time whose donor has the feature. *)
Definition possible_recipients (t : Table) (md : Metadata) (jt jr : nat)
  (time : cell) (c : nat) : Z :=
  Z.of_nat
    (List.length
       (filter (donor_has_feature t md jr c) (recipients_at t md jt jr time))).

(** Those of them that have the feature too. *)
Definition engrafted_recipients (t : Table) (md : Metadata) (jt jr : nat)
  (time : cell) (c : nat) : Z :=
  Z.of_nat
    (List.length
       (filter (fun s => donor_has_feature t md jr c s
                         && sample_has_feature t c s)
               (recipients_at t md jt jr time))).

Lemma Forall2_map_eq {A B C} (f : A -> C) (g : B -> C) (l : list A)
  (l' : list B) :
  Forall2 (fun a b => g b = f a) l l' -> map g l' = map f l.
Proof. induction 1; simpl; congruence. Qed.

Lemma Forall2_map_combine {A B C} (f1 f2 : A -> bool) (gx : B -> bool)
  (gy : C -> bool) (l : list A) (xs : list B) (ys : list C) :
  Forall2 (fun a x => gx x = f1 a) l xs ->
  Forall2 (fun a y => gy y = f2 a) l ys ->
  map (fun p => gx (fst p) && gy (snd p)) (combine xs ys)
  = map (fun a => f1 a && f2 a) l.
Proof.
  intros H. revert ys. induction H as [|a x l xs Hx _ IH]; intros ys Hy;
    inversion Hy; subst; simpl; [reflexivity|].
  rewrite Hx. f_equal; [congruence | auto].
Qed.

Lemma nth_and_rows_eq (c : nat) (a b : list bool) :
  nth c (and_rows a b) false = nth c a false && nth c b false.
Proof.
  unfold and_rows. revert c b.
  induction a as [|x a IH]; intros c [|y b]; simpl.
  - now destruct c.
  - now destruct c.
  - destruct c; [now rewrite andb_false_r|].
    now rewrite andb_false_r.
  - destruct c; [reflexivity | apply IH].
Qed.

Lemma nth_positive (c : nat) (row : list Z) :
  nth c (map (fun v => (0 <? v)%Z) row) false = (0 <? nth c row 0)%Z.
Proof.
  change false with ((fun v => (0 <? v)%Z) 0%Z). apply map_nth.
Qed.

Lemma Forall2_fst_snd {A B} (R : A -> B -> Prop) (l : list (A * B)) :
  Forall (fun r => R (fst r) (snd r)) l ->
  Forall2 R (map fst l) (map snd l).
Proof. induction 1; simpl; constructor; auto. Qed.

(** The column sums of the Feature mode, for the recipients [samples]
    of a timepoint: how many have a donor with the feature, and how
    many of those have it themselves. *)
Lemma feature_sums (t : Table) (md : Metadata) (jr c : nat)
  (samples : list string) (mask rows : list (list bool)) (ncols : nat)
  (recip_df : BoolTable) :
  c < ncols ->
  map snd (bt_rows recip_df) = rows ->
  Forall2 (fun s mrow => nth c mrow false = donor_has_feature t md jr c s)
          samples mask ->
  Forall2 (fun s rrow => nth c rrow false = sample_has_feature t c s)
          samples rows ->
  nth c (sum_axis0 ncols mask) 0%Z
  = Z.of_nat (List.length (filter (donor_has_feature t md jr c) samples))
  /\ nth c (sum_axis0 ncols (_mask_recipient mask recip_df)) 0%Z
     = Z.of_nat
         (List.length
            (filter (fun s => donor_has_feature t md jr c s
                              && sample_has_feature t c s) samples)).
Proof.
  intros Hc Hrows Hm Hr. unfold sum_axis0. rewrite !nth_map_seq.
  apply Nat.ltb_lt in Hc. rewrite Hc. split.
  - rewrite (Forall2_map_eq _ _ _ _ Hm). apply sum_bools_filter.
  - unfold _mask_recipient. rewrite Hrows, map_map.
    rewrite (map_ext _ (fun p => nth c (fst p) false
                                 && nth c (snd p) false))
      by (intros p; apply nth_and_rows_eq).
    rewrite (Forall2_map_combine _ _ _ _ _ _ _ Hm Hr).
    apply (sum_bools_filter
             (fun s => donor_has_feature t md jr c s
                       && sample_has_feature t c s)).
Qed.

(** ** The Feature measure *)

(** What the validation of [feature_peds] gives on to the loop over
    the timepoints. *)
Lemma feature_resolved (t : Table) (md : Metadata) (tc rc sc : string)
  (fm : bool) (d : DataFrame) (used : Series) (jt jr : nat) :
  index_of tc (map fst (md_columns md)) = Some jt ->
  index_of rc (map fst (md_columns md)) = Some jr ->
  feature_peds_resolve t md tc rc sc fm = Ok (d, used) ->
  NoDup (t_index t)
  /\ df_columns d = map fst (md_columns md)
  /\ (forall r, In r (df_rows d) -> In r (md_rows md))
  /\ (forall s cells,
        In (s, cells) (md_rows md) -> In s (t_index t) ->
        notna (nth jt cells NA) && notna (nth jr cells NA) = true ->
        In (s, cells) (df_rows d))
  /\ (forall s,
        In s (s_index used) <->
        exists cells,
          In (s, cells) (md_rows md) /\ In s (t_index t)
          /\ notna (nth jt cells NA) && notna (nth jr cells NA) = true).
Proof.
  intros Hjt Hjr E. apply feature_peds_resolve_inv in E.
  destruct E as [md' [jt' [jr' [js
    [Hf [Hjt' [Hjr' [_ [_ [_ [_ Hfa]]]]]]]]]]].
  apply filter_ids_ok in Hf. destruct Hf as [Hnd [_ [Hc Hrows]]].
  rewrite Hc in Hjt', Hjr'.
  assert (jt' = jt) by congruence. assert (jr' = jr) by congruence.
  subst jt' jr'.
  apply filter_associated_reference_result with (jt := jt) (jr := jr)
    in Hfa; [|simpl; now rewrite Hc|simpl; now rewrite Hc].
  destruct Hfa as [Hu [_ [Hcd Hd1]]]. simpl in Hu, Hd1, Hcd.
  split; [assumption|]. split; [now rewrite Hcd, Hc|].
  split; [|split].
  - intros r Hr.
    assert (Hr' : In r (md_rows md')).
    { destruct Hd1 as [[Hd1 _]|[Hd1 _]]; rewrite Hd1 in Hr;
        [assumption | now apply filter_In in Hr]. }
    rewrite Hrows in Hr'. now apply filter_In in Hr'.
  - intros s cells Hin Hs Hw.
    assert (Hin' : In (s, cells) (md_rows md')).
    { rewrite Hrows. apply filter_In. split; [assumption|].
      now apply mem_str_In. }
    destruct Hd1 as [[-> _]|[-> _]]; [assumption|].
    apply filter_In. split; [assumption|].
    now apply andb_true_iff in Hw.
  - intros s. rewrite Hu. unfold s_index. rewrite map_map. simpl.
    rewrite in_map_iff. split.
    + intros [[s' cells] [Es Hr]]. simpl in Es. subst s'.
      apply filter_In in Hr. destruct Hr as [Hr Hw].
      rewrite Hrows in Hr. apply filter_In in Hr. destruct Hr as [Hr Hs].
      exists cells. split; [assumption|]. split; [|exact Hw].
      now apply mem_str_In.
    + intros [cells [Hin [Hs Hw]]]. exists (s, cells).
      split; [reflexivity|]. apply filter_In. split; [|exact Hw].
      rewrite Hrows. apply filter_In. split; [assumption|].
      now apply mem_str_In.
Qed.

(** The recipients of a group are the recipients at its time. *)
Lemma group_recipients (t : Table) (md : Metadata) (tc rc sc : string)
  (fm : bool) (d : DataFrame) (used : Series) (jt jr : nat)
  (groups : list (cell * DataFrame)) (time : cell) (g : DataFrame) :
  NoDup (map fst (md_rows md)) ->
  index_of tc (map fst (md_columns md)) = Some jt ->
  index_of rc (map fst (md_columns md)) = Some jr ->
  feature_peds_resolve t md tc rc sc fm = Ok (d, used) ->
  groupby d tc = Ok groups ->
  In (time, g) groups ->
  bt_index (_create_recipient_table used g (binarize t))
  = recipients_at t md jt jr time.
Proof.
  intros Hnd Hjt Hjr E Hg Hin.
  destruct (feature_resolved _ _ _ _ _ _ _ _ _ _ Hjt Hjr E)
    as [_ [Hc [Hsub [Hkeep Hused]]]].
  destruct (groupby_groups d tc jt groups time g) as [Hna [_ Hgr]];
    [now rewrite Hc | assumption | assumption |].
  rewrite recipient_index. unfold recipients_at.
  apply filter_ext_in. intros s Hs.
  apply Bool.eq_iff_eq_true. rewrite andb_true_iff, !mem_str_In.
  unfold sample_at_time. split.
  - intros [Hu Hd]. unfold df_index in Hd. apply in_map_iff in Hd.
    destruct Hd as [[s' cells] [Es Hr]]. simpl in Es. subst s'.
    rewrite Hgr in Hr. apply filter_In in Hr. destruct Hr as [Hr Ht].
    apply Hsub in Hr. rewrite (In_lookup _ _ _ Hnd Hr).
    unfold cell_at in Ht. simpl in Ht. rewrite Ht. simpl.
    apply Hused in Hu. destruct Hu as [cells' [Hr' [_ Hw]]].
    assert (cells' = cells).
    { apply (In_lookup _ _ _ Hnd) in Hr, Hr'. congruence. }
    subst cells'. now apply andb_true_iff in Hw.
  - destruct (lookup s (md_rows md)) as [cells|] eqn:El; [|discriminate].
    intros Hw. apply lookup_In in El.
    apply andb_true_iff in Hw. destruct Hw as [Ht Hr].
    assert (Hw : notna (nth jt cells NA) && notna (nth jr cells NA)
                 = true).
    { rewrite Hr, andb_true_r. apply notna_true.
      apply cell_eqb_eq in Ht. congruence. }
    split.
    + apply Hused. exists cells. auto.
    + unfold df_index. apply in_map_iff. exists (s, cells).
      split; [reflexivity|]. rewrite Hgr. apply filter_In.
      split; [now apply Hkeep | exact Ht].
Qed.

(** A row of the Feature frame, for feature number [c] at a time. *)
Definition feature_row_at (t : Table) (md : Metadata) (jt jr : nat)
  (time : cell) (c : nat) (feature : string) : list value :=
  [VStr feature;
   VFloat (true_divide (engrafted_recipients t md jt jr time c)
                       (possible_recipients t md jt jr time c));
   VInt (engrafted_recipients t md jt jr time c);
   VInt (possible_recipients t md jt jr time c);
   VCell time; VStr feature].

(** The rows that the Feature mode writes for a timepoint, read against
    the table and the metadata of the call. *)
Lemma feature_group_rows_spec (t : Table) (md : Metadata)
  (tc rc sc : string) (fm : bool) (d : DataFrame) (used : Series)
  (jt jr : nat) (groups : list (cell * DataFrame)) (time : cell)
  (g : DataFrame) (rows : list (list value)) :
  NoDup (map fst (md_rows md)) ->
  index_of tc (map fst (md_columns md)) = Some jt ->
  index_of rc (map fst (md_columns md)) = Some jr ->
  feature_peds_resolve t md tc rc sc fm = Ok (d, used) ->
  groupby d tc = Ok groups ->
  In (time, g) groups ->
  feature_group_rows used t rc time g = Ok rows ->
  time <> NA
  /\ rows
     = filter no_nan
         (map (fun cf => feature_row_at t md jt jr time (fst cf) (snd cf))
              (enumerate (t_columns t))).
Proof.
  intros Hnd Hjt Hjr E Hg Hin Er.
  pose proof (group_recipients _ _ _ _ _ _ _ _ _ _ _ _ _ Hnd Hjt Hjr E
                Hg Hin) as Hrec.
  destruct (feature_resolved _ _ _ _ _ _ _ _ _ _ Hjt Hjr E)
    as [Hndt [Hc [Hsub _]]].
  destruct (groupby_groups d tc jt groups time g) as [Hna [Hcg Hgr]];
    [now rewrite Hc | assumption | assumption |].
  split; [assumption|].
  unfold feature_group_rows in Er. cbv zeta in Er.
  destruct (_create_masking _ _ _ _) as [mask|] eqn:Em; [|discriminate].
  cbn [rbind] in Er. inversion Er; clear Er. f_equal.
  apply map_ext_in. intros [c feature] Hcf. cbn [fst snd].
  apply In_enumerate in Hcf.
  assert (Hlt : c < List.length (t_columns t)).
  { apply nth_error_Some. congruence. }
  set (recip := _create_recipient_table used g (binarize t)) in *.
  apply create_masking_rows in Em. fold recip in Hrec.
  rewrite Hrec in Em.
  assert (Hm : Forall2 (fun s mrow =>
                          nth c mrow false = donor_has_feature t md jr c s)
                 (recipients_at t md jt jr time) mask).
  { eapply Forall2_impl; [|exact Em].
    intros s mrow [donor [Hloc Hl]]. unfold donor_has_feature.
    unfold loc_cell in Hloc.
    destruct (lookup s (df_rows g)) as [cells|] eqn:Es; [|discriminate].
    rewrite Hcg, Hc, Hjr in Hloc. inversion Hloc as [Hdonor].
    apply lookup_In in Es. rewrite Hgr in Es. apply filter_In in Es.
    destruct Es as [Es _]. apply Hsub in Es.
    rewrite (In_lookup _ _ _ Hnd Es), Hdonor.
    apply (lookup_filter_label
             (fun k => mem_cell (Str k) (s_values used))) in Hl.
    apply lookup_binarize in Hl. destruct Hl as [z [Hz ->]].
    rewrite Hz. apply nth_positive. }
  assert (Hr : Forall2 (fun s rrow =>
                          nth c rrow false = sample_has_feature t c s)
                 (recipients_at t md jt jr time)
                 (map snd (bt_rows recip))).
  { rewrite <- Hrec. unfold bt_index. apply Forall2_fst_snd.
    apply Forall_forall. intros [s rrow] Hs. cbn [fst snd].
    unfold recip, _create_recipient_table in Hs. cbn [bt_rows] in Hs.
    apply filter_In in Hs. destruct Hs as [Hs _].
    apply In_binarize in Hs; [|assumption].
    destruct Hs as [z [Hz ->]]. unfold sample_has_feature. rewrite Hz.
    apply nth_positive. }
  destruct (feature_sums t md jr c _ mask _ (List.length (t_columns t))
              recip Hlt eq_refl Hm Hr) as [Hden Hnum].
  unfold feature_row_values, feature_row_at.
  unfold engrafted_recipients, possible_recipients.
  now rewrite Hden, Hnum.
Qed.

Lemma in_concat_Forall2 {A B} (R : A -> list B -> Prop) (l : list A)
  (rows : list (list B)) (x : B) :
  Forall2 R l rows -> In x (List.concat rows) ->
  exists a r, In a l /\ R a r /\ In x r.
Proof.
  induction 1 as [|a r l rows Har _ IH]; simpl; [tauto|].
  intros H. apply in_app_or in H. destruct H as [H|H].
  - exists a, r. auto.
  - destruct (IH H) as [a' [r' [Ha [HR Hx]]]]. exists a', r'. auto.
Qed.

Lemma length_filter_and_le {A} (p q : A -> bool) (l : list A) :
  List.length (filter (fun x => p x && q x) l)
  <= List.length (filter p l).
Proof.
  induction l as [|x l IH]; simpl; [lia|].
  destruct (p x); simpl; [destruct (q x); simpl; lia | assumption].
Qed.

Lemma no_nan_feature_row (t : Table) (md : Metadata) (jt jr : nat)
  (time : cell) (c : nat) (feature : string) :
  no_nan (feature_row_at t md jt jr time c feature) = true ->
  possible_recipients t md jt jr time c <> 0%Z.
Proof.
  unfold no_nan, feature_row_at. intros H Hz. rewrite Hz in H.
  assert (He : engrafted_recipients t md jt jr time c = 0%Z).
  { unfold engrafted_recipients, possible_recipients in *.
    pose proof (length_filter_and_le (donor_has_feature t md jr c)
                  (sample_has_feature t c)
                  (recipients_at t md jt jr time)).
    lia. }
  rewrite He in H. discriminate.
Qed.

(** In the frame [feature_peds] returns, every row is the row of a
    feature of the table at a time value that is not missing.  It holds
    in [all possible recipients with feature] the number of samples of
    the table with that time value and a reference whose donor has the
    feature, which is not zero, in [recipients with feature] the number
    of those samples that have the feature themselves, and in [measure]
    the quotient of the two; [id] and [subject] are the feature and
    [group] is the time value. *)
Theorem feature_peds_measure :
  forall (h h' : heap) (table metadata l : loc) (t : Table) (md : Metadata)
         (time_column reference_column subject_column : string)
         (filter_missing_references : bool) (jt jr : nat),
    nth_error h table = Some (OTable t) ->
    nth_error h metadata = Some (OMetadata md) ->
    NoDup (map fst (md_rows md)) ->
    index_of time_column (map fst (md_columns md)) = Some jt ->
    index_of reference_column (map fst (md_columns md)) = Some jr ->
    feature_peds table metadata time_column reference_column
      subject_column filter_missing_references h = (Ok l, h') ->
    exists f,
      nth_error h' l = Some (OFrame f)
      /\ forall row, In row (map snd (p_rows f)) ->
           exists feature c time,
             nth_error (t_columns t) c = Some feature
             /\ time <> NA
             /\ possible_recipients t md jt jr time c <> 0%Z
             /\ p_field f row "id" = Some (VStr feature)
             /\ p_field f row "subject" = Some (VStr feature)
             /\ p_field f row "group" = Some (VCell time)
             /\ p_field f row "all possible recipients with feature"
                = Some (VInt (possible_recipients t md jt jr time c))
             /\ p_field f row "recipients with feature"
                = Some (VInt (engrafted_recipients t md jt jr time c))
             /\ p_field f row "measure"
                = Some (VFloat
                          (true_divide
                             (engrafted_recipients t md jt jr time c)
                             (possible_recipients t md jt jr time c))).
Proof.
  intros h h' table metadata l t md tc rc sc fm jt jr Ht Hm Hnd Hjt Hjr E.
  pose proof (feature_peds_run h table metadata t md tc rc sc fm Ht Hm)
    as R.
  rewrite E in R. apply returns_frame_ok in R. destruct R as [f [Ef Hf]].
  exists f. split; [assumption|].
  apply feature_peds_frame_ok_resolve in Ef.
  destruct Ef as [d [used [groups [Er [Eg Efr]]]]].
  apply feature_groups_frames_rows in Efr;
    [|reflexivity|reflexivity|constructor].
  destruct Efr as [Hc [_ [rows [HF Hrows]]]]. simpl in Hc, Hrows.
  intros row Hin. rewrite Hrows in Hin.
  destruct (in_concat_Forall2 _ _ _ _ HF Hin)
    as [[time g] [r [Hg [Hr Hrow]]]].
  cbn [fst snd] in Hr.
  destruct (feature_group_rows_spec _ _ _ _ _ _ _ _ _ _ _ _ _ _
              Hnd Hjt Hjr Er Eg Hg Hr) as [Hna ->].
  apply filter_In in Hrow. destruct Hrow as [Hrow Hnn].
  apply in_map_iff in Hrow. destruct Hrow as [[c feature] [Erow Hcf]].
  cbn [fst snd] in Erow. subst row.
  exists feature, c, time.
  split; [now apply In_enumerate|]. split; [assumption|].
  split; [now apply no_nan_feature_row in Hnn|].
  unfold p_field. rewrite Hc. repeat split; reflexivity.
Qed.

Lemma feature_peds_measure_witness :
  exists f,
    nth_error (snd c6_feature_run) 6 = Some (OFrame f)
    /\ forall row, In row (map snd (p_rows f)) ->
         exists feature c time,
           nth_error (t_columns c6_table) c = Some feature
           /\ time <> NA
           /\ possible_recipients c6_table c6_metadata 0 1 time c <> 0%Z
           /\ p_field f row "id" = Some (VStr feature)
           /\ p_field f row "subject" = Some (VStr feature)
           /\ p_field f row "group" = Some (VCell time)
           /\ p_field f row "all possible recipients with feature"
              = Some (VInt (possible_recipients c6_table c6_metadata 0 1
                              time c))
           /\ p_field f row "recipients with feature"
              = Some (VInt (engrafted_recipients c6_table c6_metadata 0 1
                              time c))
           /\ p_field f row "measure"
              = Some (VFloat
                        (true_divide
                           (engrafted_recipients c6_table c6_metadata 0 1
                              time c)
                           (possible_recipients c6_table c6_metadata 0 1
                              time c))).
Proof.
  apply (feature_peds_measure c6_heap (snd c6_feature_run) 0 1 6 c6_table
           c6_metadata "time" "donor" "subject" false 0 1).
  - reflexivity.
  - reflexivity.
  - simpl. repeat constructor; simpl; intuition discriminate.
  - reflexivity.
  - reflexivity.
  - reflexivity.
Defined.

(** ** All the rows of the Feature frame *)

Lemma NoDup_insert_key (x : cell) (l : list cell) :
  NoDup l -> ~ In x l -> NoDup (insert_key x l).
Proof.
  induction 1 as [|y l Hy Hl IH]; simpl; intros Hx.
  - constructor; [tauto | constructor].
  - destruct (cell_ltb x y).
    + constructor; [exact Hx | now constructor].
    + constructor.
      * rewrite In_insert_key. intros [E|H]; [|contradiction].
        apply Hx. left. congruence.
      * apply IH. tauto.
Qed.

Lemma NoDup_sorted_keys (l : list cell) :
  NoDup l -> NoDup (fold_right insert_key [] l).
Proof.
  induction 1 as [|x l Hx Hl IH]; simpl; [constructor|].
  apply NoDup_insert_key; [assumption|]. now rewrite In_sorted_keys.
Qed.

(** The time values of the groups: each time value of the frame once,
    the missing value left out. *)
Lemma groupby_keys (d : DataFrame) (tc : string) (jt : nat)
  (groups : list (cell * DataFrame)) :
  index_of tc (df_columns d) = Some jt ->
  groupby d tc = Ok groups ->
  NoDup (map fst groups)
  /\ forall k, In k (map fst groups) <->
       k <> NA /\ exists r, In r (df_rows d) /\ cell_at jt r = k.
Proof.
  intros Hj. unfold groupby. rewrite Hj. intros E. inversion E; clear E.
  rewrite map_map. cbn [fst]. rewrite map_id. split.
  - apply NoDup_sorted_keys, NoDup_unique.
  - intros k. rewrite In_sorted_keys, In_unique, filter_In, in_map_iff.
    rewrite notna_true. split.
    + intros [[r [Er Hr]] Hk]. split; [assumption|]. exists r. auto.
    + intros [Hk [r [Hr Er]]]. split; [|assumption]. exists r. auto.
Qed.

Lemma concat_Forall2 {A B} (F : A -> list B) (l : list A)
  (rows : list (list B)) :
  Forall2 (fun a r => r = F a) l rows -> List.concat rows = flat_map F l.
Proof. induction 1; simpl; congruence. Qed.

Lemma Forall2_impl_In_l {A B} (P Q : A -> B -> Prop) (l : list A)
  (rows : list B) :
  Forall2 P l rows ->
  (forall a r, In a l -> P a r -> Q a r) ->
  Forall2 Q l rows.
Proof.
  induction 1 as [|a r l rows Har H IH]; intros HPQ; constructor.
  - apply HPQ; simpl; auto.
  - apply IH. intros a' r' Hin. apply HPQ. simpl. auto.
Qed.

(** The rows of a time value in the Feature frame: one for each feature
    of the table that the donor of some recipient at that time has, in
    the order of the features. *)
Definition feature_rows_at (t : Table) (md : Metadata) (jt jr : nat)
  (time : cell) : list (list value) :=
  filter no_nan
    (map (fun cf => feature_row_at t md jt jr time (fst cf) (snd cf))
         (enumerate (t_columns t))).

(** The frame [feature_peds] returns, as a whole: its rows are labelled
    0, 1, 2, ... and are, for one time value after the other, each
    time value once and none of them missing, the rows of the features
    whose denominator is not zero, in the order of the table; a time
    value at which some feature has a denominator other than zero is
    one of them.  No row the loop has kept is overwritten or lost. *)
Theorem feature_peds_rows :
  forall (h h' : heap) (table metadata l : loc) (t : Table) (md : Metadata)
         (time_column reference_column subject_column : string)
         (filter_missing_references : bool) (jt jr : nat),
    nth_error h table = Some (OTable t) ->
    nth_error h metadata = Some (OMetadata md) ->
    NoDup (map fst (md_rows md)) ->
    index_of time_column (map fst (md_columns md)) = Some jt ->
    index_of reference_column (map fst (md_columns md)) = Some jr ->
    feature_peds table metadata time_column reference_column
      subject_column filter_missing_references h = (Ok l, h') ->
    exists f times,
      nth_error h' l = Some (OFrame f)
      /\ p_columns f = feature_columns
      /\ map fst (p_rows f) = seq 0 (List.length (p_rows f))
      /\ map snd (p_rows f) = flat_map (feature_rows_at t md jt jr) times
      /\ NoDup times
      /\ (forall time, In time times -> time <> NA)
      /\ (forall time c,
            time <> NA ->
            possible_recipients t md jt jr time c <> 0%Z ->
            In time times).
Proof.
  intros h h' table metadata l t md tc rc sc fm jt jr Ht Hm Hnd Hjt Hjr E.
  pose proof (feature_peds_run h table metadata t md tc rc sc fm Ht Hm)
    as R.
  rewrite E in R. apply returns_frame_ok in R. destruct R as [f [Ef Hf]].
  apply feature_peds_frame_ok_resolve in Ef.
  destruct Ef as [d [used [groups [Er [Eg Efr]]]]].
  apply feature_groups_frames_rows in Efr;
    [|reflexivity|reflexivity|constructor].
  destruct Efr as [Hc [Hl [rows [HF Hrows]]]]. simpl in Hc, Hrows.
  destruct (feature_resolved _ _ _ _ _ _ _ _ _ _ Hjt Hjr Er)
    as [_ [Hcd [_ [Hkeep _]]]].
  destruct (groupby_keys d tc jt groups) as [Hkn Hk];
    [now rewrite Hcd | assumption |].
  exists f, (map fst groups).
  split; [assumption|]. split; [assumption|]. split; [exact Hl|].
  split; [|split; [assumption|split]].
  - rewrite Hrows, flat_map_concat_map.
    rewrite (concat_Forall2
               (fun g => feature_rows_at t md jt jr (fst g)) groups rows).
    + now rewrite flat_map_concat_map, map_map.
    + eapply Forall2_impl_In_l; [exact HF|].
      intros [time g] r Hin Hr. cbn [fst snd] in *.
      now destruct (feature_group_rows_spec _ _ _ _ _ _ _ _ _ _ _ _ _ _
                      Hnd Hjt Hjr Er Eg Hin Hr).
  - intros time Hin. now apply Hk in Hin.
  - intros time c Hna Hp. apply Hk. split; [assumption|].
    unfold possible_recipients in Hp.
    destruct (filter (donor_has_feature t md jr c)
                     (recipients_at t md jt jr time)) as [|s rest] eqn:Es;
      [now destruct Hp|].
    assert (Hs : In s (filter (donor_has_feature t md jr c)
                              (recipients_at t md jt jr time)))
      by (rewrite Es; simpl; auto).
    apply filter_In in Hs. destruct Hs as [Hs _].
    unfold recipients_at in Hs. apply filter_In in Hs.
    destruct Hs as [Hst Hat]. unfold sample_at_time in Hat.
    destruct (lookup s (md_rows md)) as [cells|] eqn:Els; [|discriminate].
    apply andb_true_iff in Hat. destruct Hat as [Hti Hre].
    apply cell_eqb_eq in Hti. exists (s, cells). split; [|exact Hti].
    apply Hkeep; [now apply lookup_In | assumption |].
    rewrite Hre, andb_true_r. apply notna_true. congruence.
Qed.

Lemma feature_peds_rows_witness :
  exists f times,
    nth_error (snd c6_feature_run) 6 = Some (OFrame f)
    /\ p_columns f = feature_columns
    /\ map fst (p_rows f) = seq 0 (List.length (p_rows f))
    /\ map snd (p_rows f)
       = flat_map (feature_rows_at c6_table c6_metadata 0 1) times
    /\ NoDup times
    /\ (forall time, In time times -> time <> NA)
    /\ (forall time c,
          time <> NA ->
          possible_recipients c6_table c6_metadata 0 1 time c <> 0%Z ->
          In time times).
Proof.
  apply (feature_peds_rows c6_heap (snd c6_feature_run) 0 1 6 c6_table
           c6_metadata "time" "donor" "subject" false 0 1).
  - reflexivity.
  - reflexivity.
  - simpl. repeat constructor; simpl; intuition discriminate.
  - reflexivity.
  - reflexivity.
  - reflexivity.
Defined.

(** ** A metadata without time values *)

Lemma filter_none {A} (p : A -> bool) (l : list A) :
  (forall x, In x l -> p x = false) -> filter p l = [].
Proof.
  induction l as [|x l IH]; simpl; intros H; [reflexivity|].
  rewrite (H x) by auto. apply IH. intros y Hy. apply H. auto.
Qed.

Lemma check_column_type_eq (column_properties : list (string * ctype))
  (parameter_type column : string) (column_type : ctype) :
  lookup column column_properties = Some column_type ->
  _check_column_type column_properties parameter_type column column_type
  = Ok tt.
Proof.
  intros H. unfold _check_column_type. rewrite H.
  now destruct column_type.
Qed.

(** When no sample of the table has a time value in the metadata,
    there is no timepoint to compute: [feature_peds] raises nothing and
    returns a frame without rows. *)
Theorem feature_peds_without_timepoints :
  forall (h : heap) (table metadata : loc) (t : Table) (md md' : Metadata)
         (time_column reference_column subject_column : string)
         (filter_missing_references : bool) (jt : nat),
    nth_error h table = Some (OTable t) ->
    nth_error h metadata = Some (OMetadata md) ->
    filter_ids md (t_index t) = Ok md' ->
    index_of time_column (map fst (md_columns md)) = Some jt ->
    lookup time_column (md_columns md) = Some Numeric ->
    lookup reference_column (md_columns md) = Some Categorical ->
    lookup subject_column (md_columns md) = Some Categorical ->
    (forall sample cells,
        In (sample, cells) (md_rows md) -> In sample (t_index t) ->
        nth jt cells NA = NA) ->
    exists l,
      let run := feature_peds table metadata time_column reference_column
                   subject_column filter_missing_references h in
      fst run = Ok l
      /\ nth_error (snd run) l = Some (OFrame (mkPedsFrame feature_columns [])).
Proof.
  intros h table metadata t md md' tc rc sc fm jt Ht Hm Hf Hjt Hty Hry Hsy
         Hna.
  pose proof (feature_peds_run h table metadata t md tc rc sc fm Ht Hm)
    as R.
  assert (E : feature_peds_frame t md tc rc sc fm
              = Ok (mkPedsFrame feature_columns [])).
  { pose proof (filter_ids_ok _ _ _ Hf) as [_ [Hn [Hc Hrows]]].
    destruct (lookup_index_of _ _ _ Hry) as [jr Hjr].
    destruct (lookup_index_of _ _ _ Hsy) as [js Hjs].
    set (d := to_dataframe md').
    assert (Hdt : index_of tc (df_columns d) = Some jt)
      by (simpl; now rewrite Hc).
    assert (Hdr : index_of rc (df_columns d) = Some jr)
      by (simpl; now rewrite Hc).
    assert (Hds : index_of sc (df_columns d) = Some js)
      by (simpl; now rewrite Hc).
    assert (Hnone : forall r, In r (df_rows d) ->
                              notna (cell_at jt r) = false).
    { intros [s cells] Hr. simpl in Hr. rewrite Hrows in Hr.
      apply filter_In in Hr. destruct Hr as [Hr Hs].
      apply mem_str_In in Hs. unfold cell_at. simpl.
      now rewrite (Hna s cells Hr Hs). }
    unfold feature_peds_frame, feature_peds_resolve. rewrite Hf.
    cbn [rbind]. fold d.
    unfold _check_for_time_column. rewrite (get_column_index _ _ _ Hdt).
    cbn [rbind]. rewrite Hc.
    rewrite (check_column_type_eq _ _ _ _ Hty). cbn [rbind].
    rewrite (check_reference_column_index _ _ _ Hdr). cbn [rbind].
    rewrite (check_column_type_eq _ _ _ _ Hry). cbn [rbind].
    rewrite (filter_associated_reference_eq _ _ _ _ _ _ Hdt Hdr).
    assert (Hex : existsb (timestamped_without_reference jt jr)
                    (df_rows d) = false).
    { apply existsb_false. intros r Hr.
      unfold timestamped_without_reference. now rewrite (Hnone r Hr). }
    rewrite Hex. cbn [rbind].
    rewrite (check_subject_column_index _ _ _ Hds). cbn [rbind].
    rewrite (check_column_type_eq _ _ _ _ Hsy). cbn [rbind].
    unfold groupby. rewrite Hdt.
    rewrite (filter_none notna (map (cell_at jt) (df_rows d))).
    - reflexivity.
    - intros c Hc'. apply in_map_iff in Hc'.
      destruct Hc' as [r [<- Hr]]. now apply Hnone. }
  rewrite E in R. exact R.
Qed.

(** The metadata of the example without its time values. *)
Definition untimed_metadata : Metadata :=
  mkMetadata "id"
    [("time", Numeric); ("donor", Categorical); ("subject", Categorical)]
    [("D", [NA; NA; NA]);
     ("A", [NA; Str "D"; Str "S1"]);
     ("B", [NA; Str "D"; Str "S2"])].

Lemma feature_peds_without_timepoints_witness :
  exists l,
    fst (feature_peds 0 1 "time" "donor" "subject" false
           [OTable c1_table; OMetadata untimed_metadata]) = Ok l
    /\ nth_error
         (snd (feature_peds 0 1 "time" "donor" "subject" false
                 [OTable c1_table; OMetadata untimed_metadata])) l
       = Some (OFrame (mkPedsFrame feature_columns [])).
Proof.
  apply (feature_peds_without_timepoints
           [OTable c1_table; OMetadata untimed_metadata] 0 1 c1_table
           untimed_metadata untimed_metadata "time" "donor" "subject" false 0).
  - reflexivity.
  - reflexivity.
  - reflexivity.
  - reflexivity.
  - reflexivity.
  - reflexivity.
  - reflexivity.
  - intros sample cells [E|[E|[E|[]]]] _; inversion E; reflexivity.
Defined.

(** ** What [feature_peds] reads of the metadata *)

(** Two rows for the same sample with the same time value and the same
    reference. *)
Definition same_time_reference (jt jr : nat) (r1 r2 : string * list cell)
  : Prop :=
  fst r1 = fst r2
  /\ cell_at jt r1 = cell_at jt r2
  /\ cell_at jr r1 = cell_at jr r2.

(** Two frames with the same columns whose rows differ at most outside
    the time column and the reference column. *)
Definition agree_frames (jt jr : nat) (d1 d2 : DataFrame) : Prop :=
  df_index_name d1 = df_index_name d2
  /\ df_columns d1 = df_columns d2
  /\ Forall2 (same_time_reference jt jr) (df_rows d1) (df_rows d2).

Lemma Forall2_filter {A B} (R : A -> B -> Prop) (p : A -> bool)
  (q : B -> bool) (l1 : list A) (l2 : list B) :
  (forall a b, R a b -> p a = q b) ->
  Forall2 R l1 l2 -> Forall2 R (filter p l1) (filter q l2).
Proof.
  intros Hpq. induction 1 as [|a b l1 l2 Hab _ IH]; simpl; [constructor|].
  rewrite (Hpq a b Hab). destruct (q b); [constructor|]; assumption.
Qed.

Lemma Forall2_map_same {A B C} (R : A -> B -> Prop) (f : A -> C)
  (g : B -> C) (l1 : list A) (l2 : list B) :
  (forall a b, R a b -> f a = g b) ->
  Forall2 R l1 l2 -> map f l1 = map g l2.
Proof.
  intros Hfg. induction 1 as [|a b l1 l2 Hab _ IH]; simpl; [reflexivity|].
  now rewrite (Hfg a b Hab), IH.
Qed.

Lemma agree_index (jt jr : nat) (d1 d2 : DataFrame) :
  agree_frames jt jr d1 d2 -> df_index d1 = df_index d2.
Proof.
  intros [_ [_ H]]. unfold df_index.
  eapply Forall2_map_same; [|exact H]. now intros a b [E _].
Qed.

Lemma agree_time_column (jt jr : nat) (d1 d2 : DataFrame) :
  agree_frames jt jr d1 d2 -> frame_column jt d1 = frame_column jt d2.
Proof.
  intros [_ [_ H]]. unfold frame_column.
  eapply Forall2_map_same; [|exact H].
  intros a b [E [Et _]]. now rewrite E, Et.
Qed.

Lemma agree_reference_column (jt jr : nat) (d1 d2 : DataFrame) :
  agree_frames jt jr d1 d2 -> frame_column jr d1 = frame_column jr d2.
Proof.
  intros [_ [_ H]]. unfold frame_column.
  eapply Forall2_map_same; [|exact H].
  intros a b [E [_ Er]]. now rewrite E, Er.
Qed.

Lemma agree_loc_cell (jt jr : nat) (d1 d2 : DataFrame) (rc s : string) :
  agree_frames jt jr d1 d2 ->
  index_of rc (df_columns d1) = Some jr ->
  loc_cell d1 s rc = loc_cell d2 s rc.
Proof.
  intros [_ [Hc H]] Hj. unfold loc_cell. rewrite <- Hc, Hj.
  induction H as [|[k1 c1] [k2 c2] l1 l2 [Ek [_ Er]] _ IH]; simpl;
    [reflexivity|].
  simpl in Ek. subst k2. destruct (String.eqb s k1); [|exact IH].
  unfold cell_at in Er. simpl in Er. now rewrite Er.
Qed.

Lemma agree_donor_positions (jt jr : nat) (d1 d2 : DataFrame)
  (donor_df : BoolTable) (rc : string) (samples : list string) :
  agree_frames jt jr d1 d2 ->
  index_of rc (df_columns d1) = Some jr ->
  donor_positions d1 donor_df rc samples
  = donor_positions d2 donor_df rc samples.
Proof.
  intros Ha Hj. induction samples as [|s rest IH]; simpl; [reflexivity|].
  now rewrite (agree_loc_cell _ _ _ _ _ s Ha Hj), IH.
Qed.

Lemma agree_recipient_table (jt jr : nat) (d1 d2 : DataFrame)
  (used : Series) (table : BoolTable) :
  agree_frames jt jr d1 d2 ->
  _create_recipient_table used d1 table
  = _create_recipient_table used d2 table.
Proof.
  intros Ha. unfold _create_recipient_table.
  now rewrite (agree_index _ _ _ _ Ha).
Qed.

(** The Feature mode reads of the metadata of a timepoint the samples
    and their references only. *)
Lemma agree_compute_feature_frame (jt jr : nat) (d1 d2 : DataFrame)
  (f : PedsFrame) (time : cell) (used : Series) (t : Table)
  (tc sc rc : string) :
  agree_frames jt jr d1 d2 ->
  index_of rc (df_columns d1) = Some jr ->
  compute_peds_frame f "Feature" time used t d1 tc sc rc
  = compute_peds_frame f "Feature" time used t d2 tc sc rc.
Proof.
  intros Ha Hj. unfold compute_peds_frame. cbv zeta.
  rewrite (agree_recipient_table _ _ _ _ used (binarize t) Ha).
  unfold _create_masking.
  now rewrite (agree_donor_positions _ _ _ _ _ rc _ Ha Hj).
Qed.

Lemma agree_feature_groups_frames (jt jr : nat) (used : Series) (t : Table)
  (tc sc rc : string) (groups1 groups2 : list (cell * DataFrame)) :
  Forall2 (fun g1 g2 =>
             fst g1 = fst g2
             /\ agree_frames jt jr (snd g1) (snd g2)
             /\ index_of rc (df_columns (snd g1)) = Some jr)
          groups1 groups2 ->
  forall f,
    feature_groups_frames f used t tc sc rc groups1
    = feature_groups_frames f used t tc sc rc groups2.
Proof.
  induction 1 as [|[k1 d1] [k2 d2] l1 l2 [Ek [Ha Hj]] _ IH]; intros f;
    simpl; [reflexivity|].
  simpl in Ek, Ha, Hj. subst k2.
  rewrite (agree_compute_feature_frame _ _ _ _ _ _ _ _ _ _ _ Ha Hj).
  destruct (compute_peds_frame _ _ _ _ _ d2 _ _ _); cbn [rbind];
    [apply IH | reflexivity].
Qed.

Lemma agree_groupby (jt jr : nat) (d1 d2 : DataFrame) (tc rc : string) :
  agree_frames jt jr d1 d2 ->
  index_of tc (df_columns d1) = Some jt ->
  index_of rc (df_columns d1) = Some jr ->
  exists groups1 groups2,
    groupby d1 tc = Ok groups1
    /\ groupby d2 tc = Ok groups2
    /\ Forall2 (fun g1 g2 =>
                  fst g1 = fst g2
                  /\ agree_frames jt jr (snd g1) (snd g2)
                  /\ index_of rc (df_columns (snd g1)) = Some jr)
               groups1 groups2.
Proof.
  intros Ha Ht Hr. pose proof Ha as [Hn [Hc Hrows]].
  unfold groupby. rewrite <- Hc, Ht.
  assert (Hk : map (cell_at jt) (df_rows d1) = map (cell_at jt) (df_rows d2)).
  { eapply Forall2_map_same; [|exact Hrows]. now intros a b [_ [E _]]. }
  rewrite <- Hk. eexists; eexists. split; [reflexivity|].
  split; [reflexivity|].
  induction (fold_right insert_key []
               (unique (filter notna (map (cell_at jt) (df_rows d1)))))
    as [|k keys IH]; simpl; constructor; [|exact IH].
  cbn [fst snd]. split; [reflexivity|]. split; [|exact Hr].
  split; [exact Hn|]. split; [reflexivity|]. cbn [df_rows].
  apply Forall2_filter; [|exact Hrows].
  intros a b [_ [E _]]. now rewrite E.
Qed.

Lemma agree_filter_ids (jt jr : nat) (md1 md2 : Metadata)
  (ids : list string) :
  md_index_name md1 = md_index_name md2 ->
  md_columns md1 = md_columns md2 ->
  Forall2 (same_time_reference jt jr) (md_rows md1) (md_rows md2) ->
  match filter_ids md1 ids, filter_ids md2 ids with
  | Ok a, Ok b =>
      md_columns a = md_columns md1
      /\ md_columns b = md_columns md1
      /\ agree_frames jt jr (to_dataframe a) (to_dataframe b)
  | Err e1, Err e2 => e1 = e2
  | _, _ => False
  end.
Proof.
  intros Hn Hc Hrows. unfold filter_ids.
  assert (Hids : map fst (md_rows md1) = map fst (md_rows md2)).
  { eapply Forall2_map_same; [|exact Hrows]. now intros a b [E _]. }
  rewrite <- Hids. destruct ids as [|i ids]; [reflexivity|].
  destruct (has_dup (i :: ids)); [reflexivity|].
  destruct (filter _ (i :: ids)); [|reflexivity].
  split; [reflexivity|]. split; [now rewrite Hc|].
  unfold agree_frames, to_dataframe. simpl.
  split; [assumption|]. split; [now rewrite Hc|].
  apply Forall2_filter; [|exact Hrows].
  intros a b [E _]. now rewrite E.
Qed.

Lemma agree_timestamped (jt jr : nat) (l1 l2 : list (string * list cell)) :
  Forall2 (same_time_reference jt jr) l1 l2 ->
  existsb (timestamped_without_reference jt jr) l1
  = existsb (timestamped_without_reference jt jr) l2.
Proof.
  induction 1 as [|a b l1 l2 [_ [Et Er]] _ IH]; simpl; [reflexivity|].
  unfold timestamped_without_reference at 1 3. now rewrite Et, Er, IH.
Qed.

Lemma agree_filter_associated_reference (jt jr : nat) (d1 d2 : DataFrame)
  (tc rc : string) (fm : bool) :
  agree_frames jt jr d1 d2 ->
  index_of tc (df_columns d1) = Some jt ->
  index_of rc (df_columns d1) = Some jr ->
  match _filter_associated_reference (frame_column jr d1) d1 tc fm rc,
        _filter_associated_reference (frame_column jr d2) d2 tc fm rc with
  | Ok (a, u1), Ok (b, u2) =>
      u1 = u2 /\ agree_frames jt jr a b /\ df_columns a = df_columns d1
  | Err e1, Err e2 => e1 = e2
  | _, _ => False
  end.
Proof.
  intros Ha Ht Hr. pose proof Ha as [Hn [Hc Hrows]].
  rewrite (filter_associated_reference_eq _ _ _ _ _ _ Ht Hr).
  rewrite Hc in Ht, Hr.
  rewrite (filter_associated_reference_eq _ _ _ _ _ _ Ht Hr).
  rewrite <- (agree_timestamped _ _ _ _ Hrows).
  destruct (existsb _ (df_rows d1)).
  - destruct fm.
    + split; [|split; [|reflexivity]].
      * eapply Forall2_map_same;
          [|apply Forall2_filter; [|exact Hrows]].
        -- intros a b [E [_ Er]]. now rewrite E, Er.
        -- intros a b [_ [Et Er]].
           unfold timestamped_without_reference. now rewrite Et, Er.
      * split; [exact Hn|]. split; [exact Hc|]. cbn [df_rows].
        apply Forall2_filter; [|exact Hrows].
        intros a b [_ [_ Er]]. now rewrite Er.
    + f_equal. eapply Forall2_map_same;
        [|apply Forall2_filter; [|exact Hrows]].
      * now intros a b [E _].
      * intros a b [_ [Et Er]].
        unfold timestamped_without_reference. now rewrite Et, Er.
  - split; [|split; [assumption | reflexivity]].
    eapply Forall2_map_same; [|apply Forall2_filter; [|exact Hrows]].
    + intros a b [E [_ Er]]. now rewrite E, Er.
    + intros a b [_ [Et _]]. now rewrite Et.
Qed.

Lemma agree_feature_peds_frame (jt jr : nat) (t : Table)
  (md1 md2 : Metadata) (tc rc sc : string) (fm : bool) :
  md_index_name md1 = md_index_name md2 ->
  md_columns md1 = md_columns md2 ->
  index_of tc (map fst (md_columns md1)) = Some jt ->
  index_of rc (map fst (md_columns md1)) = Some jr ->
  Forall2 (same_time_reference jt jr) (md_rows md1) (md_rows md2) ->
  feature_peds_frame t md1 tc rc sc fm
  = feature_peds_frame t md2 tc rc sc fm.
Proof.
  intros Hn Hc Hjt Hjr Hrows.
  unfold feature_peds_frame, feature_peds_resolve. cbv zeta.
  pose proof (agree_filter_ids jt jr md1 md2 (t_index t) Hn Hc Hrows)
    as Hf.
  destruct (filter_ids md1 (t_index t)) as [a|e1],
           (filter_ids md2 (t_index t)) as [b|e2];
    try contradiction; cbn [rbind]; [|now subst].
  destruct Hf as [Hca [Hcb Ha]].
  assert (Hta : index_of tc (df_columns (to_dataframe a)) = Some jt)
    by (simpl; now rewrite Hca).
  assert (Hra : index_of rc (df_columns (to_dataframe a)) = Some jr)
    by (simpl; now rewrite Hca).
  assert (Htb : index_of tc (df_columns (to_dataframe b)) = Some jt)
    by (simpl; now rewrite Hcb).
  assert (Hrb : index_of rc (df_columns (to_dataframe b)) = Some jr)
    by (simpl; now rewrite Hcb).
  unfold _check_for_time_column.
  rewrite (get_column_index _ _ _ Hta), (get_column_index _ _ _ Htb).
  cbn [rbind]. rewrite Hca, Hcb.
  destruct (_check_column_type (md_columns md1) "time" tc Numeric);
    cbn [rbind]; [|reflexivity].
  rewrite (check_reference_column_index _ _ _ Hra),
          (check_reference_column_index _ _ _ Hrb).
  cbn [rbind].
  destruct (_check_column_type (md_columns md1) "reference" rc Categorical);
    cbn [rbind]; [|reflexivity].
  pose proof (agree_filter_associated_reference jt jr _ _ tc rc fm
                Ha Hta Hra) as Hfa.
  destruct (_filter_associated_reference _ (to_dataframe a) _ _ _)
    as [[a' u1]|e1],
           (_filter_associated_reference _ (to_dataframe b) _ _ _)
    as [[b' u2]|e2];
    try contradiction; cbn [rbind]; [|now subst].
  destruct Hfa as [<- [Ha' Hca']].
  pose proof Ha' as [Hn' [Hc' _]].
  unfold _check_subject_column, get_column. rewrite <- Hc', <- Hn'.
  destruct (index_of sc (df_columns a')); cbn [rbind];
    [|now destruct (String.eqb sc (df_index_name a'))].
  destruct (_check_column_type (md_columns md1) "subject" sc Categorical);
    cbn [rbind]; [|reflexivity].
  destruct (agree_groupby jt jr a' b' tc rc Ha')
    as [groups1 [groups2 [E1 [E2 HF]]]]; [congruence | congruence |].
  rewrite E1, E2. cbn [rbind].
  now apply (agree_feature_groups_frames jt jr).
Qed.

(** [feature_peds] reads of the metadata the sample identifiers, the
    time values and the references and nothing else: on two metadata
    with the same columns whose rows differ at most in other cells,
    the values of the subject column among them, the call has the same
    outcome, the same error or an equal frame.  Subjects with two rows
    at a timepoint or with timepoints missing change nothing. *)
Theorem feature_peds_ignores_subject_values :
  forall (h1 h2 : heap) (table metadata : loc) (t : Table)
         (md1 md2 : Metadata)
         (time_column reference_column subject_column : string)
         (filter_missing_references : bool) (jt jr : nat),
    nth_error h1 table = Some (OTable t) ->
    nth_error h1 metadata = Some (OMetadata md1) ->
    nth_error h2 table = Some (OTable t) ->
    nth_error h2 metadata = Some (OMetadata md2) ->
    md_index_name md1 = md_index_name md2 ->
    md_columns md1 = md_columns md2 ->
    index_of time_column (map fst (md_columns md1)) = Some jt ->
    index_of reference_column (map fst (md_columns md1)) = Some jr ->
    Forall2 (same_time_reference jt jr) (md_rows md1) (md_rows md2) ->
    same_outcome
      (feature_peds table metadata time_column reference_column
         subject_column filter_missing_references h1)
      (feature_peds table metadata time_column reference_column
         subject_column filter_missing_references h2).
Proof.
  intros h1 h2 table metadata t md1 md2 tc rc sc fm jt jr
         Ht1 Hm1 Ht2 Hm2 Hn Hc Hjt Hjr Hrows.
  apply returns_frame_same
    with (expected := feature_peds_frame t md1 tc rc sc fm).
  - now apply feature_peds_run.
  - rewrite (agree_feature_peds_frame jt jr t md1 md2 tc rc sc fm
               Hn Hc Hjt Hjr Hrows).
    now apply feature_peds_run.
Qed.

(** The metadata of the example with one subject for all samples: the
    subject has two rows at time 1. *)
Definition one_subject_metadata : Metadata :=
  mkMetadata "id"
    [("time", Numeric); ("donor", Categorical); ("subject", Categorical)]
    [("D", [NA; NA; Str "S1"]);
     ("A", [Num 1; Str "D"; Str "S1"]);
     ("B", [Num 1; Str "D"; Str "S1"])].

Lemma feature_peds_ignores_subject_values_witness :
  fst (sample_peds 0 1 "time" "donor" "subject" false false
         [OTable c1_table; OMetadata one_subject_metadata])
  = Err (ValueError_duplicate_timepoint (Str "S1") [NA; Num 1; Num 1])
  /\ same_outcome
       (feature_peds 0 1 "time" "donor" "subject" false c1_heap)
       (feature_peds 0 1 "time" "donor" "subject" false
          [OTable c1_table; OMetadata one_subject_metadata]).
Proof.
  split; [reflexivity|].
  apply (feature_peds_ignores_subject_values c1_heap
           [OTable c1_table; OMetadata one_subject_metadata] 0 1 c1_table
           c1_metadata one_subject_metadata "time" "donor" "subject" false 0 1);
    try reflexivity.
  repeat constructor.
Defined.

(** ** What [sample_peds] accepts *)

(** The metadata of the samples of the table as a frame: what
    [filter_ids] and [to_dataframe] give on to the checks. *)
Definition table_metadata (t : Table) (md : Metadata) : DataFrame :=
  mkDataFrame (md_index_name md) (map fst (md_columns md))
              (rows_in_table t md).

Lemma filter_ids_table_metadata (t : Table) (md md' : Metadata) :
  filter_ids md (t_index t) = Ok md' ->
  to_dataframe md' = table_metadata t md.
Proof.
  intros H. apply filter_ids_ok in H. destruct H as [_ [Hn [Hc Hr]]].
  unfold to_dataframe, table_metadata, rows_in_table.
  now rewrite Hn, Hc, Hr.
Qed.

(** The distinct time values of a frame. *)
Definition timepoints (jt : nat) (d : DataFrame) : list cell :=
  unique (s_values (s_dropna (frame_column jt d))).

Lemma timepoints_spec (jt : nat) (d : DataFrame) :
  NoDup (timepoints jt d)
  /\ forall c, In c (timepoints jt d) <->
       c <> NA /\ exists r, In r (df_rows d) /\ cell_at jt r = c.
Proof.
  unfold timepoints. split; [apply NoDup_unique|].
  intros c. rewrite In_unique, s_values_dropna, filter_In, notna_true.
  unfold s_values, frame_column. rewrite map_map, in_map_iff. simpl.
  split.
  - intros [[r [E Hr]] Hc]. split; [assumption|]. exists r. auto.
  - intros [Hc [r [Hr E]]]. split; [|assumption]. exists r. auto.
Qed.

(** With filtering and dropping off, [sample_peds] returns only on a
    metadata that is clean for the samples of the table: every sample
    with a time value has a reference, no subject has two samples at
    the same time value, and every subject has at least as many samples
    as there are distinct time values. *)
Theorem strict_sample_peds_accepts_clean_metadata :
  forall (h h' : heap) (table metadata l : loc) (t : Table) (md : Metadata)
         (time_column reference_column subject_column : string)
         (jt jr js : nat),
    nth_error h table = Some (OTable t) ->
    nth_error h metadata = Some (OMetadata md) ->
    index_of time_column (map fst (md_columns md)) = Some jt ->
    index_of reference_column (map fst (md_columns md)) = Some jr ->
    index_of subject_column (map fst (md_columns md)) = Some js ->
    sample_peds table metadata time_column reference_column subject_column
      false false h = (Ok l, h') ->
    (forall r, In r (rows_in_table t md) ->
               cell_at jt r <> NA -> cell_at jr r <> NA)
    /\ ~ shares_timepoint js jt (rows_in_table t md)
    /\ subjects_complete js
         (List.length (timepoints jt (table_metadata t md)))
         (table_metadata t md).
Proof.
  intros h h' table metadata l t md tc rc sc jt jr js Ht Hm Hjt Hjr Hjs E.
  pose proof (sample_peds_run h table metadata t md tc rc sc false false
                Ht Hm) as R.
  rewrite E in R. apply returns_frame_ok in R. destruct R as [f [Ef _]].
  apply sample_peds_frame_ok in Ef. destruct Ef as [d [used [Er _]]].
  apply sample_peds_resolve_inv in Er.
  destruct Er as [md' [jt' [jr' [js' [d1 [u1 [n
    [Hf [Hjt' [Hjr' [Hjs' [_ [_ [_ [Hn [Hfa [Hc1 [Hdup Hcs]]]]]]]]]]]]]]]]]].
  pose proof (filter_ids_ok _ _ _ Hf) as [_ [_ [Hc _]]].
  rewrite Hc in Hjt', Hjr', Hjs'.
  assert (jt' = jt) by congruence. assert (jr' = jr) by congruence.
  assert (js' = js) by congruence. subst jt' jr' js'.
  rewrite (filter_ids_table_metadata _ _ _ Hf) in Hn, Hfa.
  set (d0 := table_metadata t md) in *.
  assert (Hd0t : index_of tc (df_columns d0) = Some jt) by exact Hjt.
  assert (Hd0r : index_of rc (df_columns d0) = Some jr) by exact Hjr.
  rewrite (filter_associated_reference_eq _ _ _ _ _ _ Hd0t Hd0r) in Hfa.
  destruct (existsb (timestamped_without_reference jt jr) (df_rows d0))
    eqn:Ex; [discriminate|].
  inversion Hfa; subst d1 u1; clear Hfa.
  split; [|split].
  - intros r Hr Htime Href.
    pose proof (proj1 (existsb_false _ _) Ex r Hr) as Hw.
    unfold timestamped_without_reference in Hw.
    apply notna_true in Htime. rewrite Htime, Href in Hw. discriminate.
  - apply (duplicate_check_sound d0 sc tc js jt); assumption.
  - assert (En : n = List.length (timepoints jt d0)).
    { unfold _check_for_time_column in Hn.
      rewrite (get_column_index _ _ _ Hd0t) in Hn. now inversion Hn. }
    rewrite <- En. apply subjects_complete_existsb.
    assert (Hd0s : index_of sc (df_columns d0) = Some js) by exact Hjs.
    rewrite (check_subjects_eq _ _ _ _ _ _ Hd0s) in Hcs.
    destruct (existsb _ (value_counts _)); [discriminate | reflexivity].
Qed.

Lemma strict_sample_peds_accepts_clean_metadata_witness :
  (forall r, In r (rows_in_table c1_table c1_metadata) ->
             cell_at 0 r <> NA -> cell_at 1 r <> NA)
  /\ ~ shares_timepoint 2 0 (rows_in_table c1_table c1_metadata)
  /\ subjects_complete 2
       (List.length (timepoints 0 (table_metadata c1_table c1_metadata)))
       (table_metadata c1_table c1_metadata).
Proof.
  apply (strict_sample_peds_accepts_clean_metadata c1_heap (snd c1_run)
           0 1 2 c1_table c1_metadata "time" "donor" "subject" 0 1 2);
    reflexivity.
Defined.

(** ** When [sample_peds] returns *)

Lemma duplicate_check_complete (d : DataFrame) (sc tc : string)
  (js jt : nat) :
  index_of sc (df_columns d) = Some js ->
  index_of tc (df_columns d) = Some jt ->
  ~ shares_timepoint js jt (df_rows d) ->
  _check_duplicate_subject_timepoint (frame_column js d) d sc tc = Ok tt.
Proof.
  intros Hs Ht Hno. unfold _check_duplicate_subject_timepoint.
  rewrite for_each_ok, Forall_forall. intros subject _.
  rewrite (check_subject_timepoints_eq _ _ _ _ _ _ Hs Ht).
  destruct (is_unique _) eqn:Eu; [reflexivity|].
  exfalso. apply Hno. apply (repeated_timepoint_shares js jt d subject).
  intros Hnd. apply is_unique_NoDup in Hnd. congruence.
Qed.

Lemma create_masking_defined (md : DataFrame) (donor_df recip_df : BoolTable)
  (rc : string) :
  Forall (fun sample =>
            exists donor,
              loc_cell md sample rc = Ok (Str donor)
              /\ In donor (bt_index donor_df))
         (bt_index recip_df) ->
  exists mask, _create_masking md donor_df recip_df rc = Ok mask.
Proof.
  intros H. unfold _create_masking.
  assert (Hp : exists idxs,
             donor_positions md donor_df rc (bt_index recip_df) = Ok idxs).
  { induction H as [|sample l [d [Hd Hin]] _ [idxs IH]]; simpl; [eauto|].
    rewrite Hd. cbn [rbind]. simpl.
    destruct (In_index_of _ _ Hin) as [n Hn]. rewrite Hn. cbn [rbind].
    rewrite IH. cbn [rbind]. eauto. }
  destruct Hp as [idxs Hp]. rewrite Hp. cbn [rbind]. eauto.
Qed.

Lemma In_index_lookup {A} (s : string) (rows : list (string * A)) :
  In s (map fst rows) -> exists v, lookup s rows = Some v.
Proof.
  induction rows as [|[k v] rows IH]; simpl; [tauto|].
  destruct (String.eqb s k) eqn:E; [eauto|].
  intros [H|H]; [|auto]. apply String.eqb_neq in E. congruence.
Qed.

(** The Sample loop runs to its end when every sample has a row in the
    metadata and the three columns are there. *)
Lemma sample_frames_total (d : DataFrame) (num_sum donor_sum : list Z)
  (tc sc rc : string) (samples : list (nat * string)) :
  forall f,
    labels_ok f ->
    List.length (p_columns f) = 7 ->
    Forall (fun cs =>
              exists row,
                sample_row_values d num_sum donor_sum tc sc rc (fst cs)
                  (snd cs) = Ok row)
           samples ->
    exists f', sample_frames f d num_sum donor_sum tc sc rc samples = Ok f'.
Proof.
  induction samples as [|[count sample] rest IH]; intros f Hl Hc HF;
    simpl; [eauto|].
  inversion HF as [|x l' [row Hrow] HF']; subst. cbn [fst snd] in Hrow.
  rewrite Hrow. cbn [rbind].
  rewrite p_set_loc_append; [|assumption|].
  - cbn [rbind]. apply IH; [now apply labels_ok_append | exact Hc | exact HF'].
  - rewrite Hc. eapply sample_row_values_length; eauto.
Qed.

Lemma sample_row_values_defined (d : DataFrame) (num_sum donor_sum : list Z)
  (tc sc rc : string) (jt jr js count : nat) (sample : string) :
  index_of tc (df_columns d) = Some jt ->
  index_of rc (df_columns d) = Some jr ->
  index_of sc (df_columns d) = Some js ->
  In sample (df_index d) ->
  exists row,
    sample_row_values d num_sum donor_sum tc sc rc count sample = Ok row.
Proof.
  intros Ht Hr Hs Hin. unfold sample_row_values.
  destruct (In_index_lookup _ _ Hin) as [cells ->].
  rewrite (row_field_index _ _ _ _ Hr), (row_field_index _ _ _ _ Hs),
          (row_field_index _ _ _ _ Ht).
  cbn [rbind]. eauto.
Qed.

Lemma NoDup_rows_in_table (t : Table) (md : Metadata) :
  NoDup (map fst (md_rows md)) -> NoDup (map fst (rows_in_table t md)).
Proof.
  intros H. unfold rows_in_table.
  rewrite (map_fst_filter (fun s => mem_str s (t_index t))).
  now apply NoDup_filter.
Qed.

(** A sample with a time value whose reference is a sample of the
    table. *)
Definition reference_in_table (t : Table) (jt jr : nat)
  (r : string * list cell) : Prop :=
  cell_at jt r <> NA -> cell_in_labels (cell_at jr r) (t_index t) = true.

(** With filtering and dropping off, [sample_peds] returns a frame on
    every input that is clean: the metadata has every sample of the
    table, each once; the time column is numeric, the reference and the
    subject column categorical; for the samples of the table, the
    reference of every sample with a time value is a sample of the
    table, no subject has two samples at the same time value, and every
    subject has at least as many samples as there are distinct time
    values. *)
Theorem strict_sample_peds_returns :
  forall (h : heap) (table metadata : loc) (t : Table) (md md' : Metadata)
         (time_column reference_column subject_column : string)
         (jt jr js : nat),
    nth_error h table = Some (OTable t) ->
    nth_error h metadata = Some (OMetadata md) ->
    filter_ids md (t_index t) = Ok md' ->
    NoDup (map fst (md_rows md)) ->
    index_of time_column (map fst (md_columns md)) = Some jt ->
    index_of reference_column (map fst (md_columns md)) = Some jr ->
    index_of subject_column (map fst (md_columns md)) = Some js ->
    lookup time_column (md_columns md) = Some Numeric ->
    lookup reference_column (md_columns md) = Some Categorical ->
    lookup subject_column (md_columns md) = Some Categorical ->
    (forall r, In r (rows_in_table t md) -> reference_in_table t jt jr r) ->
    ~ shares_timepoint js jt (rows_in_table t md) ->
    subjects_complete js
      (List.length (timepoints jt (table_metadata t md)))
      (table_metadata t md) ->
    exists l f,
      let run := sample_peds table metadata time_column reference_column
                   subject_column false false h in
      fst run = Ok l
      /\ nth_error (snd run) l = Some (OFrame f).
Proof.
  intros h table metadata t md md' tc rc sc jt jr js Ht Hm Hf Hnd
         Hjt Hjr Hjs Hty Hry Hsy Href Hdup Hcomplete.
  pose proof (sample_peds_run h table metadata t md tc rc sc false false
                Ht Hm) as R.
  assert (E : exists f, sample_peds_frame t md tc rc sc false false = Ok f).
  { pose proof (filter_ids_ok _ _ _ Hf) as [_ [_ [Hc _]]].
    unfold sample_peds_frame, sample_peds_resolve. rewrite Hf.
    cbn [rbind]. cbv zeta. rewrite (filter_ids_table_metadata _ _ _ Hf).
    set (d := table_metadata t md).
    assert (Hdt : index_of tc (df_columns d) = Some jt) by exact Hjt.
    assert (Hdr : index_of rc (df_columns d) = Some jr) by exact Hjr.
    assert (Hds : index_of sc (df_columns d) = Some js) by exact Hjs.
    assert (Hn : _check_for_time_column d tc
                 = Ok (List.length (timepoints jt d))).
    { unfold _check_for_time_column.
      now rewrite (get_column_index _ _ _ Hdt). }
    rewrite Hn. cbn [rbind]. rewrite Hc.
    rewrite (check_column_type_eq _ _ _ _ Hty). cbn [rbind].
    rewrite (check_reference_column_index _ _ _ Hdr). cbn [rbind].
    rewrite (check_column_type_eq _ _ _ _ Hry). cbn [rbind].
    rewrite (filter_associated_reference_eq _ _ _ _ _ _ Hdt Hdr).
    assert (Hex : existsb (timestamped_without_reference jt jr)
                    (df_rows d) = false).
    { apply existsb_false. intros r Hr.
      unfold timestamped_without_reference.
      destruct (notna (cell_at jt r)) eqn:En; [|reflexivity].
      apply notna_true in En. specialize (Href r Hr En).
      destruct (cell_at jr r); simpl in *; try reflexivity. discriminate. }
    rewrite Hex. cbn [rbind].
    rewrite (check_subject_column_index _ _ _ Hds). cbn [rbind].
    rewrite (check_column_type_eq _ _ _ _ Hsy). cbn [rbind].
    rewrite (duplicate_check_complete d sc tc js jt Hds Hdt Hdup).
    cbn [rbind].
    rewrite (check_subjects_eq _ _ _ _ _ _ Hds).
    rewrite (proj1 (subjects_complete_existsb js
                      (List.length (timepoints jt d)) d) Hcomplete).
    cbn [rbind].
    set (used := map (fun r : string * list cell => (fst r, cell_at jr r))
                     (filter (fun r => notna (cell_at jt r)) (df_rows d))).
    assert (Hused : forall s v, In (s, v) used ->
               exists r, In r (df_rows d) /\ fst r = s /\ cell_at jr r = v
                         /\ cell_in_labels v (t_index t) = true).
    { intros s v Hin. apply in_map_iff in Hin.
      destruct Hin as [r [Er Hr]]. inversion Er; subst.
      apply filter_In in Hr. destruct Hr as [Hr Htime].
      exists r. repeat split; auto. apply (Href r Hr).
      now apply notna_true. }
    unfold compute_peds_frame. cbv zeta. rewrite bt_index_binarize.
    rewrite (filter_none
               (fun r : string * cell =>
                  negb (cell_in_labels (snd r) (t_index t))) used).
    2:{ intros [s v] Hin. destruct (Hused s v Hin) as [_ [_ [_ [_ Hl]]]].
        simpl. now rewrite Hl. }
    fold (donor_table used (binarize t)).
    set (recip := _create_recipient_table used d (binarize t)).
    assert (Hrecip : forall s, In s (bt_index recip) ->
               In s (s_index used) /\ In s (df_index d)).
    { intros s Hs. unfold recip in Hs. rewrite recipient_index in Hs.
      apply filter_In in Hs. destruct Hs as [_ Hs].
      apply andb_true_iff in Hs. now rewrite !mem_str_In in Hs. }
    destruct (create_masking_defined d (donor_table used (binarize t))
                recip rc) as [mask Em].
    { apply Forall_forall. intros s Hs. apply Hrecip in Hs.
      destruct Hs as [Hu _]. unfold s_index in Hu.
      apply in_map_iff in Hu. destruct Hu as [[s' v] [Es Hin]].
      simpl in Es. subst s'.
      destruct (Hused s v Hin) as [r [Hr [Efst [Ev Hl]]]].
      destruct v as [z|donor|]; simpl in Hl; try discriminate.
      exists donor. split.
      - unfold loc_cell. destruct r as [s' cells]. simpl in Efst. subst s'.
        rewrite (In_lookup s (df_rows d) cells);
          [|now apply NoDup_rows_in_table | exact Hr].
        rewrite Hdr. exact (f_equal Ok Ev).
      - unfold bt_index, donor_table. cbn [bt_rows].
        rewrite (map_fst_filter
                   (fun k => mem_cell (Str k) (s_values used))).
        apply filter_In. split.
        + change (map fst (bt_rows (binarize t)))
            with (bt_index (binarize t)).
          rewrite bt_index_binarize. now apply mem_str_In.
        + apply mem_cell_In. unfold s_values. apply in_map_iff.
          exists (s, Str donor). auto. }
    rewrite Em. cbn [rbind].
    change (String.eqb "Sample" "Sample") with true. cbv iota.
    apply sample_frames_total; [reflexivity | reflexivity |].
    apply Forall_forall. intros [count s] Hcs. cbn [fst snd].
    apply In_enumerate, nth_error_In in Hcs.
    apply (sample_row_values_defined d _ _ tc sc rc jt jr js); auto.
    now apply Hrecip. }
  destruct E as [f E]. rewrite E in R. destruct R as [l [El Hl]].
  exists l, f. auto.
Qed.

Lemma strict_sample_peds_returns_witness :
  exists l f,
    fst c1_run = Ok l /\ nth_error (snd c1_run) l = Some (OFrame f).
Proof.
  apply (strict_sample_peds_returns c1_heap 0 1 c1_table c1_metadata
           c1_metadata "time" "donor" "subject" 0 1 2);
    try reflexivity.
  - simpl. repeat constructor; simpl; intuition discriminate.
  - intros r [<-|[<-|[<-|[]]]] Hn; try reflexivity.
    now destruct Hn.
  - apply (duplicate_check_sound (table_metadata c1_table c1_metadata)
             "subject" "time" 2 0); reflexivity.
  - apply subjects_complete_existsb. reflexivity.
Defined.

(** ** Errors of the reference and subject columns *)

Lemma check_column_type_mismatch (column_properties : list (string * ctype))
  (parameter_type column : string) :
  lookup column column_properties = Some Numeric ->
  _check_column_type column_properties parameter_type column Categorical
  = Err (AssertionError_column_type Categorical parameter_type column).
Proof. intros H. unfold _check_column_type. now rewrite H. Qed.

(** The validation up to the reference series in use, when the time
    column and the reference column are accepted and no sample with a
    time value is left without a reference. *)
Lemma validation_to_references (t : Table) (md md' : Metadata)
  (tc rc : string) (fm : bool) (jt jr : nat) :
  filter_ids md (t_index t) = Ok md' ->
  index_of tc (map fst (md_columns md)) = Some jt ->
  index_of rc (map fst (md_columns md)) = Some jr ->
  fm = true
  \/ (forall r, In r (rows_in_table t md) ->
                cell_at jt r <> NA -> cell_at jr r <> NA) ->
  exists d used,
    _filter_associated_reference (frame_column jr (to_dataframe md'))
      (to_dataframe md') tc fm rc = Ok (d, used)
    /\ df_index_name d = md_index_name md
    /\ df_columns d = map fst (md_columns md).
Proof.
  intros Hf Hjt Hjr Hclean.
  rewrite (filter_ids_table_metadata _ _ _ Hf).
  set (d0 := table_metadata t md).
  assert (Hdt : index_of tc (df_columns d0) = Some jt) by exact Hjt.
  assert (Hdr : index_of rc (df_columns d0) = Some jr) by exact Hjr.
  rewrite (filter_associated_reference_eq _ _ _ _ _ _ Hdt Hdr).
  destruct (existsb (timestamped_without_reference jt jr) (df_rows d0))
    eqn:Ex.
  - destruct Hclean as [->|Hclean]; [eauto|].
    exfalso. apply existsb_exists in Ex. destruct Ex as [r [Hr Hw]].
    unfold timestamped_without_reference in Hw.
    apply andb_true_iff in Hw. destruct Hw as [Ht Hn].
    apply notna_true in Ht. apply (Hclean r Hr Ht).
    now destruct (cell_at jr r).
  - eauto.
Qed.

(** When the metadata has every sample of the table and its time
    column is accepted: a reference column that is not a column of the
    metadata makes [sample_peds] and [feature_peds] raise the key error
    of the reference column, and one that is declared numeric makes
    both raise the type assertion.  When the reference column is
    accepted too and no sample with a time value is left without a
    reference, the same holds of the subject column.  Nothing has been
    written by then. *)
Theorem reference_and_subject_column_errors :
  forall (h : heap) (table metadata : loc) (t : Table) (md md' : Metadata)
         (time_column reference_column subject_column : string)
         (filter_missing_references drop_incomplete_subjects : bool),
    nth_error h table = Some (OTable t) ->
    nth_error h metadata = Some (OMetadata md) ->
    filter_ids md (t_index t) = Ok md' ->
    lookup time_column (md_columns md) = Some Numeric ->
    let raises e :=
      sample_peds table metadata time_column reference_column
        subject_column filter_missing_references drop_incomplete_subjects h
      = (Err e, h)
      /\ feature_peds table metadata time_column reference_column
           subject_column filter_missing_references h
         = (Err e, h) in
    (~ In reference_column (map fst (md_columns md)) ->
       raises (column_key_error "reference" reference_column
                 (md_index_name md)))
    /\ (lookup reference_column (md_columns md) = Some Numeric ->
          raises (AssertionError_column_type Categorical "reference"
                    reference_column))
    /\ (forall jt jr,
          index_of time_column (map fst (md_columns md)) = Some jt ->
          index_of reference_column (map fst (md_columns md)) = Some jr ->
          lookup reference_column (md_columns md) = Some Categorical ->
          filter_missing_references = true
          \/ (forall r, In r (rows_in_table t md) ->
                        cell_at jt r <> NA -> cell_at jr r <> NA) ->
          (~ In subject_column (map fst (md_columns md)) ->
             raises (column_key_error "subject" subject_column
                       (md_index_name md)))
          /\ (lookup subject_column (md_columns md) = Some Numeric ->
                raises (AssertionError_column_type Categorical "subject"
                          subject_column))).
Proof.
  intros h table metadata t md md' tc rc sc fm di Ht Hm Hf Hty raises.
  pose proof (filter_ids_ok _ _ _ Hf) as [_ [Hn [Hc _]]].
  destruct (lookup_index_of _ _ _ Hty) as [jt0 Hjt0].
  assert (Et : exists n,
             _check_for_time_column (to_dataframe md') tc = Ok n).
  { unfold _check_for_time_column.
    rewrite (get_column_index _ _ jt0); [eauto|]. simpl. now rewrite Hc. }
  destruct Et as [n Et].
  assert (Ett : _check_column_type (md_columns md') "time" tc Numeric
                = Ok tt)
    by (rewrite Hc; now apply check_column_type_eq).
  assert (Hraise : forall e,
             sample_peds_resolve t md tc rc sc fm di = Err e ->
             feature_peds_resolve t md tc rc sc fm = Err e ->
             raises e).
  { intros e Hs Hfe. split.
    - now apply (sample_peds_validation_error _ _ _ t md).
    - now apply (feature_peds_validation_error _ _ _ t md). }
  split; [|split].
  - intros Hin.
    assert (Er : _check_reference_column (to_dataframe md') rc
                 = Err (column_key_error "reference" rc
                          (md_index_name md))).
    { unfold _check_reference_column. rewrite get_column_None.
      - simpl. rewrite Hn. unfold column_key_error.
        now destruct (String.eqb rc (md_index_name md)).
      - simpl. now rewrite Hc. }
    apply Hraise.
    + unfold sample_peds_resolve. rewrite Hf. cbn [rbind].
      rewrite Et. cbn [rbind]. rewrite Ett. cbn [rbind]. now rewrite Er.
    + unfold feature_peds_resolve. rewrite Hf. cbn [rbind].
      rewrite Et. cbn [rbind]. rewrite Ett. cbn [rbind]. now rewrite Er.
  - intros Hry. destruct (lookup_index_of _ _ _ Hry) as [jr0 Hjr0].
    assert (Er : _check_reference_column (to_dataframe md') rc
                 = Ok (frame_column jr0 (to_dataframe md'))).
    { apply check_reference_column_index. simpl. now rewrite Hc. }
    assert (Ert : _check_column_type (md_columns md') "reference" rc
                    Categorical
                  = Err (AssertionError_column_type Categorical
                           "reference" rc))
      by (rewrite Hc; now apply check_column_type_mismatch).
    apply Hraise.
    + unfold sample_peds_resolve. rewrite Hf. cbn [rbind].
      rewrite Et. cbn [rbind]. rewrite Ett. cbn [rbind].
      rewrite Er. cbn [rbind]. now rewrite Ert.
    + unfold feature_peds_resolve. rewrite Hf. cbn [rbind].
      rewrite Et. cbn [rbind]. rewrite Ett. cbn [rbind].
      rewrite Er. cbn [rbind]. now rewrite Ert.
  - intros jt jr Hjt Hjr Hry Hclean.
    assert (Er : _check_reference_column (to_dataframe md') rc
                 = Ok (frame_column jr (to_dataframe md'))).
    { apply check_reference_column_index. simpl. now rewrite Hc. }
    assert (Ert : _check_column_type (md_columns md') "reference" rc
                    Categorical = Ok tt)
      by (rewrite Hc; now apply check_column_type_eq).
    destruct (validation_to_references t md md' tc rc fm jt jr Hf Hjt Hjr
                Hclean) as [d [used [Efa [Hdn Hdc]]]].
    assert (Hprefix : forall e,
               (x <- _check_subject_column d sc ;;
                _check_column_type (md_columns md') "subject" sc
                  Categorical ;;; Ok x) = Err e ->
               raises e).
    { intros e He. apply Hraise.
      - unfold sample_peds_resolve. rewrite Hf. cbn [rbind].
        rewrite Et. cbn [rbind]. rewrite Ett. cbn [rbind].
        rewrite Er. cbn [rbind]. rewrite Ert. cbn [rbind].
        rewrite Efa. cbn [rbind].
        destruct (_check_subject_column d sc); cbn [rbind] in *;
          [|now inversion He].
        destruct (_check_column_type _ "subject" _ _); cbn [rbind] in *;
          [discriminate | now inversion He].
      - unfold feature_peds_resolve. rewrite Hf. cbn [rbind].
        rewrite Et. cbn [rbind]. rewrite Ett. cbn [rbind].
        rewrite Er. cbn [rbind]. rewrite Ert. cbn [rbind].
        rewrite Efa. cbn [rbind].
        destruct (_check_subject_column d sc); cbn [rbind] in *;
          [|now inversion He].
        destruct (_check_column_type _ "subject" _ _); cbn [rbind] in *;
          [discriminate | now inversion He]. }
    split.
    + intros Hin. apply Hprefix.
      unfold _check_subject_column. rewrite get_column_None.
      * rewrite Hdn. unfold column_key_error.
        now destruct (String.eqb sc (md_index_name md)).
      * now rewrite Hdc.
    + intros Hsy. destruct (lookup_index_of _ _ _ Hsy) as [js Hjs].
      apply Hprefix.
      rewrite (check_subject_column_index d sc js)
        by now rewrite Hdc.
      cbn [rbind]. rewrite Hc.
      now rewrite (check_column_type_mismatch _ _ _ Hsy).
Qed.

(** The metadata of the example with its subject column declared
    numeric. *)
Definition numeric_subject_metadata : Metadata :=
  mkMetadata "id"
    [("time", Numeric); ("donor", Categorical); ("subject", Numeric)]
    (md_rows c1_metadata).

Lemma reference_and_subject_column_errors_witness :
  feature_peds 0 1 "time" "id" "subject" false c1_heap
  = (Err (KeyError_column_is_index "reference" "id"), c1_heap)
  /\ sample_peds 0 1 "time" "donor" "subject" false false
       [OTable c1_table; OMetadata numeric_subject_metadata]
     = (Err (AssertionError_column_type Categorical "subject" "subject"),
        [OTable c1_table; OMetadata numeric_subject_metadata]).
Proof.
  split.
  - refine (proj2 (proj1 (reference_and_subject_column_errors c1_heap 0 1
                            c1_table c1_metadata c1_metadata "time" "id"
                            "subject" false false eq_refl eq_refl eq_refl
                            eq_refl) _)).
    simpl. intuition discriminate.
  - refine (proj1 (proj2 (proj2 (proj2
              (reference_and_subject_column_errors
                 [OTable c1_table; OMetadata numeric_subject_metadata] 0 1
                 c1_table numeric_subject_metadata numeric_subject_metadata
                 "time" "donor" "subject" false false eq_refl eq_refl
                 eq_refl eq_refl))
              0 1 eq_refl eq_refl eq_refl _) eq_refl)).
    right. intros r [<-|[<-|[<-|[]]]] Hn; try discriminate.
    now destruct Hn.
Defined.

(** ** The Sample measure, for every recipient *)

Lemma s_filter_items_index_iff (s : Series) (items : list string)
  (i : string) :
  In i (s_index (s_filter_items s items))
  <-> In i items /\ In i (s_index s).
Proof.
  split; [apply s_filter_items_index|].
  intros [Hi Hs]. destruct (In_index_lookup _ _ Hs) as [v Hv].
  unfold s_index, s_filter_items. apply in_map_iff. exists (i, v).
  split; [reflexivity|]. apply in_flat_map. exists i.
  split; [assumption|]. rewrite Hv. simpl. auto.
Qed.

(** For a sample that the subject check keeps in the metadata, the
    check keeps its reference in the series exactly if it was there. *)
Lemma check_subjects_used_iff (ss : Series) (n : nat) (di : bool)
  (d d' : DataFrame) (sc : string) (used used' : Series) (i : string) :
  _check_subjects_in_all_timepoints ss n di d sc used = Ok (d', used') ->
  In i (df_index d') ->
  (In i (s_index used') <-> In i (s_index used)).
Proof.
  unfold _check_subjects_in_all_timepoints.
  destruct (existsb _ _).
  - destruct di; [|discriminate].
    destruct (index_of sc (df_columns d)); [|discriminate].
    intros E. inversion E; subst; clear E. intros Hi.
    rewrite s_filter_items_index_iff. tauto.
  - intros E. inversion E. subst. tauto.
Qed.

(** The samples of the reference series that [_filter_associated_reference]
    returns: the samples of the table with a time value and a
    reference. *)
Lemma references_in_use_samples (t : Table) (md md' : Metadata)
  (jt jr : nat) (s : string) :
  NoDup (map fst (md_rows md)) ->
  filter_ids md (t_index t) = Ok md' ->
  In s (t_index t) ->
  In s (s_index (map (fun r => (fst r, cell_at jr r))
                     (filter (timestamped_with_reference jt jr)
                             (md_rows md'))))
  <-> timed_with_reference_sample md jt jr s = true.
Proof.
  intros Hnd Hf Hs. apply filter_ids_ok in Hf.
  destruct Hf as [_ [_ [_ Hrows]]].
  unfold s_index. rewrite map_map. simpl. rewrite in_map_iff.
  unfold timed_with_reference_sample. split.
  - intros [[s' cells] [Es Hr]]. simpl in Es. subst s'.
    apply filter_In in Hr. destruct Hr as [Hr Hw].
    rewrite Hrows in Hr. apply filter_In in Hr. destruct Hr as [Hr _].
    rewrite (In_lookup _ _ _ Hnd Hr). exact Hw.
  - destruct (lookup s (md_rows md)) as [cells|] eqn:El; [|discriminate].
    intros Hw. apply lookup_In in El. exists (s, cells).
    split; [reflexivity|]. apply filter_In. split; [|exact Hw].
    rewrite Hrows. apply filter_In. split; [assumption|].
    now apply mem_str_In.
Qed.

(** The recipient samples of a call: the samples of the table for which
    the metadata has a time value and a reference and that the subject
    check has kept, in the order of the table. *)
Definition recipient_samples (t : Table) (md : Metadata)
  (resolved : DataFrame) (jt jr : nat) : list string :=
  filter (fun s => timed_with_reference_sample md jt jr s
                   && mem_str s (df_index resolved))
         (t_index t).

Lemma recipient_samples_index (t : Table) (md : Metadata)
  (tc rc sc : string) (fm di : bool) (d : DataFrame) (used : Series)
  (jt jr : nat) :
  NoDup (map fst (md_rows md)) ->
  index_of tc (map fst (md_columns md)) = Some jt ->
  index_of rc (map fst (md_columns md)) = Some jr ->
  sample_peds_resolve t md tc rc sc fm di = Ok (d, used) ->
  bt_index (_create_recipient_table used d (binarize t))
  = recipient_samples t md d jt jr.
Proof.
  intros Hnd Hjt Hjr E. rewrite recipient_index. unfold recipient_samples.
  apply filter_ext_in. intros s Hs.
  destruct (mem_str s (df_index d)) eqn:Hd; [|now rewrite !andb_false_r].
  rewrite !andb_true_r. apply mem_str_In in Hd.
  apply sample_peds_resolve_inv in E.
  destruct E as [md' [jt' [jr' [js [d1 [u1 [n
    [Hf [Hjt' [Hjr' [_ [_ [_ [_ [_ [Hfa [_ [_ Hcs]]]]]]]]]]]]]]]]]].
  pose proof (filter_ids_ok _ _ _ Hf) as [_ [_ [Hc _]]].
  rewrite Hc in Hjt', Hjr'.
  assert (jt' = jt) by congruence. assert (jr' = jr) by congruence.
  subst jt' jr'.
  apply filter_associated_reference_result with (jt := jt) (jr := jr)
    in Hfa; [|simpl; now rewrite Hc|simpl; now rewrite Hc].
  destruct Hfa as [Hu _]. simpl in Hu.
  apply Bool.eq_iff_eq_true. rewrite mem_str_In.
  rewrite (check_subjects_used_iff _ _ _ _ _ _ _ _ s Hcs Hd), Hu.
  exact (references_in_use_samples t md md' jt jr s Hnd Hf Hs).
Qed.

(** With dropping off, the subject check keeps every sample. *)
Lemma recipient_samples_no_drop (t : Table) (md : Metadata)
  (tc rc sc : string) (fm : bool) (d : DataFrame) (used : Series)
  (jt jr : nat) :
  NoDup (map fst (md_rows md)) ->
  index_of tc (map fst (md_columns md)) = Some jt ->
  index_of rc (map fst (md_columns md)) = Some jr ->
  sample_peds_resolve t md tc rc sc fm false = Ok (d, used) ->
  recipient_samples t md d jt jr
  = filter (timed_with_reference_sample md jt jr) (t_index t).
Proof.
  intros Hnd Hjt Hjr E. unfold recipient_samples.
  apply filter_ext_in. intros s Hs.
  rewrite <- (resolved_samples _ _ _ _ _ _ _ _ _ _ s Hnd Hjt Hjr E Hs).
  now destruct (mem_str s (s_index used)), (mem_str s (df_index d)).
Qed.

(** The row of a recipient sample: its donor is the reference that the
    metadata has for the sample; the row holds the number of features
    positive in both the donor's and the sample's row of the table, the
    number of features positive in the donor's row, and their
    quotient. *)
Definition sample_measure_row (t : Table) (md : Metadata) (jr : nat)
  (f : PedsFrame) (sample : string) (row : list value) : Prop :=
  exists cells donor recipient_row donor_row,
    lookup sample (md_rows md) = Some cells
    /\ nth jr cells NA = Str donor
    /\ lookup sample (t_rows t) = Some recipient_row
    /\ lookup donor (t_rows t) = Some donor_row
    /\ p_field f row "id" = Some (VStr sample)
    /\ p_field f row "donor" = Some (VCell (Str donor))
    /\ p_field f row "transfered_donor_features"
       = Some (VInt (shared_positive_features donor_row recipient_row))
    /\ p_field f row "total_donor_features"
       = Some (VInt (positive_features donor_row))
    /\ p_field f row "measure"
       = Some (VFloat
                 (true_divide
                    (shared_positive_features donor_row recipient_row)
                    (positive_features donor_row))).

(** C1.  The frame [sample_peds] returns has one row for each recipient
    sample, in the order of the table, and no other row; the recipient
    samples are the samples of the table for which the metadata has a
    time value and a reference and that the subject check has kept,
    which is all of them when dropping is off.  The row of a recipient
    holds, for the donor the metadata assigns to it: in
    [transfered_donor_features] the number of features positive in both
    the donor's and the recipient's row of the table, in
    [total_donor_features] the number of features positive in the
    donor's row, and in [measure] the quotient of the two. *)
Theorem sample_peds_measure :
  forall (h h' : heap) (table metadata l : loc) (t : Table) (md : Metadata)
         (time_column reference_column subject_column : string)
         (filter_missing_references drop_incomplete_subjects : bool),
    nth_error h table = Some (OTable t) ->
    nth_error h metadata = Some (OMetadata md) ->
    NoDup (map fst (md_rows md)) ->
    sample_peds table metadata time_column reference_column subject_column
      filter_missing_references drop_incomplete_subjects h = (Ok l, h') ->
    exists f resolved used_references jt jr,
      nth_error h' l = Some (OFrame f)
      /\ sample_peds_resolve t md time_column reference_column
           subject_column filter_missing_references
           drop_incomplete_subjects
         = Ok (resolved, used_references)
      /\ index_of time_column (map fst (md_columns md)) = Some jt
      /\ index_of reference_column (map fst (md_columns md)) = Some jr
      /\ Forall2 (sample_measure_row t md jr f)
           (recipient_samples t md resolved jt jr)
           (map snd (p_rows f))
      /\ (drop_incomplete_subjects = false ->
          recipient_samples t md resolved jt jr
          = filter (timed_with_reference_sample md jt jr) (t_index t)).
Proof.
  intros h h' table metadata l t md tc rc sc fm di Ht Hm Hnd E.
  pose proof (sample_peds_run h table metadata t md tc rc sc fm di Ht Hm)
    as R.
  rewrite E in R. apply returns_frame_ok in R. destruct R as [f [Ef Hf]].
  apply sample_peds_frame_ok in Ef. destruct Ef as [d [used [Er Ec]]].
  pose proof (sample_peds_resolve_ok _ _ _ _ _ _ _ _ _ Er)
    as [Hndt [Hcols Hrows]].
  pose proof (sample_peds_resolve_inv _ _ _ _ _ _ _ _ _ Er)
    as [md' [jt [jr [js [d1 [u1 [n
         [Hfi [Hjt [Hjr _]]]]]]]]]].
  pose proof (filter_ids_ok _ _ _ Hfi) as [_ [_ [Hcm _]]].
  rewrite Hcm in Hjt, Hjr.
  apply compute_sample_frame_spec in Ec.
  destruct Ec as [Hc [_ [Hids Hspec]]].
  exists f, d, used, jt, jr.
  split; [assumption|]. split; [assumption|]. split; [assumption|].
  split; [assumption|]. split.
  - rewrite <- (recipient_samples_index t md tc rc sc fm di d used jt jr
                  Hnd Hjt Hjr Er).
    eapply Forall2_impl_In_r; [exact Hids|].
    intros sample row Hin Hid.
    destruct (Hspec row Hin)
      as [sample' [cells [dn [drow [rrow [subject [time
           [Erow [Hcells [Hrc [Hd Hr]]]]]]]]]]].
    assert (sample' = sample).
    { rewrite Erow in Hid. simpl in Hid. now inversion Hid. }
    subst sample'.
    apply lookup_binarize in Hd. destruct Hd as [zd [Hzd Ed]].
    apply In_binarize in Hr; [|assumption]. destruct Hr as [zr [Hzr Ezr]].
    assert (Hnum : sum_bools (and_rows drow rrow)
                   = shared_positive_features zd zr).
    { subst drow rrow. rewrite and_rows_map.
      now rewrite (sum_bools_filter
                     (fun xy => (0 <? fst xy)%Z && (0 <? snd xy)%Z)). }
    assert (Hden : sum_bools drow = positive_features zd).
    { subst drow. apply sum_bools_filter. }
    rewrite Hnum, Hden in Erow.
    exists cells, dn, zr, zd. unfold p_field. rewrite Hc, Erow.
    repeat split; try reflexivity; try assumption.
    + apply In_lookup; [assumption|]. apply Hrows. now apply lookup_In.
    + rewrite Hcols, (row_field_index _ _ _ _ Hjr) in Hrc.
      now inversion Hrc.
  - intros ->.
    exact (recipient_samples_no_drop t md tc rc sc fm d used jt jr
             Hnd Hjt Hjr Er).
Qed.

(** On the example: recipient A has two of the three features of its
    donor D, recipient B one of them, and D itself, without a time
    value, has no row. *)
Lemma sample_peds_measure_witness :
  exists f row_a row_b,
    nth_error (snd c1_run) 2 = Some (OFrame f)
    /\ map snd (p_rows f) = [row_a; row_b]
    /\ p_field f row_a "id" = Some (VStr "A")
    /\ p_field f row_a "transfered_donor_features" = Some (VInt 2)
    /\ p_field f row_a "total_donor_features" = Some (VInt 3)
    /\ p_field f row_a "measure" = Some (VFloat (FVal (2 # 3)))
    /\ p_field f row_b "id" = Some (VStr "B")
    /\ p_field f row_b "transfered_donor_features" = Some (VInt 1)
    /\ p_field f row_b "total_donor_features" = Some (VInt 3)
    /\ p_field f row_b "measure" = Some (VFloat (FVal (1 # 3))).
Proof.
  assert (Hnd : NoDup (map fst (md_rows c1_metadata))).
  { simpl. repeat constructor; simpl; intuition discriminate. }
  destruct (sample_peds_measure c1_heap (snd c1_run) 0 1 2 c1_table
              c1_metadata "time" "donor" "subject" false false
              eq_refl eq_refl Hnd eq_refl)
    as [f [resolved [used [jt [jr [Hf [_ [Hjt [Hjr [HF Hrec]]]]]]]]]].
  rewrite (Hrec eq_refl) in HF.
  simpl in Hjt, Hjr. inversion Hjt; subst jt. inversion Hjr; subst jr.
  change (filter (timed_with_reference_sample c1_metadata 0 1)
                 (t_index c1_table))
    with ["A"; "B"] in HF.
  inversion HF as [|sa row_a la rows_a Ha HF' Ela Erows]; subst.
  inversion HF' as [|sb row_b lb rows_b Hb HF'' Elb Erows']; subst.
  inversion HF''; subst.
  exists f, row_a, row_b.
  split; [assumption|]. split; [symmetry; assumption|].
  destruct Ha as [ca [da [ra [dra [Hca [Hda [Hra [Hdra
    [Hid [_ [Hnum [Hden Hm]]]]]]]]]]]].
  destruct Hb as [cb [db [rb [drb [Hcb [Hdb [Hrb [Hdrb
    [Hidb [_ [Hnumb [Hdenb Hmb]]]]]]]]]]]].
  simpl in Hca, Hcb. inversion Hca; subst ca. inversion Hcb; subst cb.
  simpl in Hda, Hdb. inversion Hda; subst da. inversion Hdb; subst db.
  simpl in Hra, Hrb, Hdra, Hdrb.
  inversion Hra; subst ra. inversion Hrb; subst rb.
  inversion Hdra; subst dra. inversion Hdrb; subst drb.
  repeat split; assumption.
Defined.
